(** * Clerky CrewAI backend: routing and orchestration of [crew.py]

    A shallow embedding of [src/crewai_backend/crew.py]: the intent
    classifier [classify_intent], the task templates, and the two entry points
    [run_single_agent] and [run_full_crew] with their [try]/[except] blocks,
    and of the endpoints of [src/crewai_backend/server.py] that call them.

    Conventions.
    - A Python [str] is a [string]; the development is faithful on ASCII text:
      [lower] folds ['A'..'Z'] only.
    - A [dict] whose iteration order is observed ([scores], [agents]) is an
      association list in insertion order; the result dictionaries, which are
      only looked up by key, are [gmap string value].
    - The CrewAI library (LLM, Agent, Task, Crew) is outside the repository.
      Its constructors are records; the text-completion backend is a field
      of [World], so every statement quantifies over every backend; the
      test request of the two connectivity checks is answered by [Probes],
      which logs it.
    - [os.environ] refuses a null character with a [ValueError]. *)

From Stdlib Require Import ZArith Ascii String.
From stdpp Require Import gmap strings list.

Local Open Scope Z_scope.

(** ** Python string primitives *)

Module Py.

(** [c.lower()] on one ASCII character. *)
Definition lower_ascii (c : ascii) : ascii :=
  let n := nat_of_ascii c in
  if ((65 <=? n) && (n <=? 90))%nat then ascii_of_nat (n + 32) else c.

(** [s.lower()]. *)
Fixpoint lower (s : string) : string :=
  match s with
  | EmptyString => EmptyString
  | String c s' => String (lower_ascii c) (lower s')
  end.

(** [s.startswith(p)]. *)
Fixpoint startswith (s p : string) {struct p} : bool :=
  match p, s with
  | EmptyString, _ => true
  | String _ _, EmptyString => false
  | String a p', String b s' => if Ascii.eqb a b then startswith s' p' else false
  end.

(** [k in s] for strings: [k] occurs in [s] as a substring. *)
Fixpoint contains (k s : string) : bool :=
  startswith s k ||
  match s with
  | EmptyString => false
  | String _ s' => contains k s'
  end.

(** [any(p(x) for x in l)]. *)
Definition any {A} (p : A → bool) (l : list A) : bool := existsb p l.

(** Truthiness of a [str]: non-empty. *)
Definition truthy (s : string) : bool :=
  match s with EmptyString => false | _ => true end.

(** [a or b] on strings. *)
Definition or_else (a b : string) : string := if truthy a then a else b.

(** [max(d, key=f)] over the keys of a dict in insertion order: the first
    element whose key value is not exceeded by any other. *)
Fixpoint max_from {A} (key : A → Z) (best : A) (l : list A) : A :=
  match l with
  | [] => best
  | x :: l' => max_from key (if key best <? key x then x else best) l'
  end.

Definition max_by {A} (key : A → Z) (l : list A) : option A :=
  match l with
  | [] => None
  | x :: l' => Some (max_from key x l')
  end.

End Py.

(** ** Dictionaries in insertion order *)

Definition odict (V : Type) : Type := list (string * V).

Definition keys {V} (d : odict V) : list string := map fst d.

(** [d.get(k)] *)
Fixpoint lookup_od {V} (d : odict V) (k : string) : option V :=
  match d with
  | [] => None
  | (k', v) :: d' => if String.eqb k' k then Some v else lookup_od d' k
  end.

(** [d[k] += n] for a key already present: the position of [k] is kept. *)
Definition add_at (k : string) (n : Z) (d : odict Z) : odict Z :=
  map (λ kv, if String.eqb (fst kv) k then (fst kv, snd kv + n) else kv) d.

(** ** Intent classification (crew.py, lines 297-350) *)

Definition research_kw : list string :=
  ["research"; "case law"; "precedent"; "statute"; "find"; "search";
   "cite"; "citation"; "authority"; "holding"; "ruling"; "sol";
   "limitation"; "rule"; "regulation"; "code"; "preemption"].

Definition ks_phrases : list string :=
  ["k.s.a"; "ksa "; "kansas statute"; "chapter 60"; "10th circuit"].

Definition mo_phrases : list string :=
  ["rsmo"; "r.s.mo"; "missouri statute"; "missouri supreme court rule"; "8th circuit"].

Definition draft_kw : list string :=
  ["draft"; "write"; "prepare"; "create"; "generate"; "motion"; "complaint";
   "letter"; "brief"; "contract"; "agreement"; "petition"; "template";
   "engagement"; "demand"; "discovery request"].

Definition analyst_kw : list string :=
  ["risk"; "assess"; "evaluat"; "analyz"; "review"; "strength"; "weakness";
   "exposure"; "damage"; "inconsisten"; "deposition"; "enforceab"; "score";
   "audit"; "calculate"; "comparative fault"].

Definition strategist_kw : list string :=
  ["strateg"; "settle"; "settlement"; "timeline"; "calendar"; "deadline";
   "budget"; "scenario"; "option"; "plan"; "mediat"; "arbitrat"; "trial";
   "recommend"; "proactive"; "missing"; "next step"; "appeal"].

(** [for k in kws: if k in msg: scores[role] += 3] *)
Definition bump_each (role : string) (kws : list string) (msg : string)
    (scores : odict Z) : odict Z :=
  fold_left (λ sc k, if Py.contains k msg then add_at role 3 sc else sc) kws scores.

(** [if cond: scores[role] += n] *)
Definition bump_if (cond : bool) (role : string) (n : Z) (scores : odict Z) : odict Z :=
  if cond then add_at role n scores else scores.

(** The [scores] dictionary just before the winner is picked. *)
Definition score_table (message : string) : odict Z :=
  let msg := Py.lower message in
  let scores := [("researcher", 0); ("analyst", 0); ("drafter", 0); ("strategist", 0)] in
  (* Researcher signals *)
  let scores := bump_each "researcher" research_kw msg scores in
  let scores := bump_if (Py.any (λ p, Py.contains p msg) ks_phrases) "researcher" 6 scores in
  let scores := bump_if (Py.any (λ p, Py.contains p msg) mo_phrases) "researcher" 6 scores in
  (* Drafter signals *)
  let scores := bump_each "drafter" draft_kw msg scores in
  let scores := bump_if (Py.contains "draft a" msg || Py.contains "draft the" msg
                         || Py.contains "draft my" msg) "drafter" 5 scores in
  let scores := bump_if (Py.contains "motion to" msg) "drafter" 6 scores in
  (* Analyst signals *)
  let scores := bump_each "analyst" analyst_kw msg scores in
  let scores := bump_if (Py.contains "risk assess" msg) "analyst" 5 scores in
  let scores := bump_if (Py.contains "what am i missing" msg) "analyst" 4 scores in
  (* Strategist signals *)
  let scores := bump_each "strategist" strategist_kw msg scores in
  let scores := bump_if (Py.contains "what am i missing" msg) "strategist" 5 scores in
  scores.

(** [scores.get] as used for the [key=] of [max]; every key met is present. *)
Definition score_in (scores : odict Z) (role : string) : Z :=
  default 0 (lookup_od scores role).

Definition classify_intent (message : string) : string :=
  let scores := score_table message in
  (* Find winner *)
  match Py.max_by (score_in scores) (keys scores) with
  | Some best => if 0 <? score_in scores best then best else "strategist"
  | None => "strategist"   (* no key: never the case, [scores] has four *)
  end.

(** ** Exceptions and dictionary values *)

(** Instances of [Exception], the class both handlers catch.  Signals that
    are not ([KeyboardInterrupt], [SystemExit]) are outside the model. *)
Inductive exn : Type :=
  | KeyError (key : string)               (* [d[k]] on a missing key *)
  | Error (cls : string) (msg : string).  (* any other exception; [str(e) = msg] *)

Module Repr.

Definition dquote : ascii := ascii_of_nat 34.
Definition squote : ascii := "'"%char.
Definition backslash : ascii := "\"%char.

Definition hex_digit (n : nat) : ascii :=
  nth n (list_ascii_of_string "0123456789abcdef") "0"%char.

Definition char (quote c : ascii) : string :=
  let n := nat_of_ascii c in
  if Ascii.eqb c quote || Ascii.eqb c backslash then String backslash (String c "")
  else if (n =? 9)%nat then "\t"
  else if (n =? 10)%nat then "\n"
  else if (n =? 13)%nat then "\r"
  else if ((n <? 32) || (n =? 127))%nat
       then "\x" +:+ String (hex_digit (n / 16)) (String (hex_digit (n mod 16)) "")
  else String c "".

Fixpoint body (quote : ascii) (s : string) : string :=
  match s with
  | EmptyString => EmptyString
  | String c s' => char quote c +:+ body quote s'
  end.

(** [repr(s)] of an ASCII [str]: double quotes only when [s] holds a single
    quote and no double quote. *)
Definition repr (s : string) : string :=
  let quote :=
    if Py.contains (String squote "") s && negb (Py.contains (String dquote "") s)
    then dquote else squote in
  String quote (body quote s +:+ String quote "").

End Repr.

(** [str(e)] *)
Definition str_exn (e : exn) : string :=
  match e with
  | KeyError key => Repr.repr key
  | Error _ msg => msg
  end.

(** Values stored in the result dictionaries. *)
Inductive value : Type :=
  | VBool (b : bool)
  | VStr (s : string)
  | VInt (n : Z)
  | VList (l : list string)
  | VUsage (total_tokens : Z).

(** ** CrewAI objects *)

Record LLM : Type := {
  model : string;
  temperature : Z * Z;        (* decimal literal as numerator, denominator *)
  max_tokens : Z;
  api_key : option string;    (* keyword passed only when set *)
  base_url : option string;
}.

Record Agent : Type := {
  role : string;
  goal : string;
  backstory : string;
  llm : LLM;
  verbose : bool;
  allow_delegation : bool;
  system_prompt : string;
}.

Record Task : Type := {
  description : string;
  agent : Agent;
  expected_output : string;
}.

Inductive Process : Type := sequential | hierarchical.

Record Crew : Type := {
  crew_agents : list Agent;
  crew_tasks : list Task;
  process : Process;
  crew_verbose : bool;
}.

(** What one completion call gives back. *)
Record Completion : Type := { text : string; used_tokens : Z }.

(** [CrewOutput]: [str(result)] is [raw]. *)
Record CrewOutput : Type := { raw : string; token_usage : Z }.

Definition nl : string := String (ascii_of_nat 10) "".

(** Lines of a triple-quoted literal, each closed by a newline. *)
Definition unlines (ls : list string) : string :=
  fold_right (λ l acc, l +:+ nl +:+ acc) "" ls.

(** ** The world a request runs in *)

(** Everything outside the two entry points: the process environment, the
    parsed [~/.genspark_llm.yaml] (the [api_key] and [base_url] strings of its
    [openai] section when the file exists and loads, defaults applied), the
    date of the import, the CrewAI constructor of [LLM] (which may raise), the
    completion backend (its answer may depend on every task submitted so
    far), and the log of completion calls issued.  The constructors of
    [Agent], [Task] and [Crew] build their records and do nothing else. *)
Record World : Type := {
  environ : gmap string string;
  yaml_openai : option (string * string);
  today : string;
  llm_rejects : LLM → option exn;
  complete : list Task → Task → exn + Completion;
  calls : list Task;
}.

Definition log_call (t : Task) (w : World) : World :=
  {| environ := environ w; yaml_openai := yaml_openai w; today := today w;
     llm_rejects := llm_rejects w; complete := complete w;
     calls := calls w ++ [t] |}.

(** ** Computations that may raise

    [M S A]: a computation over a state [S] that returns an [A] or raises. *)

Definition M (S A : Type) : Type := S → (exn + A) * S.

Definition ret {S A} (a : A) : M S A := λ s, (inr a, s).

Definition raise {S A} (e : exn) : M S A := λ s, (inl e, s).

Definition bind {S A B} (m : M S A) (k : A → M S B) : M S B :=
  λ s, match m s with
       | (inr a, s') => k a s'
       | (inl e, s') => (inl e, s')
       end.

(** [try: body / except Exception as e: handler(e)] *)
Definition try_except {S A} (body : M S A) (handler : exn → M S A) : M S A :=
  λ s, match body s with
       | (inl e, s') => handler e s'
       | (inr a, s') => (inr a, s')
       end.

Notation "x <- m ;; k" := (bind m (λ x, k))
  (at level 100, m at next level, right associativity,
   format "'[v' x  <-  m  ;;  '/' k ']'").

(** Reading the state. *)
Definition gets {S A} (f : S → A) : M S A := λ s, (inr (f s), s).

(** A function body with one local variable that is rebound on the way: the
    state is the variable paired with the world. *)
Definition in_world {L A} (m : M World A) : M (L * World) A :=
  λ s, let '(r, w') := m (snd s) in (r, (fst s, w')).

Definition get_local {L} : M (L * World) L := λ s, (inr (fst s), s).

Definition set_local {L} (l : L) : M (L * World) unit := λ s, (inr tt, (l, snd s)).

Definition with_local {L A} (l : L) (m : M (L * World) A) : M World A :=
  λ w, let '(r, s') := m (l, w) in (r, snd s').

(** [d[k]] *)
Definition getitem {S V} (d : odict V) (k : string) : M S V :=
  match lookup_od d k with
  | Some v => ret v
  | None => raise (KeyError k)
  end.

(** ** LLM configuration (crew.py, lines 17-69) *)

Record LLMConfig : Type := {
  cfg_api_key : string;
  cfg_base_url : string;
  cfg_model : string;
}.

(** [os.environ.get(k, d)] *)
Definition getenv (w : World) (k d : string) : string := default d (environ w !! k).

Definition get_llm_config (w : World) : LLMConfig :=
  (* Priority 1: direct env vars *)
  let api_key := getenv w "OPENAI_API_KEY" "" in
  let base_url := getenv w "OPENAI_BASE_URL" "" in
  let model := getenv w "CREWAI_MODEL" "gpt-5-mini" in
  (* Priority 2: YAML config file *)
  let '(api_key, base_url) :=
    match yaml_openai w with
    | Some (yaml_key, yaml_url) =>
        (if Py.truthy yaml_key && negb (Py.startswith yaml_key "${") then yaml_key else api_key,
         if Py.truthy yaml_url && negb (Py.startswith yaml_url "${") then yaml_url else base_url)
    | None => (api_key, base_url)
    end in
  (* Priority 3: Novita AI endpoint *)
  let novita_key := getenv w "NOVITA_API_KEY" "" in
  let novita_url := getenv w "NOVITA_BASE_URL" "https://api.novita.ai/v3/openai" in
  if Py.truthy novita_key && negb (Py.truthy api_key)
  then {| cfg_api_key := novita_key; cfg_base_url := novita_url;
          cfg_model := getenv w "CREWAI_MODEL" "claude-3-5-sonnet-20241022" |}
  else {| cfg_api_key := api_key; cfg_base_url := base_url; cfg_model := model |}.

(** The constructor call of [LLM] on the keyword arguments. *)
Definition LLM_new (kwargs : LLM) : M World LLM :=
  λ w, match llm_rejects w kwargs with
       | Some e => (inl e, w)
       | None => (inr kwargs, w)
       end.

Definition create_llm : M World LLM :=
  cfg <- gets get_llm_config ;;
  LLM_new {| model := cfg_model cfg;
             temperature := (1, 10);
             max_tokens := 4096;
             api_key := if Py.truthy (cfg_api_key cfg) then Some (cfg_api_key cfg) else None;
             base_url := if Py.truthy (cfg_base_url cfg) then Some (cfg_base_url cfg) else None |}.

(** ** The Kansas/Missouri system prompt (crew.py, lines 73-104) *)

Definition KS_MO_SYSTEM (CURRENT_DATE : string) : string :=
  unlines [
    "You are Clerky AI Senior Partner — 25+ years experience, licensed in Kansas and Missouri.";
    "Current date: " +:+ CURRENT_DATE +:+ ".";
    "";
    "KANSAS RULES (auto-apply when jurisdiction = Kansas):";
    "- K.S.A. (2025-2026 session) — primary statutory authority";
    "- K.S.A. 60-513: 2-year PI/negligence SOL — always flag deadline";
    "- K.S.A. 60-258a: Modified comparative fault with 50% bar — plaintiff BARRED if >=50% at fault";
    "- PROPORTIONAL FAULT ONLY: No joint & several liability; each defendant pays only proportionate share";
    "- Empty-chair defense: Non-party fault allocation permitted";
    "- No mandatory presuit notice for standard negligence (KTCA K.S.A. 75-6101 for govt entities)";
    "- Kansas Supreme Court, Court of Appeals, District Courts + 10th Circuit precedent";
    "";
    "MISSOURI RULES (auto-apply when jurisdiction = Missouri):";
    "- RSMo (2025-2026 session) — primary statutory authority";
    "- RSMo § 516.120: 5-year PI SOL — always flag deadline; RSMo § 516.105: 2-year med-mal SOL";
    "- RSMo § 537.765: PURE comparative fault — plaintiff recovers even at 99% fault";
    "- RSMo § 537.067: Joint & several liability ONLY when defendant >=51% at fault";
    "- Mo.Sup.Ct.R. 55.05: FACT PLEADING required (stricter than federal notice pleading)";
    "- Mo.Sup.Ct.R. 56.01(b): Discovery proportionality & ESI cost-shifting rules";
    "- RSMo § 538.225: Affidavit of merit required for medical malpractice";
    "- Missouri Supreme Court, Court of Appeals (Eastern/Western/Southern), Circuit Courts + 8th Circuit";
    "";
    "CORE RULES:";
    "1. Always think step-by-step and show your reasoning";
    "2. NEVER hallucinate cases, statutes, or citations — verify on ksrevisor.gov or revisor.mo.gov";
    "3. Always cite authoritative sources with pinpoint citations";
    "4. Flag risks, SOL, ethical issues, and comparative-fault implications IMMEDIATELY";
    "5. Maintain strict client confidentiality";
    "6. Structure: Summary → Analysis → Recommendations → Next Actions → Sources"
  ].

(** ** Agent definitions (crew.py, lines 108-193) *)

Definition create_agents (llm : LLM) : M World (odict Agent) :=
  date <- gets today ;;
  let researcher := {|
    role := "Researcher Agent";
    goal :=
      "Find and cite the most recent, authoritative Kansas and Missouri " +:+
      "case law, statutes, rules, and 8th/10th Circuit precedent. " +:+
      "Auto-flag SOL deadlines and comparative fault rules.";
    backstory :=
      "You are a 25-year Midwest litigator obsessed with pinpoint citations. " +:+
      "You maintain embedded knowledge bases for K.S.A., RSMo, Kansas Supreme Court, " +:+
      "Missouri Supreme Court, 8th Circuit, and 10th Circuit case law. " +:+
      "You NEVER hallucinate a citation — if unsure, say 'verify on ksrevisor.gov or revisor.mo.gov'. " +:+
      "You always include source URLs.";
    llm := llm;
    verbose := true;
    allow_delegation := false;
    system_prompt := KS_MO_SYSTEM date |} in
  let analyst := {|
    role := "Analyst Agent";
    goal :=
      "Risk assessment, comparative fault calculation, outcome prediction, " +:+
      "damages exposure analysis. Score risks 1-10 on six factors: " +:+
      "liability, damages, SOL, comparative fault, evidence gaps, deadline management.";
    backstory :=
      "You are a forensic strategist who always flags SOL risks, conflicts, " +:+
      "and 50%/pure comparative implications. You produce quantified risk scorecards " +:+
      "with SWOT analysis. For Kansas, emphasize proportional-only fault. " +:+
      "For Missouri, emphasize J&S threshold at 51%.";
    llm := llm;
    verbose := true;
    allow_delegation := false;
    system_prompt := KS_MO_SYSTEM date |} in
  let drafter := {|
    role := "Drafter Agent";
    goal :=
      "Produce perfect pleadings, demand letters, motions, complaints, and contracts " +:+
      "in proper Kansas or Missouri format with all required sections and citations.";
    backstory :=
      "You are a former AmLaw 100 associate who drafts faster and cleaner than any human. " +:+
      "You know Kansas Supreme Court Rule 170 formatting, Missouri Mo.Sup.Ct.R. 55.03/55.05 " +:+
      "fact-pleading requirements, and always include Certificates of Service. " +:+
      "You output clean Markdown with [Citation] footnotes.";
    llm := llm;
    verbose := true;
    allow_delegation := false;
    system_prompt :=
      KS_MO_SYSTEM date +:+ nl +:+ "Always output in clean Markdown with [Citation] footnotes." |} in
  let strategist := {|
    role := "Strategist Agent";
    goal :=
      "Settlement strategies, litigation timelines, budget projections, " +:+
      "venue analysis (KS vs MO forum selection), ADR recommendations, " +:+
      "and proactive 'what am I missing?' checklists.";
    backstory :=
      "You are a senior partner who thinks three moves ahead and calculates " +:+
      "expected values. You know the MO Court of Appeals 3-district system, " +:+
      "discovery proportionality budgeting under Mo.Sup.Ct.R. 56.01(b), " +:+
      "and KS court-annexed mediation programs. You always provide " +:+
      "3 strategic options with pros/cons and expected value calculations.";
    llm := llm;
    verbose := true;
    allow_delegation := false;
    system_prompt := KS_MO_SYSTEM date |} in
  ret [("researcher", researcher);
       ("analyst", analyst);
       ("drafter", drafter);
       ("strategist", strategist)].

(** ** Task templates (crew.py, lines 198-292) *)

Definition create_research_task (agent : Agent) (query jurisdiction : string) : Task :=
  {| description :=
       "Research the following legal question under " +:+ jurisdiction +:+ " law:" +:+ nl +:+ nl +:+
       query +:+ nl +:+ nl +:+
       "Provide:" +:+ nl +:+
       "1. Relevant statutes with pinpoint citations and URLs" +:+ nl +:+
       "2. Key case law with holdings and citations" +:+ nl +:+
       "3. SOL analysis and deadline flags" +:+ nl +:+
       "4. Comparative fault implications (KS 50% bar / MO pure comparative)" +:+ nl +:+
       "5. Procedural requirements specific to " +:+ jurisdiction +:+ nl +:+
       "6. Risks and verification notes" +:+ nl +:+
       "7. Recommended next actions";
     agent := agent;
     expected_output :=
       "Structured legal research memo with: Summary, Statutory Authority " +:+
       "(with URLs), Case Law, SOL & Comparative Fault flags, Procedural " +:+
       "Framework, Risks, and Next Actions." |}.

Definition create_analysis_task (agent : Agent) (query jurisdiction matter_facts : string) : Task :=
  {| description :=
       "Perform a comprehensive risk analysis for the following matter " +:+
       "under " +:+ jurisdiction +:+ " law:" +:+ nl +:+ nl +:+
       "Query: " +:+ query +:+ nl +:+
       "Matter Facts: " +:+ Py.or_else matter_facts "Not specified" +:+ nl +:+ nl +:+
       "Score risks 1-10 on these factors:" +:+ nl +:+
       "- Liability Exposure" +:+ nl +:+
       "- Damages/Exposure" +:+ nl +:+
       "- SOL/Deadlines" +:+ nl +:+
       "- Comparative Fault Risk" +:+ nl +:+
       "- Evidence Gaps" +:+ nl +:+
       "- Deadline Management" +:+ nl +:+ nl +:+
       "Include SWOT analysis and damages scenarios.";
     agent := agent;
     expected_output :=
       "Risk scorecard (table with factor/score/risk/notes), overall risk " +:+
       "rating, SWOT analysis, comparative fault analysis, damages scenarios, " +:+
       "and recommended actions." |}.

Definition create_drafting_task (agent : Agent)
    (query jurisdiction document_type matter_facts : string) : Task :=
  let doc_type := Py.or_else document_type "legal document" in
  {| description :=
       "Draft a " +:+ doc_type +:+ " under " +:+ jurisdiction +:+ " law:" +:+ nl +:+ nl +:+
       "Instructions: " +:+ query +:+ nl +:+
       "Matter Facts: " +:+ Py.or_else matter_facts "General template" +:+ nl +:+ nl +:+
       "Include all required sections per " +:+ jurisdiction +:+ " rules:" +:+ nl +:+
       "- Proper caption and formatting" +:+ nl +:+
       "- All substantive sections" +:+ nl +:+
       "- Jurisdiction-specific requirements" +:+ nl +:+
       "- Certificate of Service" +:+ nl +:+
       "- Citation footnotes";
     agent := agent;
     expected_output :=
       "Complete " +:+ doc_type +:+ " in Markdown format with proper caption, " +:+
       "all required sections, jurisdiction-specific requirements, " +:+
       "citations with [Footnote] format, and review checklist." |}.

Definition create_strategy_task (agent : Agent) (query jurisdiction matter_facts : string) : Task :=
  {| description :=
       "Develop a litigation strategy for the following under " +:+ jurisdiction +:+ " law:" +:+ nl +:+ nl +:+
       "Query: " +:+ query +:+ nl +:+
       "Matter Facts: " +:+ Py.or_else matter_facts "Not specified" +:+ nl +:+ nl +:+
       "Provide:" +:+ nl +:+
       "1. Three settlement strategy options with expected value calculations" +:+ nl +:+
       "2. Litigation timeline with key deadlines" +:+ nl +:+
       "3. Budget projection" +:+ nl +:+
       "4. Venue/forum selection analysis (if multi-state)" +:+ nl +:+
       "5. Proactive 'what am I missing?' checklist" +:+ nl +:+
       "6. Recommended next 3 actions";
     agent := agent;
     expected_output :=
       "Strategic plan with: settlement options (3 scenarios with $$ ranges), " +:+
       "timeline table, budget projection, venue analysis, proactive checklist, " +:+
       "and prioritized next actions." |}.

(** ** Crew execution (crew.py, lines 355-479) *)

(** One call of the completion backend: it is logged, then it answers or
    raises. *)
Definition call_engine (t : Task) : M World Completion :=
  λ w, (complete w (calls w) t, log_call t w).

(** Modelled from the spec: [Crew.kickoff] of the CrewAI library, which is
    not part of the repository.  With [Process.sequential] the tasks are
    submitted one after the other, each by the task's own agent; a failing
    completion aborts the run and its exception leaves [kickoff]; the output
    is the text of the last task, with the tokens of all of them. *)
Fixpoint run_tasks (tasks : list Task) (last : string) (tokens : Z) : M World CrewOutput :=
  match tasks with
  | [] => ret {| raw := last; token_usage := tokens |}
  | t :: rest =>
      out <- call_engine t ;;
      run_tasks rest (text out) (tokens + used_tokens out)
  end.

Definition kickoff (crew : Crew) : M World CrewOutput :=
  run_tasks (crew_tasks crew) "" 0.

(** The jurisdiction as it is rendered (lines 374-379 and 432-437). *)
Definition jx_table : odict string :=
  [("kansas", "Kansas");
   ("missouri", "Missouri");
   ("federal", "Federal");
   ("multistate", "Kansas & Missouri")].

Definition jx_display (jurisdiction : string) : string :=
  default jurisdiction (lookup_od jx_table (Py.lower jurisdiction)).

(** The task of a single-agent run (lines 381-390). *)
Definition single_task (agent_type : string) (agent : Agent)
    (query jx_display matter_facts document_type : string) : Task :=
  if String.eqb agent_type "researcher" then
    create_research_task agent query jx_display
  else if String.eqb agent_type "analyst" then
    create_analysis_task agent query jx_display matter_facts
  else if String.eqb agent_type "drafter" then
    create_drafting_task agent query jx_display document_type matter_facts
  else if String.eqb agent_type "strategist" then
    create_strategy_task agent query jx_display matter_facts
  else
    create_research_task agent query jx_display.

Definition single_body (query jurisdiction matter_facts document_type : string)
    : M (string * World) (gmap string value) :=
  llm <- in_world create_llm ;;
  agents <- in_world (create_agents llm) ;;
  (* Auto-classify if no agent specified *)
  agent_type <- get_local ;;
  _ <- (if negb (Py.truthy agent_type) then set_local (classify_intent query) else ret tt) ;;
  agent_type <- get_local ;;
  agent <- getitem agents agent_type ;;
  (* Create task *)
  let task := single_task agent_type agent query (jx_display jurisdiction)
                          matter_facts document_type in
  (* Run single-agent crew *)
  let crew := {| crew_agents := [agent]; crew_tasks := [task];
                 process := sequential; crew_verbose := false |} in
  result <- in_world (kickoff crew) ;;
  cfg <- in_world (gets get_llm_config) ;;
  ret (list_to_map
         [("success", VBool true);
          ("agent_type", VStr agent_type);
          ("content", VStr (raw result));
          ("jurisdiction", VStr jurisdiction);
          ("model", VStr (cfg_model cfg));
          ("token_usage", VUsage (token_usage result))]).

Definition single_handler (jurisdiction : string) (e : exn)
    : M (string * World) (gmap string value) :=
  agent_type <- get_local ;;
  ret (list_to_map
         [("success", VBool false);
          ("agent_type", VStr (Py.or_else agent_type "unknown"));
          ("error", VStr (str_exn e));
          ("content", VStr "");
          ("jurisdiction", VStr jurisdiction)]).

Definition run_single_agent (query jurisdiction agent_type matter_facts document_type : string)
    : M World (gmap string value) :=
  with_local agent_type
    (try_except (single_body query jurisdiction matter_facts document_type)
                (single_handler jurisdiction)).

Definition drafter_triggers : list string :=
  ["draft"; "write"; "prepare"; "motion"; "complaint"; "letter"].

(** The condition under which the drafting task is added (line 445). *)
Definition wants_drafter (query document_type : string) : bool :=
  Py.truthy document_type
  || Py.any (λ kw, Py.contains kw (Py.lower query)) drafter_triggers.

(** The task list of a full run (lines 439-450). *)
Definition full_tasks {S} (agents : odict Agent)
    (query jx_display matter_facts document_type : string) : M S (list Task) :=
  researcher <- getitem agents "researcher" ;;
  analyst <- getitem agents "analyst" ;;
  let tasks := [create_research_task researcher query jx_display;
                create_analysis_task analyst query jx_display matter_facts] in
  (* Conditionally add drafter if document type is implied *)
  tasks <- (if wants_drafter query document_type then
              drafter <- getitem agents "drafter" ;;
              ret (tasks ++ [create_drafting_task drafter query jx_display
                                                  document_type matter_facts])
            else ret tasks) ;;
  strategist <- getitem agents "strategist" ;;
  ret (tasks ++ [create_strategy_task strategist query jx_display matter_facts]).

Definition full_body (query jurisdiction matter_facts document_type : string)
    : M World (gmap string value) :=
  llm <- create_llm ;;
  agents <- create_agents llm ;;
  tasks <- full_tasks agents query (jx_display jurisdiction) matter_facts document_type ;;
  let crew := {| crew_agents := map snd agents; crew_tasks := tasks;
                 process := sequential; crew_verbose := false |} in
  result <- kickoff crew ;;
  cfg <- gets get_llm_config ;;
  ret (list_to_map
         [("success", VBool true);
          ("agent_type", VStr "full_crew");
          ("content", VStr (raw result));
          ("jurisdiction", VStr jurisdiction);
          ("model", VStr (cfg_model cfg));
          ("agents_used", VList (keys agents));
          ("tasks_completed", VInt (Z.of_nat (length tasks)));
          ("token_usage", VUsage (token_usage result))]).

Definition full_handler (jurisdiction : string) (e : exn) : M World (gmap string value) :=
  ret (list_to_map
         [("success", VBool false);
          ("agent_type", VStr "full_crew");
          ("error", VStr (str_exn e));
          ("content", VStr "");
          ("jurisdiction", VStr jurisdiction)]).

Definition run_full_crew (query jurisdiction matter_facts document_type : string)
    : M World (gmap string value) :=
  try_except (full_body query jurisdiction matter_facts document_type)
             (full_handler jurisdiction).

(** ** Sample worlds *)

Definition quiet_world (engine : list Task → Task → exn + Completion) : World :=
  {| environ := {["OPENAI_API_KEY" := "sk-test"]};
     yaml_openai := None;
     today := "2026-01-15";
     llm_rejects := λ _, None;
     complete := engine;
     calls := [] |}.

(** A backend that answers every task with the role of its agent. *)
Definition echo_engine : list Task → Task → exn + Completion :=
  λ _ t, inr {| text := "memo by " +:+ role (agent t); used_tokens := 100 |}.

(** A backend that fails on its [n]-th call (counting from 0). *)
Definition failing_at (n : nat) : list Task → Task → exn + Completion :=
  λ history t,
    if (length history =? n)%nat then inl (Error "RuntimeError" "connection reset")
    else echo_engine history t.

(** ** The FastAPI bridge (server.py) *)

(** [ChatRequest] after validation: defaults are filled in, [message] has at
    least one character. *)
Record ChatRequest : Type := {
  req_message : string;
  req_jurisdiction : string;
  req_agent_type : option string;
  req_matter_facts : option string;
  req_document_type : option string;
  req_full_crew : bool;
  req_session_id : option string;
  req_case_id : option Z;
}.

Record ChatResponse : Type := {
  resp_success : bool;
  resp_agent_type : string;
  resp_content : string;
  resp_jurisdiction : string;
  resp_model : string;
  resp_confidence : Z * Z;      (* decimal literal as numerator, denominator *)
  resp_tokens_used : Z;
  resp_duration_ms : Z;
  resp_citations : list string;
  resp_risks_flagged : list string;
  resp_follow_up_actions : list string;
  resp_error : option string;
  resp_crewai_powered : bool;
}.

Record ConfigResponse : Type := {
  conf_model : string;
  conf_base_url : string;
  conf_api_key_set : bool;
  conf_crewai_version : string;
}.

Record ConfigureRequest : Type := {
  new_api_key : string;
  new_base_url : option string;
  new_model : option string;
}.

Record HealthResponse : Type := {
  health_status : string;
  health_crewai_version : string;
  health_model : string;
  health_llm_configured : bool;
  health_llm_reachable : bool;
  health_uptime_ms : Z;
}.

(** What the framework sends back for an endpoint: the body it returned, the
    [HTTPException] it raised, or an error for any other exception. *)
Inductive http (A : Type) : Type :=
  | Http200 (body : A)
  | Http503 (detail : gmap string value)
  | Http500 (e : exn).

Arguments Http200 {A} body.
Arguments Http503 {A} detail.
Arguments Http500 {A} e.

(** [x or d] on an optional string. *)
Definition opt_or (x : option string) (d : string) : string :=
  match x with
  | Some s => Py.or_else s d
  | None => d
  end.

(** [d[k]] on a result dictionary. *)
Definition dict_item (d : gmap string value) (k : string) : M World value :=
  match d !! k with
  | Some v => ret v
  | None => raise (KeyError k)
  end.

(** Truthiness of a stored value. *)
Definition truth (v : value) : bool :=
  match v with
  | VBool b => b
  | VStr s => Py.truthy s
  | VInt n => negb (n =? 0)
  | VList l => match l with [] => false | _ => true end
  | VUsage _ => true
  end.

(** A [str] field of a response model accepts strings only. *)
Definition str_field (v : value) : M World string :=
  match v with
  | VStr s => ret s
  | _ => raise (Error "ValidationError" "Input should be a valid string")
  end.

(** [cfg["base_url"][:60] + "..." if len(cfg["base_url"]) > 60 else cfg["base_url"]] *)
Definition shown_base_url (base_url : string) : string :=
  if (60 <? String.length base_url)%nat
  then String.substring 0 60 base_url +:+ "..."
  else base_url.

(** [GET /api/crew/config] (lines 147-157); [version] is [crewai.__version__]. *)
Definition config (version : string) (w : World) : ConfigResponse :=
  let cfg := get_llm_config w in
  {| conf_model := cfg_model cfg;
     conf_base_url := shown_base_url (cfg_base_url cfg);
     conf_api_key_set := Py.truthy (cfg_api_key cfg);
     conf_crewai_version := version |}.

(** The body of the [try] of [crew_chat] (lines 190-238); [elapsed] is what
    the clock shows when the response is built. *)
Definition chat_body (req : ChatRequest) (cfg : LLMConfig) (agent_type : string)
    (elapsed : Z) : M World ChatResponse :=
  result <- (if req_full_crew req then
               run_full_crew (req_message req) (req_jurisdiction req)
                             (opt_or (req_matter_facts req) "")
                             (opt_or (req_document_type req) "")
             else
               run_single_agent (req_message req) (req_jurisdiction req) agent_type
                                (opt_or (req_matter_facts req) "")
                                (opt_or (req_document_type req) "")) ;;
  (* Extract token usage if available *)
  let tokens := match result !! "token_usage" with
                | Some (VUsage total) => total
                | _ => 0
                end in
  ok <- dict_item result "success" ;;
  if truth ok then
    agent <- dict_item result "agent_type" ;;
    agent <- str_field agent ;;
    content <- dict_item result "content" ;;
    content <- str_field content ;;
    model <- match result !! "model" with
             | Some v => str_field v
             | None => ret (cfg_model cfg)
             end ;;
    ret {| resp_success := true;
           resp_agent_type := agent;
           resp_content := content;
           resp_jurisdiction := req_jurisdiction req;
           resp_model := model;
           resp_confidence := (90, 100);
           resp_tokens_used := tokens;
           resp_duration_ms := elapsed;
           resp_citations := [];
           resp_risks_flagged := [];
           resp_follow_up_actions := [];
           resp_error := None;
           resp_crewai_powered := true |}
  else
    agent <- dict_item result "agent_type" ;;
    agent <- str_field agent ;;
    err <- match result !! "error" with
           | Some v => str_field v
           | None => ret "Unknown error"
           end ;;
    ret {| resp_success := false;
           resp_agent_type := agent;
           resp_content := "";
           resp_jurisdiction := req_jurisdiction req;
           resp_model := cfg_model cfg;
           resp_confidence := (0, 1);
           resp_tokens_used := 0;
           resp_duration_ms := elapsed;
           resp_citations := [];
           resp_risks_flagged := [];
           resp_follow_up_actions := [];
           resp_error := Some err;
           resp_crewai_powered := true |}.

(** The [except] of [crew_chat] (lines 240-251). *)
Definition chat_handler (req : ChatRequest) (agent_type : string) (elapsed : Z) (e : exn)
    : M World ChatResponse :=
  ret {| resp_success := false;
         resp_agent_type := agent_type;
         resp_content := "";
         resp_jurisdiction := req_jurisdiction req;
         resp_model := "";
         resp_confidence := (0, 1);
         resp_tokens_used := 0;
         resp_duration_ms := elapsed;
         resp_citations := [];
         resp_risks_flagged := [];
         resp_follow_up_actions := [];
         resp_error := Some (str_exn e);
         resp_crewai_powered := true |}.

(** [POST /api/crew/chat] (lines 160-251). *)
Definition crew_chat (req : ChatRequest) (elapsed : Z) (w : World)
    : http ChatResponse * World :=
  let cfg := get_llm_config w in
  if negb (Py.truthy (cfg_api_key cfg)) then
    (Http503 (list_to_map
                [("error", VStr "LLM not configured");
                 ("message", VStr "Set OPENAI_API_KEY, NOVITA_API_KEY, or configure via ~/.genspark_llm.yaml");
                 ("fallback", VBool true)]), w)
  else
    (* Auto-classify intent *)
    let agent_type := opt_or (req_agent_type req) (classify_intent (req_message req)) in
    match try_except (chat_body req cfg agent_type elapsed)
                     (chat_handler req agent_type elapsed) w with
    | (inr resp, w') => (Http200 resp, w')
    | (inl e, w') => (Http500 e, w')
    end.

(** The character no environment name or value may hold. *)
Definition nul : string := String (ascii_of_nat 0) "".

Definition has_nul (s : string) : bool := Py.contains nul s.

(** The update an accepted [os.environ[k] = v] makes. *)
Definition putenv (k v : string) (w : World) : World :=
  {| environ := <[k := v]> (environ w); yaml_openai := yaml_openai w; today := today w;
     llm_rejects := llm_rejects w; complete := complete w; calls := calls w |}.

(** [os.environ[k] = v]: a [ValueError] for a null character in the name or
    the value, and for a name that is empty or holds "="; else the update. *)
Definition setenv (k v : string) : M World unit :=
  λ w,
    if has_nul k || has_nul v then
      (inl (Error "ValueError" "embedded null byte"), w)
    else if negb (Py.truthy k) || Py.contains "=" k then
      (inl (Error "ValueError" "illegal environment variable name"), w)
    else (inr tt, putenv k v w).

(** The three assignments of [configure_llm] (lines 259-263). *)
Definition configure_env (req : ConfigureRequest) : M World unit :=
  _ <- setenv "OPENAI_API_KEY" (new_api_key req) ;;
  _ <- match new_base_url req with
       | Some u => if Py.truthy u then setenv "OPENAI_BASE_URL" u else ret tt
       | None => ret tt
       end ;;
  match new_model req with
  | Some m => if Py.truthy m then setenv "CREWAI_MODEL" m else ret tt
  | None => ret tt
  end.

(** The other side of [llm.call]: the backend answers a test request, or
    raises, as a function of the client and of the test requests it has
    seen, and the requests sent are logged.  The message of the request is
    always the same, "Reply with OK". *)
Record Probes : Type := {
  probe_answer : list LLM → LLM → exn + string;
  probes_sent : list LLM;
}.

(** [llm.call(messages=[...])] *)
Definition llm_call (client : LLM) : M (Probes * World) string :=
  λ s,
    let p := fst s in
    (probe_answer p (probes_sent p) client,
     ({| probe_answer := probe_answer p; probes_sent := probes_sent p ++ [client] |},
      snd s)).

(** The connectivity test shared by [health] and [configure_llm]: build the
    client, send one request, and see whether an answer came back; any
    exception counts as unreachable. *)
Definition llm_probe : M (Probes * World) bool :=
  try_except
    (llm <- in_world create_llm ;;
     resp <- llm_call llm ;;
     ret (Py.truthy resp && (0 <? String.length resp)%nat))
    (λ _, ret false).

(** [POST /api/crew/configure] (lines 254-284); [version] is
    [crewai.__version__]. *)
Definition configure_llm (version : string) (req : ConfigureRequest)
    : M (Probes * World) (gmap string value) :=
  (* Set environment variables (persists for this process) *)
  _ <- in_world (configure_env req) ;;
  (* Verify the new config works *)
  cfg <- in_world (gets get_llm_config) ;;
  llm_reachable <- llm_probe ;;
  ret (list_to_map
         [("success", VBool llm_reachable);
          ("model", VStr (cfg_model cfg));
          ("base_url", VStr (shown_base_url (cfg_base_url cfg)));
          ("llm_reachable", VBool llm_reachable);
          ("crewai_version", VStr version);
          ("message", VStr (if llm_reachable
                            then "LLM configured and verified"
                            else "LLM configured but NOT reachable — check API key and base URL"))]).

(** [GET /health] (lines 121-144); [uptime] is the clock reading. *)
Definition health (version : string) (uptime : Z) : M (Probes * World) HealthResponse :=
  cfg <- in_world (gets get_llm_config) ;;
  llm_reachable <- (if Py.truthy (cfg_api_key cfg) then llm_probe else ret false) ;;
  ret {| health_status := if llm_reachable then "ok" else "degraded";
         health_crewai_version := version;
         health_model := cfg_model cfg;
         health_llm_configured := Py.truthy (cfg_api_key cfg);
         health_llm_reachable := llm_reachable;
         health_uptime_ms := uptime |}.

(** [GET /api/crew/classify] (lines 287-291). *)
Definition classify (message : string) : gmap string value :=
  let agent := classify_intent message in
  list_to_map [("message", VStr message); ("agent_type", VStr agent)].

(** * Vocabulary of the statements *)

(** The enumeration order of the roles: the insertion order of [scores]. *)
Definition role_order : list string := ["researcher"; "analyst"; "drafter"; "strategist"].

(** The keywords of a list that occur in the (lowercased) message. *)
Definition matched (kws : list string) (msg : string) : list string :=
  List.filter (λ k, Py.contains k msg) kws.

Definition hits (kws : list string) (msg : string) : Z :=
  Z.of_nat (length (matched kws msg)).

Definition bonus (cond : bool) (n : Z) : Z := if cond then n else 0.

(** The score of each role as the specification words it: 3 for every generic
    keyword that occurs, 5 or 6 for a phrase, and 4 and 5 for the shared
    phrase. *)
Definition researcher_score (message : string) : Z :=
  let msg := Py.lower message in
  3 * hits research_kw msg
  + bonus (Py.any (λ p, Py.contains p msg) ks_phrases) 6
  + bonus (Py.any (λ p, Py.contains p msg) mo_phrases) 6.

Definition analyst_score (message : string) : Z :=
  let msg := Py.lower message in
  3 * hits analyst_kw msg
  + bonus (Py.contains "risk assess" msg) 5
  + bonus (Py.contains "what am i missing" msg) 4.

Definition drafter_score (message : string) : Z :=
  let msg := Py.lower message in
  3 * hits draft_kw msg
  + bonus (Py.contains "draft a" msg || Py.contains "draft the" msg
           || Py.contains "draft my" msg) 5
  + bonus (Py.contains "motion to" msg) 6.

Definition strategist_score (message : string) : Z :=
  let msg := Py.lower message in
  3 * hits strategist_kw msg
  + bonus (Py.contains "what am i missing" msg) 5.

(** The score the classifier gives a role. *)
Definition score_of (message role : string) : Z := score_in (score_table message) role.

(** The maximum score over the four roles. *)
Definition top_score (message : string) : Z :=
  Z.max (score_of message "researcher")
    (Z.max (score_of message "analyst")
       (Z.max (score_of message "drafter") (score_of message "strategist"))).

(** The roles that reach the maximum, in enumeration order. *)
Definition at_top (message : string) : list string :=
  List.filter (λ r, score_of message r =? top_score message) role_order.

(** The first role, in enumeration order, that reaches the maximum. *)
Definition first_at_top (message : string) : option string := head (at_top message).

(** Every keyword and phrase of the classifier. *)
Definition phrase_signals : list string :=
  ks_phrases ++ mo_phrases
  ++ ["draft a"; "draft the"; "draft my"; "motion to"]
  ++ ["risk assess"; "what am i missing"].

Definition all_signals : list string :=
  research_kw ++ draft_kw ++ analyst_kw ++ strategist_kw ++ phrase_signals.

(** An input that matches exactly one generic researcher keyword, exactly one
    generic analyst keyword, and nothing else. *)
Definition one_research_one_analyst_hit (message : string) : Prop :=
  let msg := Py.lower message in
  length (matched research_kw msg) = 1%nat
  ∧ length (matched analyst_kw msg) = 1%nat
  ∧ matched (draft_kw ++ strategist_kw ++ phrase_signals) msg = [].

(** The two result dictionaries of [run_full_crew], and of
    [run_single_agent], as functions of what they hold. *)
Definition full_ok (jurisdiction : string) (result : CrewOutput) (model : string)
    (agents : odict Agent) (tasks : list Task) : gmap string value :=
  list_to_map
    [("success", VBool true);
     ("agent_type", VStr "full_crew");
     ("content", VStr (raw result));
     ("jurisdiction", VStr jurisdiction);
     ("model", VStr model);
     ("agents_used", VList (keys agents));
     ("tasks_completed", VInt (Z.of_nat (length tasks)));
     ("token_usage", VUsage (token_usage result))].

Definition single_ok (agent_type jurisdiction : string) (result : CrewOutput)
    (model : string) : gmap string value :=
  list_to_map
    [("success", VBool true);
     ("agent_type", VStr agent_type);
     ("content", VStr (raw result));
     ("jurisdiction", VStr jurisdiction);
     ("model", VStr model);
     ("token_usage", VUsage (token_usage result))].

Definition failed (agent_type jurisdiction : string) (e : exn) : gmap string value :=
  list_to_map
    [("success", VBool false);
     ("agent_type", VStr agent_type);
     ("error", VStr (str_exn e));
     ("content", VStr "");
     ("jurisdiction", VStr jurisdiction)].

(** The keyword arguments [create_llm] passes to the constructor. *)
Definition llm_kwargs (w : World) : LLM :=
  let cfg := get_llm_config w in
  {| model := cfg_model cfg;
     temperature := (1, 10);
     max_tokens := 4096;
     api_key := if Py.truthy (cfg_api_key cfg) then Some (cfg_api_key cfg) else None;
     base_url := if Py.truthy (cfg_base_url cfg) then Some (cfg_base_url cfg) else None |}.

(** The role a single-agent run works with: the forced one, else the
    classified one (lines 367-369). *)
Definition resolved_role (agent_type query : string) : string :=
  if negb (Py.truthy agent_type) then classify_intent query else agent_type.

(** Two worlds that differ at most in the log. *)
Definition same_setting (w w' : World) : Prop :=
  environ w' = environ w ∧ yaml_openai w' = yaml_openai w ∧ today w' = today w
  ∧ llm_rejects w' = llm_rejects w ∧ complete w' = complete w.

(** The task list of a full run over the four agents, as the specification
    words it: researcher, analyst, the drafter when wanted, strategist. *)
Definition pipeline (a1 a2 a3 a4 : Agent) (q jx mf dt : string) : list Task :=
  if wants_drafter q dt
  then [create_research_task a1 q jx; create_analysis_task a2 q jx mf;
        create_drafting_task a3 q jx dt mf; create_strategy_task a4 q jx mf]
  else [create_research_task a1 q jx; create_analysis_task a2 q jx mf;
        create_strategy_task a4 q jx mf].

(** The registry keys of the tasks of a full run, in order. *)
Definition pipeline_roles (q dt : string) : list string :=
  if wants_drafter q dt
  then ["researcher"; "analyst"; "drafter"; "strategist"]
  else ["researcher"; "analyst"; "strategist"].

(** The tasks submitted during a run that started in [w] and ended in [w']. *)
Definition issued (w w' : World) : list Task := drop (length (calls w)) (calls w').

(** [result[k]] on what a run returned; nothing when the run raised or the
    dictionary has no such key. *)
Definition result_field (r : (exn + gmap string value) * World) (k : string)
    : option value :=
  match fst r with
  | inr d => d !! k
  | inl _ => None
  end.

(** The fields of what a run returned. *)
Definition fields (r : (exn + gmap string value) * World) : gset string :=
  match fst r with
  | inr d => dom d
  | inl _ => ∅
  end.

Definition shared_fields : gset string :=
  {["success"; "agent_type"; "content"; "jurisdiction"]}.

(** The four task templates. *)
Inductive kind : Type := research | analysis | drafting | strategy.

Definition render (k : kind) (a : Agent) (q jx mf dt : string) : Task :=
  match k with
  | research => create_research_task a q jx
  | analysis => create_analysis_task a q jx mf
  | drafting => create_drafting_task a q jx dt mf
  | strategy => create_strategy_task a q jx mf
  end.

(** The template [single_task] picks for a role. *)
Definition kind_of (role : string) : kind :=
  if String.eqb role "researcher" then research
  else if String.eqb role "analyst" then analysis
  else if String.eqb role "drafter" then drafting
  else if String.eqb role "strategist" then strategy
  else research.

(** The templates a full run instantiates, with their agents. *)
Definition full_plan (a1 a2 a3 a4 : Agent) (q dt : string) : list (kind * Agent) :=
  if wants_drafter q dt
  then [(research, a1); (analysis, a2); (drafting, a3); (strategy, a4)]
  else [(research, a1); (analysis, a2); (strategy, a4)].

Definition render_plan (plan : list (kind * Agent)) (q jx mf dt : string) : list Task :=
  map (λ p, render (fst p) (snd p) q jx mf dt) plan.

(** A YAML value the resolver accepts: non-empty and not a template
    placeholder. *)
Definition usable (s : string) : bool :=
  Py.truthy s && negb (Py.startswith s "${").

(** The world without the YAML file. *)
Definition without_yaml (w : World) : World :=
  {| environ := environ w; yaml_openai := None; today := today w;
     llm_rejects := llm_rejects w; complete := complete w; calls := calls w |}.

(** Sample worlds with the given environment variables and YAML file. *)
Definition file_world (yaml : option (string * string)) (vars : list (string * string))
    : World :=
  {| environ := list_to_map vars; yaml_openai := yaml; today := "2026-01-15";
     llm_rejects := λ _, None; complete := echo_engine; calls := [] |}.

Definition bare_world (vars : list (string * string)) : World := file_world None vars.

(** An agent to instantiate the templates with. *)
Definition sample_agent : Agent :=
  {| role := "Researcher Agent"; goal := "Find authority"; backstory := "";
     llm := {| model := "gpt-5-mini"; temperature := (1, 10); max_tokens := 4096;
               api_key := None; base_url := None |};
     verbose := true; allow_delegation := false; system_prompt := "" |}.

(** The two responses [crew_chat] builds inside its [try]. *)
Definition ok_response (req : ChatRequest) (elapsed : Z)
    (agent content model : string) (tokens : Z) : ChatResponse :=
  {| resp_success := true;
     resp_agent_type := agent;
     resp_content := content;
     resp_jurisdiction := req_jurisdiction req;
     resp_model := model;
     resp_confidence := (90, 100);
     resp_tokens_used := tokens;
     resp_duration_ms := elapsed;
     resp_citations := [];
     resp_risks_flagged := [];
     resp_follow_up_actions := [];
     resp_error := None;
     resp_crewai_powered := true |}.

Definition failed_response (req : ChatRequest) (elapsed : Z)
    (agent model err : string) : ChatResponse :=
  {| resp_success := false;
     resp_agent_type := agent;
     resp_content := "";
     resp_jurisdiction := req_jurisdiction req;
     resp_model := model;
     resp_confidence := (0, 1);
     resp_tokens_used := 0;
     resp_duration_ms := elapsed;
     resp_citations := [];
     resp_risks_flagged := [];
     resp_follow_up_actions := [];
     resp_error := Some err;
     resp_crewai_powered := true |}.

(** The request with another forced role. *)
Definition with_agent_type (req : ChatRequest) (agent_type : option string) : ChatRequest :=
  {| req_message := req_message req;
     req_jurisdiction := req_jurisdiction req;
     req_agent_type := agent_type;
     req_matter_facts := req_matter_facts req;
     req_document_type := req_document_type req;
     req_full_crew := req_full_crew req;
     req_session_id := req_session_id req;
     req_case_id := req_case_id req |}.

(** The run [crew_chat] starts for a request. *)
Definition chat_run (req : ChatRequest) : M World (gmap string value) :=
  if req_full_crew req then
    run_full_crew (req_message req) (req_jurisdiction req)
                  (opt_or (req_matter_facts req) "") (opt_or (req_document_type req) "")
  else
    run_single_agent (req_message req) (req_jurisdiction req)
                     (opt_or (req_agent_type req) (classify_intent (req_message req)))
                     (opt_or (req_matter_facts req) "") (opt_or (req_document_type req) "").

(** A sample request. *)
Definition sample_request (agent_type : option string) (full : bool) : ChatRequest :=
  {| req_message := "find risk"; req_jurisdiction := "kansas";
     req_agent_type := agent_type; req_matter_facts := None;
     req_document_type := None; req_full_crew := full;
     req_session_id := None; req_case_id := None |}.

(** The values [configure_llm] assigns to the environment. *)
Definition assigned (req : ConfigureRequest) : list string :=
  new_api_key req
  :: match new_base_url req with
     | Some u => if Py.truthy u then [u] else []
     | None => []
     end
  ++ match new_model req with
     | Some m => if Py.truthy m then [m] else []
     | None => []
     end.

(** The world after the three assignments, when all are accepted. *)
Definition configured (req : ConfigureRequest) (w : World) : World :=
  let w := putenv "OPENAI_API_KEY" (new_api_key req) w in
  let w := match new_base_url req with
           | Some u => if Py.truthy u then putenv "OPENAI_BASE_URL" u w else w
           | None => w
           end in
  match new_model req with
  | Some m => if Py.truthy m then putenv "CREWAI_MODEL" m w else w
  | None => w
  end.

(** The test requests a client to probe would see answered with [resp], and
    refused. *)
Definition answering (resp : string) : Probes :=
  {| probe_answer := λ _ _, inr resp; probes_sent := [] |}.

Definition refusing : Probes :=
  {| probe_answer := λ _ _, inl (Error "AuthError" "401"); probes_sent := [] |}.

(** * Properties *)

(** ** Sample evaluations *)

Example classify_hello : classify_intent "hello" = "strategist".
Proof. reflexivity. Qed.

Example classify_find_risk :
  score_table "Find RISK" = [("researcher", 3); ("analyst", 3); ("drafter", 0); ("strategist", 0)]
  ∧ classify_intent "Find RISK" = "researcher".
Proof. split; reflexivity. Qed.

Example classify_motion : classify_intent "Motion to dismiss" = "drafter".
Proof. reflexivity. Qed.

Example str_KeyError : str_exn (KeyError "lawyer") = "'lawyer'".
Proof. reflexivity. Qed.

(** ** The classifier *)

Lemma hits_nil msg : hits [] msg = 0.
Proof. reflexivity. Qed.

Lemma hits_cons k kws msg :
  hits (k :: kws) msg = (if Py.contains k msg then 1 else 0) + hits kws msg.
Proof.
  unfold hits, matched. simpl. destruct (Py.contains k msg); simpl length; lia.
Qed.

Lemma hits_nonneg kws msg : 0 ≤ hits kws msg.
Proof. unfold hits. lia. Qed.

Lemma bump_each_cons role k kws msg scores :
  bump_each role (k :: kws) msg scores
  = bump_each role kws msg (if Py.contains k msg then add_at role 3 scores else scores).
Proof. reflexivity. Qed.

Section Scores.

Variable msg : string.

Ltac bump_induction kws :=
  induction kws as [|k kws IH]; intros;
  [ rewrite hits_nil; cbn; repeat first [reflexivity | lia | progress f_equal]
  | rewrite bump_each_cons, hits_cons;
    destruct (Py.contains k msg); cbn [add_at map fst snd String.eqb Ascii.eqb Bool.eqb];
    rewrite IH; repeat first [reflexivity | lia | progress f_equal] ].

Lemma bump_each_researcher kws : ∀ r a d s,
  bump_each "researcher" kws msg
    [("researcher", r); ("analyst", a); ("drafter", d); ("strategist", s)]
  = [("researcher", r + 3 * hits kws msg); ("analyst", a); ("drafter", d); ("strategist", s)].
Proof. bump_induction kws. Qed.

Lemma bump_each_analyst kws : ∀ r a d s,
  bump_each "analyst" kws msg
    [("researcher", r); ("analyst", a); ("drafter", d); ("strategist", s)]
  = [("researcher", r); ("analyst", a + 3 * hits kws msg); ("drafter", d); ("strategist", s)].
Proof. bump_induction kws. Qed.

Lemma bump_each_drafter kws : ∀ r a d s,
  bump_each "drafter" kws msg
    [("researcher", r); ("analyst", a); ("drafter", d); ("strategist", s)]
  = [("researcher", r); ("analyst", a); ("drafter", d + 3 * hits kws msg); ("strategist", s)].
Proof. bump_induction kws. Qed.

Lemma bump_each_strategist kws : ∀ r a d s,
  bump_each "strategist" kws msg
    [("researcher", r); ("analyst", a); ("drafter", d); ("strategist", s)]
  = [("researcher", r); ("analyst", a); ("drafter", d); ("strategist", s + 3 * hits kws msg)].
Proof. bump_induction kws. Qed.

End Scores.

Lemma bump_if_researcher c n r a d s :
  bump_if c "researcher" n [("researcher", r); ("analyst", a); ("drafter", d); ("strategist", s)]
  = [("researcher", r + bonus c n); ("analyst", a); ("drafter", d); ("strategist", s)].
Proof. destruct c; cbn; repeat first [reflexivity | lia | progress f_equal]. Qed.

Lemma bump_if_analyst c n r a d s :
  bump_if c "analyst" n [("researcher", r); ("analyst", a); ("drafter", d); ("strategist", s)]
  = [("researcher", r); ("analyst", a + bonus c n); ("drafter", d); ("strategist", s)].
Proof. destruct c; cbn; repeat first [reflexivity | lia | progress f_equal]. Qed.

Lemma bump_if_drafter c n r a d s :
  bump_if c "drafter" n [("researcher", r); ("analyst", a); ("drafter", d); ("strategist", s)]
  = [("researcher", r); ("analyst", a); ("drafter", d + bonus c n); ("strategist", s)].
Proof. destruct c; cbn; repeat first [reflexivity | lia | progress f_equal]. Qed.

Lemma bump_if_strategist c n r a d s :
  bump_if c "strategist" n [("researcher", r); ("analyst", a); ("drafter", d); ("strategist", s)]
  = [("researcher", r); ("analyst", a); ("drafter", d); ("strategist", s + bonus c n)].
Proof. destruct c; cbn; repeat first [reflexivity | lia | progress f_equal]. Qed.

(** The dictionary the code builds holds the scores of the specification. *)
Lemma score_table_eq message :
  score_table message
  = [("researcher", researcher_score message);
     ("analyst", analyst_score message);
     ("drafter", drafter_score message);
     ("strategist", strategist_score message)].
Proof.
  unfold score_table.
  rewrite bump_each_researcher, !bump_if_researcher.
  rewrite bump_each_drafter, !bump_if_drafter.
  rewrite bump_each_analyst, !bump_if_analyst.
  rewrite bump_each_strategist, bump_if_strategist.
  unfold researcher_score, analyst_score, drafter_score, strategist_score.
  repeat first [reflexivity | lia | progress f_equal].
Qed.

Lemma score_of_researcher m : score_of m "researcher" = researcher_score m.
Proof. unfold score_of. rewrite score_table_eq. reflexivity. Qed.

Lemma score_of_analyst m : score_of m "analyst" = analyst_score m.
Proof. unfold score_of. rewrite score_table_eq. reflexivity. Qed.

Lemma score_of_drafter m : score_of m "drafter" = drafter_score m.
Proof. unfold score_of. rewrite score_table_eq. reflexivity. Qed.

Lemma score_of_strategist m : score_of m "strategist" = strategist_score m.
Proof. unfold score_of. rewrite score_table_eq. reflexivity. Qed.

Lemma bonus_nonneg c n : 0 ≤ n → 0 ≤ bonus c n.
Proof. destruct c; simpl; lia. Qed.

Lemma scores_nonneg m :
  0 ≤ researcher_score m ∧ 0 ≤ analyst_score m
  ∧ 0 ≤ drafter_score m ∧ 0 ≤ strategist_score m.
Proof.
  unfold researcher_score, analyst_score, drafter_score, strategist_score.
  repeat split;
    repeat match goal with
           | |- context [hits ?l ?x] =>
               pose proof (hits_nonneg l x); generalize dependent (hits l x); intros
           | |- context [bonus ?c ?n] =>
               pose proof (bonus_nonneg c n ltac:(lia));
               generalize dependent (bonus c n); intros
           end; lia.
Qed.

Ltac by_score_cases :=
  repeat (cbn;
          match goal with
          | |- context [Z.ltb ?x ?y] => is_var x; is_var y; destruct (Z.ltb_spec x y)
          | |- context [Z.ltb 0 ?y] => is_var y; destruct (Z.ltb_spec 0 y)
          | |- context [Z.eqb ?x ?y] => destruct (Z.eqb_spec x y)
          | |- context [Z.ltb ?x ?y] => destruct (Z.ltb_spec x y)
          end);
  cbn; try reflexivity; try lia.

(** The winner the code picks, in the words of the specification. *)
Lemma classify_intent_eq m :
  classify_intent m
  = if 0 <? top_score m then default "strategist" (first_at_top m) else "strategist".
Proof.
  unfold classify_intent, first_at_top, at_top, top_score, role_order.
  cbn [List.filter].
  rewrite score_of_researcher, score_of_analyst, score_of_drafter, score_of_strategist.
  rewrite score_table_eq.
  generalize (researcher_score m) (analyst_score m) (drafter_score m) (strategist_score m).
  intros r a d s. cbn.
  unfold score_in; cbn.
  by_score_cases.
Qed.

Lemma matched_app l1 l2 msg : matched (l1 ++ l2) msg = matched l1 msg ++ matched l2 msg.
Proof. apply List.filter_app. Qed.

Lemma matched_nil_In l msg k :
  matched l msg = [] → In k l → Py.contains k msg = false.
Proof.
  induction l as [|x l IH]; simpl; [tauto|].
  destruct (Py.contains x msg) eqn:E; [discriminate|].
  intros Hnil [->|Hin]; auto.
Qed.

Lemma matched_nil_any l msg :
  matched l msg = [] → Py.any (λ p, Py.contains p msg) l = false.
Proof.
  induction l as [|x l IH]; simpl; [reflexivity|].
  destruct (Py.contains x msg); [discriminate|]. exact IH.
Qed.

Lemma matched_nil_hits l msg : matched l msg = [] → hits l msg = 0.
Proof. unfold hits. intros ->. reflexivity. Qed.

(** When no drafter keyword, no strategist keyword and no phrase occurs, only
    the generic researcher and analyst keywords count. *)
Lemma scores_without_phrases message :
  matched (draft_kw ++ strategist_kw ++ phrase_signals) (Py.lower message) = [] →
  researcher_score message = 3 * hits research_kw (Py.lower message)
  ∧ analyst_score message = 3 * hits analyst_kw (Py.lower message)
  ∧ drafter_score message = 0
  ∧ strategist_score message = 0.
Proof.
  unfold phrase_signals. rewrite !matched_app.
  intros H.
  apply app_eq_nil in H as [Hd H]. apply app_eq_nil in H as [Hs H].
  apply app_eq_nil in H as [Hks H]. apply app_eq_nil in H as [Hmo H].
  apply app_eq_nil in H as [Hdp Hap].
  unfold researcher_score, analyst_score, drafter_score, strategist_score.
  rewrite (matched_nil_any _ _ Hks), (matched_nil_any _ _ Hmo).
  rewrite (matched_nil_hits _ _ Hd), (matched_nil_hits _ _ Hs).
  rewrite (matched_nil_In _ _ "draft a" Hdp), (matched_nil_In _ _ "draft the" Hdp),
    (matched_nil_In _ _ "draft my" Hdp), (matched_nil_In _ _ "motion to" Hdp)
    by (simpl; tauto).
  rewrite (matched_nil_In _ _ "risk assess" Hap), (matched_nil_In _ _ "what am i missing" Hap)
    by (simpl; tauto).
  simpl bonus. lia.
Qed.

Lemma at_top_nonempty m : at_top m ≠ [].
Proof.
  unfold at_top, top_score, role_order. cbn [List.filter].
  generalize (score_of m "researcher") (score_of m "analyst")
             (score_of m "drafter") (score_of m "strategist").
  intros r a d s.
  repeat match goal with
         | |- context [Z.eqb ?x ?y] => destruct (Z.eqb_spec x y)
         end; try discriminate; lia.
Qed.

(** C5, as stated, fails on a tie at score zero: on "hello" all four roles
    reach the maximum 0, the first of them is researcher, and the classifier
    answers strategist. *)
Lemma classify_intent_tie_at_zero :
  ¬ ((2 ≤ length (at_top "hello"))%nat →
     first_at_top "hello" = Some (classify_intent "hello")).
Proof.
  intros H.
  assert (Htie : (2 ≤ length (at_top "hello"))%nat) by (vm_compute; lia).
  specialize (H Htie). vm_compute in H. discriminate H.
Qed.

(** C5 (amended): whenever the maximum classifier score is positive,
    [classify_intent] returns the first role that reaches that maximum in the
    enumeration order researcher, analyst, drafter, strategist; in particular
    an input matching exactly one generic researcher keyword, one generic
    analyst keyword and nothing else scores researcher 3, analyst 3, drafter 0,
    strategist 0 and is classified as researcher. *)
Theorem classify_intent_tie_break message :
  (0 < top_score message → first_at_top message = Some (classify_intent message))
  ∧ (one_research_one_analyst_hit message →
     score_table message
     = [("researcher", 3); ("analyst", 3); ("drafter", 0); ("strategist", 0)]
     ∧ classify_intent message = "researcher").
Proof.
  split.
  - intros Hpos. rewrite classify_intent_eq.
    destruct (Z.ltb_spec 0 (top_score message)); [|lia].
    unfold first_at_top. pose proof (at_top_nonempty message) as Hne.
    destruct (at_top message); [congruence | reflexivity].
  - intros (Hr & Ha & Hq).
    destruct (scores_without_phrases message Hq) as (Er & Ea & Ed & Es).
    unfold hits in Er, Ea. rewrite Hr in Er. rewrite Ha in Ea.
    assert (Heq : score_table message
                  = [("researcher", 3); ("analyst", 3); ("drafter", 0); ("strategist", 0)]).
    { rewrite score_table_eq, Er, Ea, Ed, Es. reflexivity. }
    split; [exact Heq|].
    unfold classify_intent. rewrite Heq. reflexivity.
Qed.

Lemma classify_intent_tie_break_witness :
  first_at_top "find risk" = Some (classify_intent "find risk")
  ∧ score_table "find risk"
    = [("researcher", 3); ("analyst", 3); ("drafter", 0); ("strategist", 0)]
  ∧ classify_intent "find risk" = "researcher".
Proof.
  destruct (classify_intent_tie_break "find risk") as [Hfirst Hone].
  split.
  - apply Hfirst. vm_compute. reflexivity.
  - apply Hone. unfold one_research_one_analyst_hit.
    repeat split; vm_compute; reflexivity.
Defined.

(** C6: an input whose lowercasing contains no classifier keyword and no
    phrase of any role gives every role the score zero and is classified as
    strategist. *)
Theorem classify_intent_fallback message :
  matched all_signals (Py.lower message) = [] →
  (∀ r, In r role_order → score_of message r = 0)
  ∧ classify_intent message = "strategist".
Proof.
  unfold all_signals. rewrite !matched_app. intros H.
  apply app_eq_nil in H as [Hr H]. apply app_eq_nil in H as [Hd H].
  apply app_eq_nil in H as [Ha H]. apply app_eq_nil in H as [Hs Hp].
  assert (Hq : matched (draft_kw ++ strategist_kw ++ phrase_signals) (Py.lower message) = []).
  { rewrite !matched_app, Hd, Hs, Hp. reflexivity. }
  destruct (scores_without_phrases message Hq) as (Er & Ea & Ed & Es).
  rewrite (matched_nil_hits _ _ Hr) in Er. rewrite (matched_nil_hits _ _ Ha) in Ea.
  assert (Heq : score_table message
                = [("researcher", 0); ("analyst", 0); ("drafter", 0); ("strategist", 0)]).
  { rewrite score_table_eq, Er, Ea, Ed, Es. reflexivity. }
  split.
  - intros r Hin. unfold score_of. rewrite Heq.
    simpl in Hin. destruct Hin as [<-|[<-|[<-|[<-|[]]]]]; reflexivity.
  - unfold classify_intent. rewrite Heq. reflexivity.
Qed.

Lemma classify_intent_fallback_witness :
  (∀ r, In r role_order → score_of "hello" r = 0)
  ∧ classify_intent "hello" = "strategist".
Proof.
  apply (classify_intent_fallback "hello"). vm_compute. reflexivity.
Defined.

(** ** Stages of a run *)

Lemma create_llm_eq w :
  create_llm w = match llm_rejects w (llm_kwargs w) with
                 | Some e => (inl e, w)
                 | None => (inr (llm_kwargs w), w)
                 end.
Proof. reflexivity. Qed.

(** [create_agents] never raises, leaves the world as it is, and fills the
    four keys in the enumeration order. *)
Lemma create_agents_shape llm w :
  ∃ a1 a2 a3 a4 : Agent,
    create_agents llm w
    = (inr [("researcher", a1); ("analyst", a2); ("drafter", a3); ("strategist", a4)], w)
    ∧ role a1 = "Researcher Agent" ∧ role a2 = "Analyst Agent"
    ∧ role a3 = "Drafter Agent" ∧ role a4 = "Strategist Agent".
Proof.
  unfold create_agents, bind, gets, ret.
  do 4 eexists. split; [reflexivity|]. repeat split.
Qed.

(** The task list of a full run, on a registry with the four keys. *)
Lemma full_tasks_shape {S} a1 a2 a3 a4 q jx mf dt (s : S) :
  full_tasks [("researcher", a1); ("analyst", a2); ("drafter", a3); ("strategist", a4)]
             q jx mf dt s
  = (inr (if wants_drafter q dt
          then [create_research_task a1 q jx; create_analysis_task a2 q jx mf;
                create_drafting_task a3 q jx dt mf; create_strategy_task a4 q jx mf]
          else [create_research_task a1 q jx; create_analysis_task a2 q jx mf;
                create_strategy_task a4 q jx mf]), s).
Proof.
  unfold full_tasks, bind, getitem. cbn [lookup_od String.eqb Ascii.eqb Bool.eqb].
  unfold ret. destruct (wants_drafter q dt); reflexivity.
Qed.

(** [run_full_crew], stage by stage. *)
Lemma run_full_crew_unfold q j mf dt w :
  run_full_crew q j mf dt w =
  match create_llm w with
  | (inl e, w1) => (inr (failed "full_crew" j e), w1)
  | (inr llm, w1) =>
      match create_agents llm w1 with
      | (inl e, w2) => (inr (failed "full_crew" j e), w2)
      | (inr agents, w2) =>
          match full_tasks agents q (jx_display j) mf dt w2 with
          | (inl e, w3) => (inr (failed "full_crew" j e), w3)
          | (inr tasks, w3) =>
              match run_tasks tasks "" 0 w3 with
              | (inl e, w4) => (inr (failed "full_crew" j e), w4)
              | (inr result, w4) =>
                  (inr (full_ok j result (cfg_model (get_llm_config w4)) agents tasks), w4)
              end
          end
      end
  end.
Proof.
  unfold run_full_crew, try_except, full_body, bind, kickoff, full_handler, gets, ret.
  cbn [crew_tasks].
  destruct (create_llm w) as [[e|llm] w1]; [reflexivity|].
  destruct (create_agents llm w1) as [[e|agents] w2]; [reflexivity|].
  destruct (full_tasks agents q (jx_display j) mf dt w2) as [[e|tasks] w3]; [reflexivity|].
  destruct (run_tasks tasks "" 0 w3) as [[e|result] w4]; reflexivity.
Qed.

(** [run_single_agent], stage by stage. *)
Lemma run_single_agent_unfold q j at_ mf dt w :
  run_single_agent q j at_ mf dt w =
  match create_llm w with
  | (inl e, w1) => (inr (failed (Py.or_else at_ "unknown") j e), w1)
  | (inr llm, w1) =>
      match create_agents llm w1 with
      | (inl e, w2) => (inr (failed (Py.or_else at_ "unknown") j e), w2)
      | (inr agents, w2) =>
          let role := resolved_role at_ q in
          match lookup_od agents role with
          | None => (inr (failed (Py.or_else role "unknown") j (KeyError role)), w2)
          | Some agent =>
              match run_tasks [single_task role agent q (jx_display j) mf dt] "" 0 w2 with
              | (inl e, w3) => (inr (failed (Py.or_else role "unknown") j e), w3)
              | (inr result, w3) =>
                  (inr (single_ok role j result (cfg_model (get_llm_config w3))), w3)
              end
          end
      end
  end.
Proof.
  unfold run_single_agent, with_local, try_except, single_body, single_handler, resolved_role.
  unfold bind at 1. unfold in_world at 1. cbn [fst snd].
  destruct (create_llm w) as [[e|llm] w1]; [reflexivity|].
  unfold bind at 1. unfold in_world at 1. cbn [fst snd].
  destruct (create_agents llm w1) as [[e|agents] w2]; [reflexivity|].
  unfold bind, get_local, set_local, getitem, in_world, kickoff, gets, ret, raise.
  cbn [fst snd crew_tasks].
  destruct (Py.truthy at_); cbn [negb fst snd].
  - destruct (lookup_od agents at_) as [agent|]; [|reflexivity].
    cbn [fst snd].
    destruct (run_tasks _ "" 0 w2) as [[e|result] w3]; reflexivity.
  - destruct (lookup_od agents (classify_intent q)) as [agent|]; [|reflexivity].
    cbn [fst snd].
    destruct (run_tasks _ "" 0 w2) as [[e|result] w3]; reflexivity.
Qed.

(** ** The log of completion calls *)

(** What [run_tasks] leaves in the log: the tasks it submitted, in order, a
    prefix of its task list and the whole of it on success; every call but
    the last one was answered, and the last one raised exactly when the run
    did. *)
Lemma run_tasks_log tasks : ∀ last tokens w r w',
  run_tasks tasks last tokens w = (r, w') →
  same_setting w w'
  ∧ ∃ issued,
      calls w' = calls w ++ issued
      ∧ issued `prefix_of` tasks
      ∧ (∀ out, r = inr out → issued = tasks)
      ∧ (∀ e, r = inl e → ∃ n t, issued !! n = Some t ∧ S n = length issued
                                 ∧ complete w (calls w ++ take n issued) t = inl e)
      ∧ (∀ n t e, issued !! n = Some t →
                  complete w (calls w ++ take n issued) t = inl e →
                  r = inl e ∧ S n = length issued).
Proof.
  induction tasks as [|t rest IH]; intros last tokens w r w' Hrun.
  - cbn in Hrun. injection Hrun as <- <-.
    split; [repeat split|]. exists []. rewrite app_nil_r.
    split; [reflexivity|]. split; [reflexivity|].
    split; [reflexivity|]. split; [discriminate|].
    intros n t e H. rewrite lookup_nil in H. discriminate.
  - cbn [run_tasks] in Hrun. unfold bind, call_engine in Hrun.
    destruct (complete w (calls w) t) as [e|out] eqn:Hc.
    + injection Hrun as <- <-.
      split; [repeat split|]. exists [t]. cbn [log_call calls].
      split; [reflexivity|]. split; [apply prefix_cons, prefix_nil|].
      split; [discriminate|]. split.
      * intros e' H. injection H as <-. exists 0%nat, t.
        cbn. rewrite app_nil_r. auto.
      * intros n t' e' Hn Hraise.
        destruct n as [|n]; cbn in Hn; [|try rewrite lookup_nil in Hn; discriminate].
        injection Hn as <-. cbn in Hraise. rewrite app_nil_r in Hraise.
        split; [congruence | reflexivity].
    + apply IH in Hrun as (Hset & issued & Hcalls & Hpre & Hok & Hfail & Hlast).
      cbn [log_call calls complete] in *.
      split.
      { destruct Hset as (?&?&?&?&?). repeat split; assumption. }
      exists (t :: issued).
      split; [rewrite Hcalls, <- app_assoc; reflexivity|].
      split; [apply prefix_cons; exact Hpre|].
      split; [intros o Ho; f_equal; eauto|]. split.
      * intros e He. destruct (Hfail e He) as (n & t' & Hn & Hlen & Hraise).
        exists (S n), t'. cbn.
        split; [exact Hn|]. split; [lia|].
        rewrite <- app_assoc in Hraise. exact Hraise.
      * intros n t' e' Hn Hraise.
        destruct n as [|n]; cbn in Hn.
        -- injection Hn as <-. cbn in Hraise. rewrite app_nil_r in Hraise. congruence.
        -- cbn in Hraise.
           replace (calls w ++ t :: take n issued)
             with ((calls w ++ [t]) ++ take n issued) in Hraise
             by (rewrite <- app_assoc; reflexivity).
           destruct (Hlast n t' e' Hn Hraise) as [-> Hlen].
           split; [reflexivity|]. cbn. lia.
Qed.

(** ** The full pipeline *)

Lemma issued_app w w' l : calls w' = calls w ++ l → issued w w' = l.
Proof. unfold issued. intros ->. apply drop_app_length. Qed.

Lemma result_field_Some r k v :
  result_field r k = Some v → ∃ d, fst r = inr d ∧ d !! k = Some v.
Proof.
  unfold result_field. destruct (fst r) as [e|d]; [discriminate|]. eauto.
Qed.

(** A full run either stops at the constructor of [LLM], or builds the four
    agents and the pipeline and hands it to [run_tasks]. *)
Lemma run_full_crew_stages q j mf dt w :
  (∃ e, llm_rejects w (llm_kwargs w) = Some e
        ∧ run_full_crew q j mf dt w = (inr (failed "full_crew" j e), w))
  ∨ (∃ a1 a2 a3 a4,
       let agents := [("researcher", a1); ("analyst", a2); ("drafter", a3); ("strategist", a4)] in
       let tasks := pipeline a1 a2 a3 a4 q (jx_display j) mf dt in
       llm_rejects w (llm_kwargs w) = None
       ∧ create_agents (llm_kwargs w) w = (inr agents, w)
       ∧ (role a1 = "Researcher Agent" ∧ role a2 = "Analyst Agent"
          ∧ role a3 = "Drafter Agent" ∧ role a4 = "Strategist Agent")
       ∧ run_full_crew q j mf dt w =
         match run_tasks tasks "" 0 w with
         | (inl e, w') => (inr (failed "full_crew" j e), w')
         | (inr result, w') =>
             (inr (full_ok j result (cfg_model (get_llm_config w')) agents tasks), w')
         end).
Proof.
  rewrite run_full_crew_unfold, create_llm_eq.
  destruct (llm_rejects w (llm_kwargs w)) as [e|] eqn:Hllm.
  - left. exists e. split; reflexivity.
  - right. destruct (create_agents_shape (llm_kwargs w) w) as (a1 & a2 & a3 & a4 & Hag & Hroles).
    exists a1, a2, a3, a4. cbn zeta. rewrite Hag, full_tasks_shape.
    split; [reflexivity|]. split; [reflexivity|]. split; [exact Hroles|]. reflexivity.
Qed.

Lemma failed_success a j e : failed a j e !! "success" = Some (VBool false).
Proof. reflexivity. Qed.

Lemma full_ok_tasks_completed j result m agents tasks :
  full_ok j result m agents tasks !! "tasks_completed"
  = Some (VInt (Z.of_nat (length tasks))).
Proof. reflexivity. Qed.



Lemma length_pipeline a1 a2 a3 a4 q jx mf dt :
  length (pipeline a1 a2 a3 a4 q jx mf dt) = length (pipeline_roles q dt).
Proof. unfold pipeline, pipeline_roles. destruct (wants_drafter q dt); reflexivity. Qed.

(** What a successful full run reports and what it has submitted. *)
Lemma run_full_crew_success q j mf dt w d :
  fst (run_full_crew q j mf dt w) = inr d →
  d !! "success" = Some (VBool true) →
  ∃ a1 a2 a3 a4 result,
    let agents := [("researcher", a1); ("analyst", a2); ("drafter", a3); ("strategist", a4)] in
    let tasks := pipeline a1 a2 a3 a4 q (jx_display j) mf dt in
    let w' := snd (run_full_crew q j mf dt w) in
    create_agents (llm_kwargs w) w = (inr agents, w)
    ∧ (role a1 = "Researcher Agent" ∧ role a2 = "Analyst Agent"
       ∧ role a3 = "Drafter Agent" ∧ role a4 = "Strategist Agent")
    ∧ d = full_ok j result (cfg_model (get_llm_config w')) agents tasks
    ∧ issued w w' = tasks.
Proof.
  intros Hd Hs.
  destruct (run_full_crew_stages q j mf dt w)
    as [(e & _ & Hrun) | (a1 & a2 & a3 & a4 & _ & Hag & Hroles & Hrun)].
  - rewrite Hrun in Hd. cbn [fst] in Hd. injection Hd as <-.
    rewrite failed_success in Hs. discriminate.
  - cbn zeta in Hrun.
    destruct (run_tasks (pipeline a1 a2 a3 a4 q (jx_display j) mf dt) "" 0 w)
      as [[e|result] w'] eqn:Htasks; rewrite Hrun in *; cbn [fst snd] in *.
    + injection Hd as <-. rewrite failed_success in Hs. discriminate.
    + injection Hd as <-. exists a1, a2, a3, a4, result. cbn zeta.
      split; [exact Hag|]. split; [exact Hroles|]. split; [reflexivity|].
      apply run_tasks_log in Htasks as (_ & l & Hcalls & _ & Hok & _).
      rewrite (Hok result eq_refl) in Hcalls. apply issued_app, Hcalls.
Qed.




Lemma wants_drafter_iff q dt :
  wants_drafter q dt = true
  ↔ dt ≠ "" ∨ ∃ kw, In kw ["draft"; "write"; "prepare"; "motion"; "complaint"; "letter"]
                     ∧ Py.contains kw (Py.lower q) = true.
Proof.
  unfold wants_drafter, Py.any. rewrite orb_true_iff, existsb_exists.
  split; (intros [H|H]; [left|right; exact H]).
  - destruct dt; [discriminate|congruence].
  - destruct dt; [congruence|reflexivity].
Qed.

(** Looking a key up in a registry with the four keys. *)
Lemma lookup_registry (a1 a2 a3 a4 a : Agent) k :
  lookup_od [("researcher", a1); ("analyst", a2); ("drafter", a3); ("strategist", a4)] k
  = Some a →
  (k = "researcher" ∧ a = a1) ∨ (k = "analyst" ∧ a = a2)
  ∨ (k = "drafter" ∧ a = a3) ∨ (k = "strategist" ∧ a = a4).
Proof.
  cbn [lookup_od].
  destruct (String.eqb_spec "researcher" k) as [<-|_]; [intros [= <-]; auto|].
  destruct (String.eqb_spec "analyst" k) as [<-|_]; [intros [= <-]; auto|].
  destruct (String.eqb_spec "drafter" k) as [<-|_]; [intros [= <-]; auto|].
  destruct (String.eqb_spec "strategist" k) as [<-|_]; [intros [= <-]; auto 6|].
  discriminate.
Qed.

Lemma registry_injective (a1 a2 a3 a4 : Agent) :
  role a1 = "Researcher Agent" → role a2 = "Analyst Agent" →
  role a3 = "Drafter Agent" → role a4 = "Strategist Agent" →
  ∀ k k' a,
    lookup_od [("researcher", a1); ("analyst", a2); ("drafter", a3); ("strategist", a4)] k
    = Some a →
    lookup_od [("researcher", a1); ("analyst", a2); ("drafter", a3); ("strategist", a4)] k'
    = Some a →
    k = k'.
Proof.
  intros H1 H2 H3 H4 k k' a Hk Hk'.
  apply lookup_registry in Hk, Hk'.
  destruct Hk as [[-> ->]|[[-> ->]|[[-> ->]|[-> ->]]]];
    destruct Hk' as [[-> E]|[[-> E]|[[-> E]|[-> E]]]];
    try reflexivity; exfalso; apply (f_equal role) in E; congruence.
Qed.

(** C3, as stated, fails on a failing run: with a document type the drafter
    task is built, four tasks in all, and when the backend raises the result
    has no [tasks_completed] at all. *)
Lemma tasks_completed_absent_on_failure :
  let w := quiet_world (failing_at 1) in
  let run := run_full_crew "advise on the claim" "missouri" ""
                           "motion for summary judgment" w in
  wants_drafter "advise on the claim" "motion for summary judgment" = true
  ∧ match create_agents (llm_kwargs w) w with
    | (inr agents, _) =>
        match full_tasks agents "advise on the claim" (jx_display "missouri") ""
                         "motion for summary judgment" w with
        | (inr tasks, _) => map (λ t, role (agent t)) tasks
        | (inl _, _) => []
        end
    | (inl _, _) => []
    end = ["Researcher Agent"; "Analyst Agent"; "Drafter Agent"; "Strategist Agent"]
  ∧ result_field run "success" = Some (VBool false)
  ∧ result_field run "tasks_completed" = None
  ∧ result_field run "tasks_completed" ≠ Some (VInt 4).
Proof.
  cbn zeta. repeat split; try (vm_compute; reflexivity).
  vm_compute. discriminate.
Qed.

(** C3 (amended): [run_full_crew] builds its tasks in the order researcher,
    analyst, drafter, strategist, each the template of its role given to the
    agent registered under it, the drafter task being there exactly when the
    document type is non-empty or the lowercased query holds one of "draft",
    "write", "prepare", "motion", "complaint", "letter"; the strategist task
    is last and, with the drafter, the drafter task comes just before it.  A
    successful run has submitted these tasks and reports their number as
    [tasks_completed], 4 with the drafter; a failed run reports no
    [tasks_completed]. *)
Theorem full_pipeline_order q j mf dt w :
  (wants_drafter q dt = true
   ↔ dt ≠ "" ∨ ∃ kw, In kw ["draft"; "write"; "prepare"; "motion"; "complaint"; "letter"]
                      ∧ Py.contains kw (Py.lower q) = true)
  ∧ pipeline_roles q dt
    = ["researcher"; "analyst"] ++ (if wants_drafter q dt then ["drafter"] else [])
      ++ ["strategist"]
  ∧ last (pipeline_roles q dt) = Some "strategist"
  ∧ ∃ agents tasks,
      create_agents (llm_kwargs w) w = (inr agents, w)
      ∧ full_tasks agents q (jx_display j) mf dt w = (inr tasks, w)
      ∧ Forall2 (λ t k, lookup_od agents k = Some (agent t)) tasks (pipeline_roles q dt)
      ∧ Forall2 (λ t k, ∃ a, lookup_od agents k = Some a
                             ∧ t = render (kind_of k) a q (jx_display j) mf dt)
                tasks (pipeline_roles q dt)
      ∧ (∀ k k' a, lookup_od agents k = Some a → lookup_od agents k' = Some a → k = k')
      ∧ (result_field (run_full_crew q j mf dt w) "success" = Some (VBool true) →
         issued w (snd (run_full_crew q j mf dt w)) = tasks
         ∧ result_field (run_full_crew q j mf dt w) "tasks_completed"
           = Some (VInt (Z.of_nat (length (pipeline_roles q dt))))
         ∧ (wants_drafter q dt = true →
            result_field (run_full_crew q j mf dt w) "tasks_completed" = Some (VInt 4)))
      ∧ (result_field (run_full_crew q j mf dt w) "success" ≠ Some (VBool true) →
         result_field (run_full_crew q j mf dt w) "success" = Some (VBool false)
         ∧ result_field (run_full_crew q j mf dt w) "tasks_completed" = None).
Proof.
  split; [apply wants_drafter_iff|].
  split; [unfold pipeline_roles; destruct (wants_drafter q dt); reflexivity|].
  split; [unfold pipeline_roles; destruct (wants_drafter q dt); reflexivity|].
  destruct (create_agents_shape (llm_kwargs w) w)
    as (a1 & a2 & a3 & a4 & Hag & H1 & H2 & H3 & H4).
  eexists _, (pipeline a1 a2 a3 a4 q (jx_display j) mf dt).
  split; [exact Hag|]. split; [apply full_tasks_shape|].
  split; [|split; [|split; [apply registry_injective; assumption|split]]].
  - unfold pipeline, pipeline_roles.
    destruct (wants_drafter q dt); repeat constructor.
  - unfold pipeline, pipeline_roles.
    destruct (wants_drafter q dt);
      repeat (constructor; [eexists; split; reflexivity|]); constructor.
  - intros Hs. apply result_field_Some in Hs as (d & Hd & Hs).
    unfold result_field. rewrite Hd.
    destruct (run_full_crew_success q j mf dt w d Hd Hs)
      as (b1 & b2 & b3 & b4 & result & Hag' & _ & -> & Hiss).
    cbn zeta in *. rewrite Hag in Hag'. injection Hag' as <- <- <- <-.
    split; [exact Hiss|].
    assert (Hn : full_ok j result
                   (cfg_model (get_llm_config (snd (run_full_crew q j mf dt w))))
                   [("researcher", a1); ("analyst", a2); ("drafter", a3); ("strategist", a4)]
                   (pipeline a1 a2 a3 a4 q (jx_display j) mf dt) !! "tasks_completed"
                 = Some (VInt (Z.of_nat (length (pipeline_roles q dt))))).
    { rewrite <- (length_pipeline a1 a2 a3 a4 q (jx_display j) mf dt). reflexivity. }
    split; [exact Hn|].
    intros Hw. rewrite Hn. unfold pipeline_roles. rewrite Hw. reflexivity.
  - unfold result_field.
    destruct (run_full_crew_stages q j mf dt w)
      as [(e & _ & ->) | (b1 & b2 & b3 & b4 & _ & _ & _ & ->)].
    + intros _. split; reflexivity.
    + cbn zeta. destruct (run_tasks _ "" 0 w) as [[e|result] w'].
      * intros _. split; reflexivity.
      * intros Hne. exfalso. apply Hne. reflexivity.
Qed.

Lemma full_pipeline_order_witness :
  let w := quiet_world echo_engine in
  let run := run_full_crew "advise on the claim" "missouri" "" "motion for summary judgment" w in
  map (λ t, role (agent t)) (issued w (snd run))
  = ["Researcher Agent"; "Analyst Agent"; "Drafter Agent"; "Strategist Agent"]
  ∧ result_field run "tasks_completed" = Some (VInt 4)
  ∧ result_field (run_full_crew "advise on the claim" "missouri" ""
                                "motion for summary judgment" (quiet_world (failing_at 1)))
                 "tasks_completed" = None.
Proof.
  cbn zeta.
  destruct (full_pipeline_order "advise on the claim" "missouri" ""
              "motion for summary judgment" (quiet_world echo_engine))
    as (_ & _ & _ & agents & tasks & _ & _ & _ & _ & _ & Hrun & _).
  destruct (full_pipeline_order "advise on the claim" "missouri" ""
              "motion for summary judgment" (quiet_world (failing_at 1)))
    as (_ & _ & _ & agents' & tasks' & _ & _ & _ & _ & _ & _ & Hfail).
  split; [vm_compute; reflexivity|].
  split; [apply Hrun; vm_compute; reflexivity|].
  apply Hfail. vm_compute. discriminate.
Defined.

(** ** Failure of the completion backend *)

Lemma failed_fields a j e :
  failed a j e !! "success" = Some (VBool false)
  ∧ failed a j e !! "agent_type" = Some (VStr a)
  ∧ failed a j e !! "error" = Some (VStr (str_exn e))
  ∧ failed a j e !! "content" = Some (VStr "")
  ∧ failed a j e !! "jurisdiction" = Some (VStr j)
  ∧ dom (failed a j e)
    = ({["success"; "agent_type"; "error"; "content"; "jurisdiction"]} : gset string).
Proof.
  repeat split; reflexivity.
Qed.

(** C4: when a completion call of a full run raises, that call is the last
    one the run issues, and [run_full_crew] returns the failed result:
    [success] false, [error] the text of the exception, [content] empty, and
    no other field than [agent_type] and [jurisdiction], so neither output nor
    token usage of the steps already completed. *)
Theorem run_full_crew_abort q j mf dt w n t e :
  let w' := snd (run_full_crew q j mf dt w) in
  issued w w' !! n = Some t →
  complete w (calls w ++ take n (issued w w')) t = inl e →
  S n = length (issued w w')
  ∧ ∃ d, fst (run_full_crew q j mf dt w) = inr d
         ∧ d !! "success" = Some (VBool false)
         ∧ d !! "error" = Some (VStr (str_exn e))
         ∧ d !! "content" = Some (VStr "")
         ∧ dom d = ({["success"; "agent_type"; "error"; "content"; "jurisdiction"]}
                    : gset string).
Proof.
  cbn zeta.
  destruct (run_full_crew_stages q j mf dt w)
    as [(e0 & _ & Hrun) | (a1 & a2 & a3 & a4 & _ & _ & _ & Hrun)].
  - rewrite Hrun. cbn [fst snd]. unfold issued. rewrite drop_all.
    intros Hn. rewrite lookup_nil in Hn. discriminate.
  - cbn zeta in Hrun.
    destruct (run_tasks (pipeline a1 a2 a3 a4 q (jx_display j) mf dt) "" 0 w)
      as [r w'] eqn:Htasks.
    apply run_tasks_log in Htasks as (_ & l & Hcalls & _ & _ & _ & Hlast).
    assert (Hw' : snd (run_full_crew q j mf dt w) = w').
    { rewrite Hrun. destruct r; reflexivity. }
    rewrite Hw', (issued_app _ _ _ Hcalls).
    intros Hn Hraise. destruct (Hlast n t e Hn Hraise) as [-> Hlen].
    split; [exact Hlen|].
    exists (failed "full_crew" j e). rewrite Hrun. cbn [fst].
    destruct (failed_fields "full_crew" j e) as (?&?&?&?&?&?).
    repeat split; assumption.
Qed.

Lemma run_full_crew_abort_witness :
  let w := quiet_world (failing_at 1) in
  let run := run_full_crew "what are my options" "kansas" "" "" w in
  map (λ t, role (agent t)) (issued w (snd run)) = ["Researcher Agent"; "Analyst Agent"]
  ∧ ∃ d, fst run = inr d
         ∧ d !! "success" = Some (VBool false)
         ∧ d !! "error" = Some (VStr "connection reset")
         ∧ d !! "content" = Some (VStr "").
Proof.
  cbn zeta. split; [vm_compute; reflexivity|].
  edestruct (run_full_crew_abort "what are my options" "kansas" "" ""
               (quiet_world (failing_at 1)) 1)
    as (_ & d & Hd & Hs & He & Hc & _).
  - vm_compute. reflexivity.
  - vm_compute. reflexivity.
  - exists d. auto.
Defined.

(** ** The shape of the results *)

Lemma classify_intent_in_roles m : In (classify_intent m) role_order.
Proof.
  rewrite classify_intent_eq.
  destruct (0 <? top_score m); [|simpl; tauto].
  unfold first_at_top. destruct (at_top m) as [|r l] eqn:E; [simpl; tauto|].
  assert (Hin : In r (at_top m)) by (rewrite E; left; reflexivity).
  unfold at_top in Hin. apply List.filter_In in Hin as [Hin _]. exact Hin.
Qed.

Lemma truthy_iff s : Py.truthy s = true ↔ s ≠ "".
Proof. destruct s; simpl; split; congruence. Qed.

Lemma resolved_role_truthy at_ q : Py.truthy (resolved_role at_ q) = true.
Proof.
  unfold resolved_role. destruct (Py.truthy at_) eqn:E; cbn [negb]; [exact E|].
  pose proof (classify_intent_in_roles q) as Hin. simpl in Hin.
  destruct Hin as [<-|[<-|[<-|[<-|[]]]]]; reflexivity.
Qed.

Lemma dom_failed a j e :
  dom (failed a j e) = shared_fields ∪ {["error"]}.
Proof. reflexivity. Qed.

Lemma dom_single_ok a j result m :
  dom (single_ok a j result m) = shared_fields ∪ {["model"; "token_usage"]}.
Proof. reflexivity. Qed.

Lemma dom_full_ok j result m agents tasks :
  dom (full_ok j result m agents tasks)
  = shared_fields ∪ {["model"; "token_usage"; "agents_used"; "tasks_completed"]}.
Proof. reflexivity. Qed.

(** What [run_single_agent] returns: the successful dictionary for the
    resolved role, or the failed one. *)
Lemma run_single_agent_result q j at_ mf dt w :
  ∃ d, fst (run_single_agent q j at_ mf dt w) = inr d
       ∧ ((∃ result m, d = single_ok (resolved_role at_ q) j result m)
          ∨ (∃ a e, d = failed a j e
                    ∧ (a = resolved_role at_ q ∨ (a = "unknown" ∧ at_ = "")))).
Proof.
  rewrite run_single_agent_unfold, create_llm_eq.
  assert (Hunk : ∀ e, ∃ a, failed (Py.or_else at_ "unknown") j e = failed a j e
                           ∧ (a = resolved_role at_ q ∨ (a = "unknown" ∧ at_ = ""))).
  { intros e. exists (Py.or_else at_ "unknown"). split; [reflexivity|].
    unfold Py.or_else, resolved_role. destruct at_; cbn; auto. }
  destruct (llm_rejects w (llm_kwargs w)) as [e|].
  { eexists. split; [reflexivity|]. right.
    destruct (Hunk e) as (a & -> & Ha). eauto. }
  destruct (create_agents_shape (llm_kwargs w) w) as (a1 & a2 & a3 & a4 & -> & _).
  cbn zeta. unfold Py.or_else. rewrite resolved_role_truthy.
  destruct (lookup_od _ (resolved_role at_ q)) as [agent|].
  - destruct (run_tasks _ "" 0 w) as [[e|result] w'];
      (eexists; split; [reflexivity|]); [right|left]; eauto.
  - eexists. split; [reflexivity|]. right. eauto.
Qed.

(** What [run_full_crew] returns. *)
Lemma run_full_crew_result q j mf dt w :
  ∃ d, fst (run_full_crew q j mf dt w) = inr d
       ∧ ((∃ result m agents tasks, d = full_ok j result m agents tasks)
          ∨ (∃ e, d = failed "full_crew" j e)).
Proof.
  destruct (run_full_crew_stages q j mf dt w)
    as [(e & _ & ->) | (a1 & a2 & a3 & a4 & _ & _ & _ & ->)].
  - eexists. split; [reflexivity|]. right. eauto.
  - cbn zeta. destruct (run_tasks _ "" 0 w) as [[e|result] w'];
      (eexists; split; [reflexivity|]); [right|left]; eauto.
Qed.

Lemma fields_spec r k : k ∈ fields r ↔ is_Some (result_field r k).
Proof.
  unfold fields, result_field. destruct (fst r) as [e|d].
  - split; [intros H; set_solver | intros [v Hv]; discriminate].
  - apply elem_of_dom.
Qed.

(** C2, as stated, fails: the successful result of a request has a [model]
    field (and [token_usage]) that its failed result lacks, and the failed one
    has an [error] field that the successful one lacks. *)
Lemma results_differ_in_fields :
  let ok := run_full_crew "what are my options" "kansas" "" "" (quiet_world echo_engine) in
  let ko := run_full_crew "what are my options" "kansas" "" "" (quiet_world (failing_at 1)) in
  result_field ok "success" = Some (VBool true)
  ∧ result_field ko "success" = Some (VBool false)
  ∧ result_field ok "model" = Some (VStr "gpt-5-mini")
  ∧ result_field ko "model" = None
  ∧ result_field ok "error" = None
  ∧ fields ok ≠ fields ko.
Proof.
  cbn zeta. repeat split; try (vm_compute; reflexivity).
  intros H.
  assert (Hin : "model" ∈ fields (run_full_crew "what are my options" "kansas" "" ""
                                    (quiet_world (failing_at 1)))).
  { rewrite <- H. apply fields_spec. vm_compute. eauto. }
  apply fields_spec in Hin as [v Hv]. vm_compute in Hv. discriminate.
Qed.

(** C2 (amended): a successful and a failed result of the same request share
    the fields [success], [agent_type], [content] and [jurisdiction]; the
    successful one has besides them [model] and [token_usage] (and, for
    [run_full_crew], [agents_used] and [tasks_completed]), the failed one has
    besides them [error], and its [content] is empty.  On the shared fields the
    two agree on [jurisdiction]; they agree on [agent_type] too, except that a
    single-agent run without forced role which fails before the role is
    resolved reports "unknown". *)
Theorem result_shapes q j at_ mf dt w1 w2 :
  (let ok := run_single_agent q j at_ mf dt w1 in
   let ko := run_single_agent q j at_ mf dt w2 in
   result_field ok "success" = Some (VBool true) →
   result_field ko "success" = Some (VBool false) →
   fields ok = shared_fields ∪ {["model"; "token_usage"]}
   ∧ fields ko = shared_fields ∪ {["error"]}
   ∧ result_field ko "content" = Some (VStr "")
   ∧ result_field ok "jurisdiction" = result_field ko "jurisdiction"
   ∧ (result_field ok "agent_type" = result_field ko "agent_type"
      ∨ (at_ = "" ∧ result_field ko "agent_type" = Some (VStr "unknown"))))
  ∧ (let ok := run_full_crew q j mf dt w1 in
     let ko := run_full_crew q j mf dt w2 in
     result_field ok "success" = Some (VBool true) →
     result_field ko "success" = Some (VBool false) →
     fields ok = shared_fields ∪ {["model"; "token_usage"; "agents_used"; "tasks_completed"]}
     ∧ fields ko = shared_fields ∪ {["error"]}
     ∧ result_field ko "content" = Some (VStr "")
     ∧ result_field ok "jurisdiction" = result_field ko "jurisdiction"
     ∧ result_field ok "agent_type" = result_field ko "agent_type").
Proof.
  split; cbn zeta; unfold result_field, fields.
  - destruct (run_single_agent_result q j at_ mf dt w1) as (d1 & -> & H1).
    destruct (run_single_agent_result q j at_ mf dt w2) as (d2 & -> & H2).
    intros Hok Hko.
    destruct H1 as [(result & m & ->) | (a & e & -> & _)];
      [|rewrite failed_success in Hok; discriminate].
    destruct H2 as [(result2 & m2 & ->) | (a & e & -> & Ha)]; [discriminate|].
    rewrite dom_single_ok, dom_failed.
    do 4 (split; [reflexivity|]).
    destruct Ha as [->|[-> ->]]; [left|right]; split; reflexivity.
  - destruct (run_full_crew_result q j mf dt w1) as (d1 & -> & H1).
    destruct (run_full_crew_result q j mf dt w2) as (d2 & -> & H2).
    intros Hok Hko.
    destruct H1 as [(result & m & agents & tasks & ->) | (e & ->)];
      [|rewrite failed_success in Hok; discriminate].
    destruct H2 as [(result2 & m2 & agents2 & tasks2 & ->) | (e & ->)]; [discriminate|].
    rewrite dom_full_ok, dom_failed.
    repeat split; reflexivity.
Qed.

Lemma result_shapes_witness :
  let w1 := quiet_world echo_engine in
  let w2 := quiet_world (failing_at 0) in
  (fields (run_single_agent "find risk" "kansas" "" "" "" w1)
   = shared_fields ∪ {["model"; "token_usage"]}
   ∧ fields (run_single_agent "find risk" "kansas" "" "" "" w2) = shared_fields ∪ {["error"]})
  ∧ (fields (run_full_crew "find risk" "kansas" "" "" w1)
     = shared_fields ∪ {["model"; "token_usage"; "agents_used"; "tasks_completed"]}
     ∧ fields (run_full_crew "find risk" "kansas" "" "" w2) = shared_fields ∪ {["error"]}).
Proof.
  cbn zeta.
  destruct (result_shapes "find risk" "kansas" "" "" ""
              (quiet_world echo_engine) (quiet_world (failing_at 0))) as [Hs Hf].
  split.
  - destruct Hs as (H1 & H2 & _); [vm_compute; reflexivity | vm_compute; reflexivity |].
    split; assumption.
  - destruct Hf as (H1 & H2 & _); [vm_compute; reflexivity | vm_compute; reflexivity |].
    split; assumption.
Defined.

(** C10: whatever the input and whatever the completion backend does,
    raising included, [run_single_agent] and [run_full_crew] do not raise:
    each returns a dictionary, and it has the fields [success], [agent_type],
    [content] and [jurisdiction]. *)
Theorem runs_never_raise q j at_ mf dt w :
  (∃ d, fst (run_single_agent q j at_ mf dt w) = inr d ∧ shared_fields ⊆ dom d)
  ∧ (∃ d, fst (run_full_crew q j mf dt w) = inr d ∧ shared_fields ⊆ dom d).
Proof.
  split.
  - destruct (run_single_agent_result q j at_ mf dt w) as (d & Hd & H).
    exists d. split; [exact Hd|].
    destruct H as [(result & m & ->) | (a & e & -> & _)].
    + rewrite dom_single_ok. apply union_subseteq_l.
    + rewrite dom_failed. apply union_subseteq_l.
  - destruct (run_full_crew_result q j mf dt w) as (d & Hd & H).
    exists d. split; [exact Hd|].
    destruct H as [(result & m & agents & tasks & ->) | (e & ->)].
    + rewrite dom_full_ok. apply union_subseteq_l.
    + rewrite dom_failed. apply union_subseteq_l.
Qed.

(** ** An unknown forced role *)

Lemma lookup_registry_None (a1 a2 a3 a4 : Agent) k :
  ¬ In k role_order →
  lookup_od [("researcher", a1); ("analyst", a2); ("drafter", a3); ("strategist", a4)] k
  = None.
Proof.
  intros Hk. cbn [lookup_od].
  destruct (String.eqb_spec "researcher" k) as [<-|_]; [exfalso; apply Hk; simpl; tauto|].
  destruct (String.eqb_spec "analyst" k) as [<-|_]; [exfalso; apply Hk; simpl; tauto|].
  destruct (String.eqb_spec "drafter" k) as [<-|_]; [exfalso; apply Hk; simpl; tauto|].
  destruct (String.eqb_spec "strategist" k) as [<-|_]; [exfalso; apply Hk; simpl; tauto|].
  reflexivity.
Qed.

(** C9: a forced role that is non-empty and none of researcher, analyst,
    drafter, strategist makes [run_single_agent] fail at once: the world is
    left as it was, so no completion call is issued and nothing is retried,
    and the result is the failed one, naming the role; when the constructor
    of [LLM] accepts, the error is the [KeyError] of the registry lookup, so
    the role is rejected and not replaced by another. *)
Theorem run_single_agent_unknown_role q j at_ mf dt w :
  at_ ≠ "" → ¬ In at_ role_order →
  let run := run_single_agent q j at_ mf dt w in
  snd run = w
  ∧ issued w (snd run) = []
  ∧ result_field run "success" = Some (VBool false)
  ∧ result_field run "agent_type" = Some (VStr at_)
  ∧ result_field run "content" = Some (VStr "")
  ∧ (llm_rejects w (llm_kwargs w) = None →
     fst run = inr (failed at_ j (KeyError at_))
     ∧ result_field run "error" = Some (VStr (Repr.repr at_))).
Proof.
  intros Hne Hunk run. subst run.
  assert (Hrole : resolved_role at_ q = at_).
  { unfold resolved_role. apply truthy_iff in Hne. rewrite Hne. reflexivity. }
  assert (Hor : Py.or_else at_ "unknown" = at_).
  { unfold Py.or_else. apply truthy_iff in Hne. rewrite Hne. reflexivity. }
  assert (Hrun : run_single_agent q j at_ mf dt w
                 = (inr (failed at_ j (match llm_rejects w (llm_kwargs w) with
                                       | Some e => e
                                       | None => KeyError at_
                                       end)), w)).
  { rewrite run_single_agent_unfold, create_llm_eq.
    destruct (llm_rejects w (llm_kwargs w)) as [e|]; [rewrite Hor; reflexivity|].
    destruct (create_agents_shape (llm_kwargs w) w) as (a1 & a2 & a3 & a4 & -> & _).
    cbn zeta. rewrite Hrole, (lookup_registry_None _ _ _ _ _ Hunk), Hor. reflexivity. }
  rewrite Hrun. unfold result_field, issued. cbn [fst snd].
  split; [reflexivity|]. split; [apply drop_all|].
  do 3 (split; [reflexivity|]).
  intros ->. split; reflexivity.
Qed.

Lemma run_single_agent_unknown_role_witness :
  let w := quiet_world echo_engine in
  let run := run_single_agent "find risk" "kansas" "lawyer" "" "" w in
  calls (snd run) = []
  ∧ result_field run "success" = Some (VBool false)
  ∧ result_field run "error" = Some (VStr "'lawyer'").
Proof.
  cbn zeta.
  destruct (run_single_agent_unknown_role "find risk" "kansas" "lawyer" "" ""
              (quiet_world echo_engine)) as (Hw & _ & Hs & _ & _ & Herr).
  - discriminate.
  - simpl. intros [H|[H|[H|[H|[]]]]]; discriminate H.
  - rewrite Hw. split; [reflexivity|]. split; [exact Hs|].
    destruct Herr as [_ He]; [reflexivity|]. exact He.
Defined.

(** ** Jurisdiction *)

Lemma single_task_render role a q jx mf dt :
  single_task role a q jx mf dt = render (kind_of role) a q jx mf dt.
Proof.
  unfold single_task, kind_of.
  repeat match goal with |- context [String.eqb ?x ?y] => destruct (String.eqb x y) end;
    reflexivity.
Qed.

Lemma pipeline_render a1 a2 a3 a4 q jx mf dt :
  pipeline a1 a2 a3 a4 q jx mf dt = render_plan (full_plan a1 a2 a3 a4 q dt) q jx mf dt.
Proof. unfold pipeline, full_plan. destruct (wants_drafter q dt); reflexivity. Qed.

Lemma startswith_app x b : Py.startswith (x +:+ b) x = true.
Proof. induction x as [|c x IH]; [reflexivity|]. simpl. rewrite Ascii.eqb_refl. exact IH. Qed.

Lemma contains_here x b : Py.contains x (x +:+ b) = true.
Proof.
  destruct (x +:+ b) eqn:E; simpl; rewrite <- E, startswith_app; reflexivity.
Qed.

Lemma contains_app_r x a s : Py.contains x s = true → Py.contains x (a +:+ s) = true.
Proof.
  intros H. induction a as [|c a IH]; [exact H|].
  simpl. rewrite IH. apply orb_true_r.
Qed.

(** Each template writes the jurisdiction it is given into the description. *)
Lemma render_shows_jurisdiction k a q jx mf dt :
  Py.contains jx (description (render k a q jx mf dt)) = true.
Proof.
  destruct k; cbn [render description create_research_task create_analysis_task
                   create_drafting_task create_strategy_task];
    repeat first [apply contains_here | apply contains_app_r].
Qed.

(** What a single-agent run and a full run submit. *)
Lemma run_single_agent_issued q j at_ mf dt w :
  issued w (snd (run_single_agent q j at_ mf dt w))
  = match llm_rejects w (llm_kwargs w), create_agents (llm_kwargs w) w with
    | None, (inr agents, _) =>
        match lookup_od agents (resolved_role at_ q) with
        | Some a => [render (kind_of (resolved_role at_ q)) a q (jx_display j) mf dt]
        | None => []
        end
    | _, _ => []
    end.
Proof.
  rewrite run_single_agent_unfold, create_llm_eq.
  destruct (llm_rejects w (llm_kwargs w)) as [e|]; [apply drop_all|].
  destruct (create_agents_shape (llm_kwargs w) w) as (a1 & a2 & a3 & a4 & -> & _).
  cbn zeta.
  destruct (lookup_od _ (resolved_role at_ q)) as [a|]; [|apply drop_all].
  rewrite single_task_render. cbn [run_tasks]. unfold bind, call_engine.
  destruct (complete w (calls w) _); cbn [snd run_tasks ret];
    apply issued_app; reflexivity.
Qed.

Lemma run_full_crew_issued q j mf dt w :
  ∃ a1 a2 a3 a4,
    create_agents (llm_kwargs w) w
    = (inr [("researcher", a1); ("analyst", a2); ("drafter", a3); ("strategist", a4)], w)
    ∧ issued w (snd (run_full_crew q j mf dt w))
      `prefix_of` render_plan (full_plan a1 a2 a3 a4 q dt) q (jx_display j) mf dt.
Proof.
  destruct (run_full_crew_stages q j mf dt w)
    as [(e & _ & Hrun) | (a1 & a2 & a3 & a4 & _ & Hag & _ & Hrun)].
  - destruct (create_agents_shape (llm_kwargs w) w) as (a1 & a2 & a3 & a4 & Hag & _).
    exists a1, a2, a3, a4. split; [exact Hag|].
    rewrite Hrun. unfold issued. cbn [snd]. rewrite drop_all. apply prefix_nil.
  - exists a1, a2, a3, a4. split; [exact Hag|].
    cbn zeta in Hrun. rewrite <- pipeline_render.
    destruct (run_tasks (pipeline a1 a2 a3 a4 q (jx_display j) mf dt) "" 0 w)
      as [r w'] eqn:Htasks.
    apply run_tasks_log in Htasks as (_ & l & Hcalls & Hpre & _).
    assert (Hw' : snd (run_full_crew q j mf dt w) = w').
    { rewrite Hrun. destruct r; reflexivity. }
    rewrite Hw', (issued_app _ _ _ Hcalls). exact Hpre.
Qed.

(** C7, as stated, fails: "KANSAS" is not a key of the table, and it is
    rendered as "Kansas", not verbatim. *)
Lemma jx_display_folds_case :
  ¬ (lookup_od jx_table "KANSAS" = None → jx_display "KANSAS" = "KANSAS").
Proof. intros H. specialize (H eq_refl). vm_compute in H. discriminate H. Qed.

(** C7 (amended): the jurisdiction written into the task text is found by
    looking the lowercased value up in the table kansas -> "Kansas",
    missouri -> "Missouri", federal -> "Federal", multistate ->
    "Kansas & Missouri"; a value whose lowercase form is not a key of the
    table is written verbatim, its case kept.  Every task a run submits is a
    template instantiated with that text. *)
Theorem jx_display_lookup j :
  jx_table = [("kansas", "Kansas"); ("missouri", "Missouri");
              ("federal", "Federal"); ("multistate", "Kansas & Missouri")]
  ∧ (∀ shown, lookup_od jx_table (Py.lower j) = Some shown → jx_display j = shown)
  ∧ (lookup_od jx_table (Py.lower j) = None → jx_display j = j)
  ∧ (∀ q at_ mf dt w t,
       In t (issued w (snd (run_single_agent q j at_ mf dt w)))
       ∨ In t (issued w (snd (run_full_crew q j mf dt w))) →
       (∃ k a, t = render k a q (jx_display j) mf dt)
       ∧ Py.contains (jx_display j) (description t) = true).
Proof.
  split; [reflexivity|].
  split; [intros shown H; unfold jx_display; rewrite H; reflexivity|].
  split; [intros H; unfold jx_display; rewrite H; reflexivity|].
  intros q at_ mf dt w t Hin.
  assert (Hr : ∃ k a, t = render k a q (jx_display j) mf dt).
  { destruct Hin as [Hin|Hin].
    - rewrite run_single_agent_issued in Hin.
      destruct (llm_rejects w (llm_kwargs w)); [destruct Hin|].
      destruct (create_agents (llm_kwargs w) w) as [[e|agents] w']; [destruct Hin|].
      destruct (lookup_od agents (resolved_role at_ q)) as [a|]; [|destruct Hin].
      destruct Hin as [<-|[]]. eauto.
    - destruct (run_full_crew_issued q j mf dt w) as (a1 & a2 & a3 & a4 & _ & [rest Hpre]).
      assert (Hin' : In t (render_plan (full_plan a1 a2 a3 a4 q dt) q (jx_display j) mf dt)).
      { rewrite Hpre. apply in_or_app. left. exact Hin. }
      unfold render_plan in Hin'. apply in_map_iff in Hin' as ([k a] & <- & _). eauto. }
  split; [exact Hr|].
  destruct Hr as (k & a & ->). apply render_shows_jurisdiction.
Qed.

Lemma jx_display_lookup_witness :
  jx_display "MultiState" = "Kansas & Missouri"
  ∧ jx_display "Texas" = "Texas"
  ∧ ∀ t, In t (issued (quiet_world echo_engine)
                 (snd (run_full_crew "find risk" "Texas" "" "" (quiet_world echo_engine)))) →
         Py.contains "Texas" (description t) = true.
Proof.
  split; [|split].
  - apply (jx_display_lookup "MultiState"). reflexivity.
  - apply (jx_display_lookup "Texas"). reflexivity.
  - intros t Hin.
    destruct (jx_display_lookup "Texas") as (_ & _ & _ & Hshow).
    apply (Hshow "find risk" "" "" "" (quiet_world echo_engine) t). right. exact Hin.
Defined.

(** C8: the jurisdiction does not steer a run.  For a request and a world
    there are, whatever the jurisdiction, one reported role for
    [run_single_agent] (the forced role, else the classified one, in which the
    jurisdiction has no part), one agent and one template for the task it
    submits, and one list of templates and agents for the tasks
    [run_full_crew] builds, hence the same number of tasks and the same role
    sequence; only the text rendered from the templates changes. *)
Theorem jurisdiction_only_in_text q at_ mf dt w :
  ∃ (reported : string) (single_plan : list (kind * Agent))
    (agents : odict Agent) (plan : list (kind * Agent)),
    create_agents (llm_kwargs w) w = (inr agents, w)
    ∧ (reported = resolved_role at_ q ∨ reported = "unknown")
    ∧ (length single_plan ≤ 1)%nat
    ∧ Forall2 (λ p k, lookup_od agents k = Some (snd p)) plan (pipeline_roles q dt)
    ∧ ∀ j,
        result_field (run_single_agent q j at_ mf dt w) "agent_type" = Some (VStr reported)
        ∧ issued w (snd (run_single_agent q j at_ mf dt w))
          = render_plan single_plan q (jx_display j) mf dt
        ∧ full_tasks agents q (jx_display j) mf dt w
          = (inr (render_plan plan q (jx_display j) mf dt), w)
        ∧ issued w (snd (run_full_crew q j mf dt w))
          `prefix_of` render_plan plan q (jx_display j) mf dt
        ∧ (result_field (run_full_crew q j mf dt w) "success" = Some (VBool true) →
           result_field (run_full_crew q j mf dt w) "tasks_completed"
           = Some (VInt (Z.of_nat (length plan)))).
Proof.
  destruct (create_agents_shape (llm_kwargs w) w)
    as (a1 & a2 & a3 & a4 & Hag & H1 & H2 & H3 & H4).
  set (agents := [("researcher", a1); ("analyst", a2); ("drafter", a3); ("strategist", a4)]) in *.
  exists (match llm_rejects w (llm_kwargs w) with
          | Some _ => Py.or_else at_ "unknown"
          | None => resolved_role at_ q
          end).
  exists (match llm_rejects w (llm_kwargs w), lookup_od agents (resolved_role at_ q) with
          | None, Some a => [(kind_of (resolved_role at_ q), a)]
          | _, _ => []
          end).
  exists agents, (full_plan a1 a2 a3 a4 q dt).
  split; [exact Hag|]. split; [|split; [|split]].
  - destruct (llm_rejects w (llm_kwargs w)); [|left; reflexivity].
    unfold Py.or_else, resolved_role. destruct at_; cbn; auto.
  - destruct (llm_rejects w (llm_kwargs w)); [cbn; lia|].
    destruct (lookup_od agents (resolved_role at_ q)); cbn; lia.
  - unfold full_plan, pipeline_roles. destruct (wants_drafter q dt); repeat constructor.
  - intros j. split; [|split; [|split; [|split]]].
    + unfold result_field. rewrite run_single_agent_unfold, create_llm_eq.
      destruct (llm_rejects w (llm_kwargs w)); [reflexivity|].
      rewrite Hag. cbn zeta. unfold Py.or_else. rewrite resolved_role_truthy.
      destruct (lookup_od agents (resolved_role at_ q)); [|reflexivity].
      destruct (run_tasks _ "" 0 w) as [[e|result] w']; reflexivity.
    + rewrite run_single_agent_issued, Hag.
      destruct (llm_rejects w (llm_kwargs w)); [reflexivity|].
      destruct (lookup_od agents (resolved_role at_ q)); reflexivity.
    + subst agents. rewrite full_tasks_shape. fold (pipeline a1 a2 a3 a4 q (jx_display j) mf dt).
      rewrite pipeline_render. reflexivity.
    + destruct (run_full_crew_issued q j mf dt w) as (b1 & b2 & b3 & b4 & Hag' & Hpre).
      rewrite Hag in Hag'. subst agents. injection Hag' as <- <- <- <-. exact Hpre.
    + intros Hs. apply result_field_Some in Hs as (d & Hd & Hs).
      unfold result_field. rewrite Hd.
      destruct (run_full_crew_success q j mf dt w d Hd Hs)
        as (b1 & b2 & b3 & b4 & result & Hag' & _ & -> & _).
      cbn zeta. rewrite Hag in Hag'. subst agents. injection Hag' as <- <- <- <-.
      rewrite full_ok_tasks_completed, pipeline_render.
      unfold render_plan. rewrite length_map. reflexivity.
Qed.

Lemma jurisdiction_only_in_text_witness :
  let w := quiet_world echo_engine in
  result_field (run_full_crew "draft a letter" "kansas" "" "" w) "tasks_completed"
  = result_field (run_full_crew "draft a letter" "Texas" "" "" w) "tasks_completed"
  ∧ result_field (run_single_agent "draft a letter" "kansas" "" "" "" w) "agent_type"
    = result_field (run_single_agent "draft a letter" "Texas" "" "" "" w) "agent_type".
Proof.
  cbn zeta.
  destruct (jurisdiction_only_in_text "draft a letter" "" "" "" (quiet_world echo_engine))
    as (reported & single_plan & agents & plan & _ & _ & _ & _ & Hj).
  destruct (Hj "kansas") as (Hr1 & _ & _ & _ & Htc1).
  destruct (Hj "Texas") as (Hr2 & _ & _ & _ & Htc2).
  split.
  - rewrite Htc1, Htc2; [reflexivity | vm_compute; reflexivity | vm_compute; reflexivity].
  - rewrite Hr1, Hr2. reflexivity.
Defined.


(** * Further properties *)

(** ** Configuration resolution *)

(** X1: a usable [api_key] in the YAML file wins over every environment
    variable: it is the resolved key, the Novita fallback is not taken, and
    the model is [CREWAI_MODEL] or "gpt-5-mini"; the base URL is the YAML one
    when usable and [OPENAI_BASE_URL] otherwise. *)
Theorem yaml_key_takes_precedence w k u :
  yaml_openai w = Some (k, u) → usable k = true →
  cfg_api_key (get_llm_config w) = k
  ∧ cfg_model (get_llm_config w) = getenv w "CREWAI_MODEL" "gpt-5-mini"
  ∧ cfg_base_url (get_llm_config w)
    = (if usable u then u else getenv w "OPENAI_BASE_URL" "").
Proof.
  intros Hy Hk. unfold get_llm_config. rewrite Hy.
  unfold usable in *. rewrite Hk.
  apply andb_true_iff in Hk as [Hk _]. rewrite Hk, andb_false_r.
  repeat split.
Qed.

Lemma yaml_key_takes_precedence_witness :
  let w := file_world (Some ("sk-yaml", "${BASE_URL}"))
                      [("OPENAI_API_KEY", "sk-env"); ("NOVITA_API_KEY", "nv")] in
  cfg_api_key (get_llm_config w) = "sk-yaml"
  ∧ cfg_model (get_llm_config w) = "gpt-5-mini"
  ∧ cfg_base_url (get_llm_config w) = "".
Proof.
  cbn zeta.
  destruct (yaml_key_takes_precedence
              (file_world (Some ("sk-yaml", "${BASE_URL}"))
                          [("OPENAI_API_KEY", "sk-env"); ("NOVITA_API_KEY", "nv")])
              "sk-yaml" "${BASE_URL}" eq_refl eq_refl) as (Hk & Hm & Hu).
  split; [exact Hk|]. split; [rewrite Hm|rewrite Hu]; reflexivity.
Defined.

(** X2: YAML values that are empty or start with "${" are ignored: the
    resolved configuration is the one of the same world without the file. *)
Theorem yaml_placeholders_ignored w k u :
  yaml_openai w = Some (k, u) → usable k = false → usable u = false →
  get_llm_config w = get_llm_config (without_yaml w).
Proof.
  intros Hy Hk Hu. unfold get_llm_config, without_yaml, getenv. cbn [environ yaml_openai].
  rewrite Hy. unfold usable in *. rewrite Hk, Hu. reflexivity.
Qed.

Lemma yaml_placeholders_ignored_witness :
  let w := file_world (Some ("${OPENAI_API_KEY}", "")) [("OPENAI_API_KEY", "sk-env")] in
  get_llm_config w = get_llm_config (without_yaml w).
Proof.
  cbn zeta.
  exact (yaml_placeholders_ignored
           (file_world (Some ("${OPENAI_API_KEY}", "")) [("OPENAI_API_KEY", "sk-env")])
           "${OPENAI_API_KEY}" "" eq_refl eq_refl eq_refl).
Defined.

Lemma usable_key_of_config w :
  cfg_api_key (get_llm_config w)
  = let key := match yaml_openai w with
               | Some (k, _) => if usable k then k else getenv w "OPENAI_API_KEY" ""
               | None => getenv w "OPENAI_API_KEY" ""
               end in
    if Py.truthy key then key else getenv w "NOVITA_API_KEY" "".
Proof.
  unfold get_llm_config, usable. cbn zeta.
  destruct (yaml_openai w) as [[k u]|].
  - destruct (Py.truthy k && negb (Py.startswith k "${")).
    + destruct (Py.truthy k) eqn:E, (Py.truthy (getenv w "NOVITA_API_KEY" "")) eqn:E';
        cbn; try reflexivity.
      destruct k; [|discriminate]. destruct (getenv w "NOVITA_API_KEY" ""); [reflexivity|discriminate].
    + destruct (Py.truthy (getenv w "OPENAI_API_KEY" "")) eqn:E,
               (Py.truthy (getenv w "NOVITA_API_KEY" "")) eqn:E'; cbn; try reflexivity.
      destruct (getenv w "OPENAI_API_KEY" ""); [|discriminate].
      destruct (getenv w "NOVITA_API_KEY" ""); [reflexivity|discriminate].
  - destruct (Py.truthy (getenv w "OPENAI_API_KEY" "")) eqn:E,
             (Py.truthy (getenv w "NOVITA_API_KEY" "")) eqn:E'; cbn; try reflexivity.
    destruct (getenv w "OPENAI_API_KEY" ""); [|discriminate].
    destruct (getenv w "NOVITA_API_KEY" ""); [reflexivity|discriminate].
Qed.

(** X3: the Novita fallback.  When neither [OPENAI_API_KEY] nor the YAML
    file gives a key and [NOVITA_API_KEY] is set, the resolved key is the
    Novita key, the base URL is [NOVITA_BASE_URL] or the Novita default
    (whatever [OPENAI_BASE_URL] or the YAML file say), and the model is
    [CREWAI_MODEL] or "claude-3-5-sonnet-20241022". *)
Theorem novita_fallback w :
  getenv w "OPENAI_API_KEY" "" = "" →
  (∀ k u, yaml_openai w = Some (k, u) → usable k = false) →
  getenv w "NOVITA_API_KEY" "" ≠ "" →
  get_llm_config w
  = {| cfg_api_key := getenv w "NOVITA_API_KEY" "";
       cfg_base_url := getenv w "NOVITA_BASE_URL" "https://api.novita.ai/v3/openai";
       cfg_model := getenv w "CREWAI_MODEL" "claude-3-5-sonnet-20241022" |}.
Proof.
  intros Henv Hy Hn. apply truthy_iff in Hn.
  unfold get_llm_config. rewrite Henv, Hn.
  destruct (yaml_openai w) as [[k u]|] eqn:E; [|reflexivity].
  specialize (Hy k u eq_refl). unfold usable in Hy. rewrite Hy. reflexivity.
Qed.

Lemma novita_fallback_witness :
  let w := bare_world [("NOVITA_API_KEY", "nv-1"); ("OPENAI_BASE_URL", "http://local")] in
  cfg_api_key (get_llm_config w) = "nv-1"
  ∧ cfg_base_url (get_llm_config w) = "https://api.novita.ai/v3/openai".
Proof.
  cbn zeta.
  rewrite (novita_fallback
             (bare_world [("NOVITA_API_KEY", "nv-1"); ("OPENAI_BASE_URL", "http://local")])).
  - split; reflexivity.
  - reflexivity.
  - intros k u H. discriminate H.
  - vm_compute. discriminate.
Defined.

(** X4: no key is resolved exactly when no source gives one: the
    environment key is empty or unset, the YAML file has no usable key, and
    the Novita key is empty or unset. *)
Theorem no_key_resolved_iff w :
  cfg_api_key (get_llm_config w) = ""
  ↔ getenv w "OPENAI_API_KEY" "" = ""
    ∧ (∀ k u, yaml_openai w = Some (k, u) → usable k = false)
    ∧ getenv w "NOVITA_API_KEY" "" = "".
Proof.
  rewrite usable_key_of_config. cbn zeta.
  destruct (yaml_openai w) as [[k u]|].
  - destruct (usable k) eqn:Hk.
    + assert (Ht : Py.truthy k = true) by (unfold usable in Hk; apply andb_true_iff in Hk; tauto).
      rewrite Ht. split.
      * intros ->. discriminate.
      * intros (_ & H & _). specialize (H k u eq_refl). congruence.
    + destruct (getenv w "OPENAI_API_KEY" "") eqn:E; cbn.
      * split; [intros ->; repeat split; intros ? ? [= <- <-]; exact Hk | tauto].
      * split; [discriminate | intros [H _]; discriminate].
  - destruct (getenv w "OPENAI_API_KEY" "") eqn:E; cbn.
    + split; [intros ->; repeat split; discriminate | tauto].
    + split; [discriminate | intros [H _]; discriminate].
Qed.

Lemma no_key_resolved_iff_witness :
  cfg_api_key (get_llm_config (bare_world [("OPENAI_API_KEY", "")])) = ""
  ∧ getenv (bare_world []) "NOVITA_API_KEY" "" = "".
Proof.
  split.
  - destruct (no_key_resolved_iff (bare_world [("OPENAI_API_KEY", "")])) as [_ H].
    apply H. split; [reflexivity|]. split; [|reflexivity].
    intros k u E. discriminate E.
  - destruct (no_key_resolved_iff (bare_world [])) as [H _].
    destruct H as (_ & _ & H); [reflexivity | exact H].
Defined.

(** ** The client and the agents *)

(** X5: [create_llm] issues no completion call and leaves the world as it
    is, whether the constructor accepts or raises; the client it returns
    has the resolved model, temperature 0.1 and 4096 tokens, and is given an
    [api_key] or a [base_url] only when the resolved one is non-empty. *)
Theorem create_llm_arguments w r w' :
  create_llm w = (r, w') →
  w' = w
  ∧ (∀ e, r = inl e → llm_rejects w (llm_kwargs w) = Some e)
  ∧ (∀ llm, r = inr llm →
       model llm = cfg_model (get_llm_config w)
       ∧ temperature llm = (1, 10) ∧ max_tokens llm = 4096
       ∧ (api_key llm = None ↔ cfg_api_key (get_llm_config w) = "")
       ∧ (∀ k, api_key llm = Some k → k = cfg_api_key (get_llm_config w) ∧ k ≠ "")
       ∧ (base_url llm = None ↔ cfg_base_url (get_llm_config w) = "")
       ∧ (∀ u, base_url llm = Some u → u = cfg_base_url (get_llm_config w) ∧ u ≠ "")).
Proof.
  rewrite create_llm_eq.
  destruct (llm_rejects w (llm_kwargs w)) as [e0|] eqn:Hr; intros [= <- <-].
  - split; [reflexivity|]. split; [intros e [= <-]; reflexivity | discriminate].
  - split; [reflexivity|]. split; [discriminate|].
    intros llm [= <-]. unfold llm_kwargs. cbn.
    destruct (cfg_api_key (get_llm_config w)) as [|c k] eqn:Ek;
      destruct (cfg_base_url (get_llm_config w)) as [|c' u] eqn:Eu; cbn;
      repeat split; try discriminate; try congruence.
Qed.

Lemma create_llm_arguments_witness :
  let w := bare_world [("OPENAI_API_KEY", "sk-1")] in
  snd (create_llm w) = w
  ∧ model (llm_kwargs w) = "gpt-5-mini"
  ∧ max_tokens (llm_kwargs w) = 4096.
Proof.
  cbn zeta.
  destruct (create_llm_arguments (bare_world [("OPENAI_API_KEY", "sk-1")])
              (inr (llm_kwargs (bare_world [("OPENAI_API_KEY", "sk-1")])))
              (bare_world [("OPENAI_API_KEY", "sk-1")]) eq_refl) as (_ & _ & Hl).
  destruct (Hl _ eq_refl) as (Hm & _ & Ht & _).
  split; [reflexivity|]. split; [rewrite Hm; reflexivity | exact Ht].
Defined.

Lemma startswith_app_l a b x : Py.startswith a x = true → Py.startswith (a +:+ b) x = true.
Proof.
  revert a. induction x as [|c x IH]; intros a H; [reflexivity|].
  destruct a as [|c' a]; [discriminate|].
  change (String c' a +:+ b) with (String c' (a +:+ b)).
  cbn [Py.startswith] in *.
  destruct (Ascii.eqb c c'); [apply IH, H | discriminate].
Qed.

Lemma contains_app_l x a b : Py.contains x a = true → Py.contains x (a +:+ b) = true.
Proof.
  induction a as [|c a IH]; cbn [Py.contains]; intros H.
  - rewrite orb_false_r in H. destruct x; [|discriminate].
    cbn. destruct b; reflexivity.
  - change (String c a +:+ b) with (String c (a +:+ b)).
    cbn [Py.contains]. apply orb_true_iff in H as [H|H].
    + change (String c (a +:+ b)) with (String c a +:+ b).
      rewrite (startswith_app_l (String c a) b x H). reflexivity.
    + rewrite (IH H). apply orb_true_r.
Qed.

(** X6: [create_agents] never raises and issues no completion call; the
    registry has the keys researcher, analyst, drafter, strategist in that
    order, with pairwise distinct role names; each agent works with the
    client passed in, is verbose, does not delegate, and is told the date of
    the import in its system prompt. *)
Theorem create_agents_registry client w :
  ∃ agents,
    create_agents client w = (inr agents, w)
    ∧ keys agents = ["researcher"; "analyst"; "drafter"; "strategist"]
    ∧ NoDup (map (λ kv, role (snd kv)) agents)
    ∧ Forall (λ kv, llm (snd kv) = client
                    ∧ verbose (snd kv) = true
                    ∧ allow_delegation (snd kv) = false
                    ∧ Py.contains ("Current date: " +:+ today w +:+ ".")
                                  (system_prompt (snd kv)) = true) agents.
Proof.
  unfold create_agents, bind, gets, ret. eexists. split; [reflexivity|].
  split; [reflexivity|]. split.
  - cbn. repeat constructor; rewrite ?list_elem_of_In; cbn; intuition discriminate.
  - assert (Hks : Py.contains ("Current date: " +:+ today w +:+ ".")
                              (KS_MO_SYSTEM (today w)) = true).
    { unfold KS_MO_SYSTEM, unlines. cbn [fold_right].
      do 2 apply contains_app_r. apply contains_here. }
    repeat constructor; cbn [snd system_prompt]; try exact Hks.
    apply contains_app_l, Hks.
Qed.

(** ** Task templates *)

(** Leaving the matter facts or the document type empty is the same as
    passing the default text: "Not specified" for the analysis and strategy
    tasks, "General template" and "legal document" for the drafting task. *)
Lemma template_defaults a q jx :
  create_analysis_task a q jx "" = create_analysis_task a q jx "Not specified"
  ∧ create_strategy_task a q jx "" = create_strategy_task a q jx "Not specified"
  ∧ (∀ dt, create_drafting_task a q jx dt "" = create_drafting_task a q jx dt "General template")
  ∧ (∀ mf, create_drafting_task a q jx "" mf = create_drafting_task a q jx "legal document" mf).
Proof. repeat split. Qed.

(** X7: every template writes the query, as it was given, and the
    jurisdiction text into the description, and the drafting template writes
    the document type into both the description and the expected output. *)
Theorem templates_show_inputs k a q jx mf dt :
  Py.contains q (description (render k a q jx mf dt)) = true
  ∧ Py.contains jx (description (render k a q jx mf dt)) = true
  ∧ Py.contains (Py.or_else dt "legal document")
                (description (create_drafting_task a q jx dt mf)) = true
  ∧ Py.contains (Py.or_else dt "legal document")
                (expected_output (create_drafting_task a q jx dt mf)) = true.
Proof.
  split; [|split; [apply render_shows_jurisdiction|split]].
  - destruct k; cbn [render description create_research_task create_analysis_task
                      create_drafting_task create_strategy_task];
      repeat first [apply contains_here | apply contains_app_r].
  - cbn [description create_drafting_task].
    repeat first [apply contains_here | apply contains_app_r].
  - cbn [expected_output create_drafting_task].
    repeat first [apply contains_here | apply contains_app_r].
Qed.

(** X8: the expected output tells the templates apart: two tasks with the
    same expected output come from the same template, whatever their
    arguments. *)
Theorem expected_output_identifies_template k a q jx mf dt k' a' q' jx' mf' dt' :
  expected_output (render k a q jx mf dt) = expected_output (render k' a' q' jx' mf' dt') →
  k = k'.
Proof.
  destruct k, k'; cbn; intros H; try reflexivity; discriminate H.
Qed.

Lemma expected_output_identifies_template_witness :
  kind_of "researcher" = research.
Proof.
  apply (expected_output_identifies_template
           (kind_of "researcher") sample_agent "q" "Kansas" "" ""
           research sample_agent "other" "Missouri" "facts" "brief").
  reflexivity.
Defined.

(** ** More on the classifier *)

Lemma lower_ascii_idempotent c : Py.lower_ascii (Py.lower_ascii c) = Py.lower_ascii c.
Proof. destruct c as [[] [] [] [] [] [] [] []]; reflexivity. Qed.

Lemma lower_idempotent s : Py.lower (Py.lower s) = Py.lower s.
Proof.
  induction s as [|c s IH]; [reflexivity|].
  cbn. rewrite lower_ascii_idempotent, IH. reflexivity.
Qed.

(** X9: the classifier does not see case: two messages with the same
    lowercase form get the same scores and the same role, and so do a
    message and its lowercase form. *)
Theorem classify_intent_ignores_case m1 m2 :
  Py.lower m1 = Py.lower m2 →
  score_table m1 = score_table m2
  ∧ classify_intent m1 = classify_intent m2
  ∧ classify_intent (Py.lower m1) = classify_intent m1.
Proof.
  intros H.
  assert (Hs : ∀ a b, Py.lower a = Py.lower b → score_table a = score_table b).
  { intros a b E. unfold score_table. rewrite E. reflexivity. }
  split; [apply Hs, H|].
  split; unfold classify_intent.
  - rewrite (Hs m1 m2 H). reflexivity.
  - rewrite (Hs (Py.lower m1) m1 (lower_idempotent m1)). reflexivity.
Qed.

Lemma classify_intent_ignores_case_witness :
  classify_intent "DRAFT a Motion" = classify_intent "draft a motion".
Proof.
  apply (classify_intent_ignores_case "DRAFT a Motion" "draft a motion"). reflexivity.
Defined.

(** X10: the classifier always answers one of the four roles, and it
    answers a role other than strategist only when that role has a positive
    score that no role exceeds. *)
Theorem classify_intent_answers m :
  In (classify_intent m) role_order
  ∧ (classify_intent m ≠ "strategist" →
     0 < score_of m (classify_intent m)
     ∧ score_of m (classify_intent m) = top_score m).
Proof.
  split; [apply classify_intent_in_roles|].
  rewrite classify_intent_eq.
  destruct (Z.ltb_spec 0 (top_score m)) as [Hpos|_]; [|congruence].
  unfold first_at_top.
  destruct (at_top m) as [|r l] eqn:E; [cbn; congruence|].
  cbn. intros _.
  assert (Hin : In r (at_top m)) by (rewrite E; left; reflexivity).
  unfold at_top in Hin. apply List.filter_In in Hin as [_ Heq].
  apply Z.eqb_eq in Heq. rewrite Heq. split; [exact Hpos | reflexivity].
Qed.

Lemma classify_intent_answers_witness :
  0 < score_of "Motion to dismiss" (classify_intent "Motion to dismiss").
Proof.
  destruct (classify_intent_answers "Motion to dismiss") as [_ H].
  apply H. vm_compute. discriminate.
Defined.

(** X11: a role whose score is strictly above the score of every other role
    is the answer. *)
Theorem classify_intent_strict_winner m r :
  In r role_order →
  (∀ r', In r' role_order → r' ≠ r → score_of m r' < score_of m r) →
  classify_intent m = r.
Proof.
  intros Hr Hmax.
  pose proof (scores_nonneg m) as (Nr & Na & Nd & Ns).
  rewrite <- score_of_researcher in Nr. rewrite <- score_of_analyst in Na.
  rewrite <- score_of_drafter in Nd. rewrite <- score_of_strategist in Ns.
  assert (H1 := Hmax "researcher"). assert (H2 := Hmax "analyst").
  assert (H3 := Hmax "drafter"). assert (H4 := Hmax "strategist").
  clear Hmax. rewrite classify_intent_eq.
  unfold first_at_top, at_top, top_score, role_order in *. cbn [List.filter].
  cbn in Hr. destruct Hr as [<-|[<-|[<-|[<-|[]]]]];
    repeat match goal with
           | H : In _ _ → _ ≠ _ → _ |- _ =>
               first [ specialize (H ltac:(cbn; tauto) ltac:(discriminate)) | clear H ]
           end;
    revert Nr Na Nd Ns;
    repeat match goal with H : _ < _ |- _ => revert H end;
    generalize (score_of m "researcher") (score_of m "analyst")
               (score_of m "drafter") (score_of m "strategist");
    intros sr sa sd ss; intros;
    repeat match goal with
           | |- context [Z.ltb ?x ?y] => destruct (Z.ltb_spec x y)
           | |- context [Z.eqb ?x ?y] => destruct (Z.eqb_spec x y)
           end; cbn; try reflexivity; lia.
Qed.

Lemma classify_intent_strict_winner_witness :
  classify_intent "Motion to dismiss" = "drafter".
Proof.
  apply classify_intent_strict_winner.
  - cbn. tauto.
  - intros r' Hin Hne. cbn in Hin.
    destruct Hin as [<-|[<-|[<-|[<-|[]]]]]; try congruence; vm_compute; reflexivity.
Defined.

Lemma startswith_app_inv s p q : Py.startswith s (p +:+ q) = true → Py.startswith s p = true.
Proof.
  revert s. induction p as [|c p IH]; intros s H; [reflexivity|].
  change (String c p +:+ q) with (String c (p +:+ q)) in H.
  destruct s as [|c' s]; [discriminate|]. cbn [Py.startswith] in *.
  destruct (Ascii.eqb c c'); [apply IH, H | discriminate].
Qed.

Lemma contains_of_startswith k s : Py.startswith s k = true → Py.contains k s = true.
Proof. intros H. destruct s; cbn [Py.contains]; rewrite H; reflexivity. Qed.

Lemma contains_cons k c s : Py.contains k s = true → Py.contains k (String c s) = true.
Proof. intros H. cbn [Py.contains]. rewrite H. apply orb_true_r. Qed.

Lemma startswith_suffix s p q : Py.startswith s (p +:+ q) = true → Py.contains q s = true.
Proof.
  revert s. induction p as [|c p IH]; intros s H; [apply contains_of_startswith, H|].
  change (String c p +:+ q) with (String c (p +:+ q)) in H.
  destruct s as [|c' s]; [discriminate|]. cbn [Py.startswith] in H.
  destruct (Ascii.eqb c c'); [|discriminate]. apply contains_cons, IH, H.
Qed.

(** A message that holds a phrase holds its beginning and its end. *)
Lemma contains_prefix p q s : Py.contains (p +:+ q) s = true → Py.contains p s = true.
Proof.
  induction s as [|c s IH]; cbn [Py.contains]; intros H.
  - rewrite orb_false_r in *. apply (startswith_app_inv _ _ _ H).
  - apply orb_true_iff in H as [H|H].
    + rewrite (startswith_app_inv _ _ _ H). reflexivity.
    + rewrite (IH H). apply orb_true_r.
Qed.

Lemma contains_suffix p q s : Py.contains (p +:+ q) s = true → Py.contains q s = true.
Proof.
  induction s as [|c s IH]; intros H.
  - cbn [Py.contains] in H. rewrite orb_false_r in H. apply (startswith_suffix _ _ _ H).
  - cbn [Py.contains] in H. apply orb_true_iff in H as [H|H].
    + apply (startswith_suffix _ _ _ H).
    + apply contains_cons, IH, H.
Qed.

Ltac expand_hits :=
  unfold research_kw, draft_kw, analyst_kw, strategist_kw;
  rewrite ?hits_cons, ?hits_nil.

Ltac bound_indicators :=
  repeat match goal with
         | |- context [if Py.contains ?k ?m then 1 else 0] =>
             let x := fresh "x" in
             let Hx := fresh "Hx" in
             assert (Hx : 0 ≤ (if Py.contains k m then 1 else 0) ≤ 1)
               by (destruct (Py.contains k m); lia);
             set (x := if Py.contains k m then 1 else 0) in *; clearbody x
         | |- context [bonus ?c ?n] =>
             let x := fresh "x" in
             let Hx := fresh "Hx" in
             assert (Hx : 0 ≤ bonus c n ≤ n) by (destruct c; cbn; lia);
             set (x := bonus c n) in *; clearbody x
         end.

(** X12: a keyword that is part of another keyword or of a phrase is
    counted again: a message with "research" also matches "search", one with
    "settlement" also matches "settle", and a phrase brings the score of the
    keyword inside it on top of its own. *)
Theorem nested_keywords_count_twice m :
  let msg := Py.lower m in
  (Py.contains "research" msg = true → 6 ≤ score_of m "researcher")
  ∧ (Py.contains "kansas statute" msg = true → 9 ≤ score_of m "researcher")
  ∧ (Py.contains "motion to" msg = true → 9 ≤ score_of m "drafter")
  ∧ (Py.contains "draft a" msg = true → 8 ≤ score_of m "drafter")
  ∧ (Py.contains "risk assess" msg = true → 11 ≤ score_of m "analyst")
  ∧ (Py.contains "settlement" msg = true → 6 ≤ score_of m "strategist")
  ∧ (Py.contains "what am i missing" msg = true →
     4 ≤ score_of m "analyst" ∧ 8 ≤ score_of m "strategist").
Proof.
  cbn zeta.
  rewrite score_of_researcher, score_of_drafter, score_of_analyst, score_of_strategist.
  unfold researcher_score, drafter_score, analyst_score, strategist_score.
  set (msg := Py.lower m).
  repeat split.
  - intros H. pose proof (contains_suffix "re" "search" msg H) as H'.
    expand_hits. rewrite H, H'. bound_indicators. lia.
  - intros H. pose proof (contains_suffix "kansas " "statute" msg H) as H'.
    expand_hits. unfold ks_phrases, Py.any. cbn [existsb]. rewrite H, H'.
    rewrite !orb_true_r. cbn [orb bonus]. bound_indicators. lia.
  - intros H. pose proof (contains_prefix "motion" " to" msg H) as H'.
    expand_hits. rewrite H, H'. cbn [bonus]. bound_indicators. lia.
  - intros H. pose proof (contains_prefix "draft" " a" msg H) as H'.
    expand_hits. rewrite H, H'. cbn [orb bonus]. bound_indicators. lia.
  - intros H. pose proof (contains_prefix "risk" " assess" msg H) as H'.
    pose proof (contains_suffix "risk " "assess" msg H) as H''.
    expand_hits. rewrite H, H', H''. cbn [bonus]. bound_indicators. lia.
  - intros H. pose proof (contains_prefix "settle" "ment" msg H) as H'.
    expand_hits. rewrite H, H'. bound_indicators. lia.
  - expand_hits. rewrite H. cbn [bonus]. bound_indicators. lia.
  - pose proof (contains_suffix "what am i " "missing" msg H) as H'.
    expand_hits. rewrite H, H'. cbn [bonus]. bound_indicators. lia.
Qed.

Lemma nested_keywords_count_twice_witness :
  6 ≤ score_of "Research memo" "researcher"
  ∧ 9 ≤ score_of "the Kansas statute" "researcher"
  ∧ 9 ≤ score_of "Motion to dismiss" "drafter"
  ∧ 8 ≤ score_of "draft a note" "drafter"
  ∧ 11 ≤ score_of "risk assessment" "analyst"
  ∧ 6 ≤ score_of "Settlement" "strategist"
  ∧ 4 ≤ score_of "What am I missing" "analyst" ∧ 8 ≤ score_of "What am I missing" "strategist".
Proof.
  destruct (nested_keywords_count_twice "Research memo") as (H1 & _).
  destruct (nested_keywords_count_twice "the Kansas statute") as (_ & H2 & _).
  destruct (nested_keywords_count_twice "Motion to dismiss") as (_ & _ & H3 & _).
  destruct (nested_keywords_count_twice "draft a note") as (_ & _ & _ & H4 & _).
  destruct (nested_keywords_count_twice "risk assessment") as (_ & _ & _ & _ & H5 & _).
  destruct (nested_keywords_count_twice "Settlement") as (_ & _ & _ & _ & _ & H6 & _).
  destruct (nested_keywords_count_twice "What am I missing") as (_ & _ & _ & _ & _ & _ & H7).
  split; [apply H1; reflexivity|]. split; [apply H2; reflexivity|].
  split; [apply H3; reflexivity|]. split; [apply H4; reflexivity|].
  split; [apply H5; reflexivity|]. split; [apply H6; reflexivity|].
  apply H7; reflexivity.
Defined.

(** X13: every score is a number between 0 and the sum of all the weights
    of its role: 63 for the researcher, 57 for the analyst, 59 for the drafter
    and the strategist. *)
Theorem score_bounds m :
  0 ≤ score_of m "researcher" ≤ 63
  ∧ 0 ≤ score_of m "analyst" ≤ 57
  ∧ 0 ≤ score_of m "drafter" ≤ 59
  ∧ 0 ≤ score_of m "strategist" ≤ 59
  ∧ 0 ≤ top_score m ≤ 63.
Proof.
  unfold top_score.
  rewrite score_of_researcher, score_of_drafter, score_of_analyst, score_of_strategist.
  unfold researcher_score, drafter_score, analyst_score, strategist_score.
  expand_hits. bound_indicators. lia.
Qed.

(** ** More on the two runs *)

(** X14: with a valid role and a client that could be built, a single-agent
    run submits exactly one task, the template of that role given to the
    agent registered under it; the run succeeds with the text and the tokens
    of the answer when the backend answers, and fails with the text of the
    exception when it raises. *)
Theorem run_single_agent_one_call q j r mf dt w :
  In r role_order → llm_rejects w (llm_kwargs w) = None →
  ∃ agents a,
    create_agents (llm_kwargs w) w = (inr agents, w)
    ∧ lookup_od agents r = Some a
    ∧ let t := render (kind_of r) a q (jx_display j) mf dt in
      issued w (snd (run_single_agent q j r mf dt w)) = [t]
      ∧ fst (run_single_agent q j r mf dt w)
        = inr (match complete w (calls w) t with
               | inr c => single_ok r j {| raw := text c; token_usage := used_tokens c |}
                                    (cfg_model (get_llm_config w))
               | inl e => failed r j e
               end).
Proof.
  intros Hr Hllm.
  assert (Ht : Py.truthy r = true).
  { cbn in Hr. destruct Hr as [<-|[<-|[<-|[<-|[]]]]]; reflexivity. }
  assert (Hrole : resolved_role r q = r).
  { unfold resolved_role. rewrite Ht. reflexivity. }
  destruct (create_agents_shape (llm_kwargs w) w) as (a1 & a2 & a3 & a4 & Hag & _).
  set (agents := [("researcher", a1); ("analyst", a2); ("drafter", a3); ("strategist", a4)]) in *.
  assert (Ha : ∃ a, lookup_od agents r = Some a).
  { cbn in Hr. destruct Hr as [<-|[<-|[<-|[<-|[]]]]]; eexists; reflexivity. }
  destruct Ha as [a Ha]. exists agents, a.
  split; [exact Hag|]. split; [exact Ha|]. cbn zeta.
  split.
  - rewrite run_single_agent_issued, Hllm, Hag, Hrole, Ha. reflexivity.
  - rewrite run_single_agent_unfold, create_llm_eq, Hllm, Hag. cbn zeta.
    rewrite Hrole, Ha, single_task_render. cbn [run_tasks]. unfold bind, call_engine.
    unfold Py.or_else. rewrite Ht.
    destruct (complete w (calls w) _); reflexivity.
Qed.

Lemma run_single_agent_one_call_witness :
  let w := quiet_world echo_engine in
  let run := run_single_agent "find risk" "kansas" "analyst" "" "" w in
  length (issued w (snd run)) = 1%nat
  ∧ result_field run "content" = Some (VStr "memo by Analyst Agent").
Proof.
  cbn zeta.
  destruct (run_single_agent_one_call "find risk" "kansas" "analyst" "" ""
              (quiet_world echo_engine)) as (agents & a & _ & _ & Hiss & _).
  - cbn. tauto.
  - reflexivity.
  - rewrite Hiss. split; [reflexivity | vm_compute; reflexivity].
Defined.

(** X15: leaving the role empty is the same as forcing the role the
    classifier gives the query, once the client could be built: same result,
    same calls. *)
Theorem run_single_agent_auto_classifies q j mf dt w :
  llm_rejects w (llm_kwargs w) = None →
  run_single_agent q j "" mf dt w = run_single_agent q j (classify_intent q) mf dt w.
Proof.
  intros Hllm. rewrite !run_single_agent_unfold, create_llm_eq, Hllm.
  assert (H1 : resolved_role "" q = classify_intent q) by reflexivity.
  assert (H2 : resolved_role (classify_intent q) q = classify_intent q).
  { pose proof (resolved_role_truthy (classify_intent q) q) as Ht.
    unfold resolved_role in *.
    destruct (Py.truthy (classify_intent q)) eqn:E; [reflexivity|exact eq_refl]. }
  destruct (create_agents_shape (llm_kwargs w) w) as (a1 & a2 & a3 & a4 & Hag & _).
  rewrite Hag. cbn zeta. rewrite H1, H2. reflexivity.
Qed.

Lemma run_single_agent_auto_classifies_witness :
  let w := quiet_world echo_engine in
  run_single_agent "find risk" "kansas" "" "" "" w
  = run_single_agent "find risk" "kansas" "researcher" "" "" w.
Proof.
  cbn zeta.
  rewrite (run_single_agent_auto_classifies "find risk" "kansas" "" "" (quiet_world echo_engine));
    reflexivity.
Defined.

(** X16: what a forced role does not read does not matter: the researcher
    run ignores the matter facts and the document type, the analyst and the
    strategist runs ignore the document type. *)
Theorem run_single_agent_unused_arguments q j mf dt w :
  run_single_agent q j "researcher" mf dt w = run_single_agent q j "researcher" "" "" w
  ∧ run_single_agent q j "analyst" mf dt w = run_single_agent q j "analyst" mf "" w
  ∧ run_single_agent q j "strategist" mf dt w = run_single_agent q j "strategist" mf "" w.
Proof.
  rewrite !run_single_agent_unfold.
  destruct (create_llm w) as [[e|client] w1]; [repeat split|].
  destruct (create_agents client w1) as [[e|agents] w2]; [repeat split|].
  repeat split.
Qed.

(** X17: when the client cannot be built, both runs stop there: nothing is
    submitted, the world is as before, and the failed result carries the text
    of the constructor's exception; the single-agent run names the forced
    role, or "unknown" when there is none. *)
Theorem runs_stop_without_client q j at_ mf dt w e :
  llm_rejects w (llm_kwargs w) = Some e →
  run_single_agent q j at_ mf dt w
  = (inr (failed (if Py.truthy at_ then at_ else "unknown") j e), w)
  ∧ run_full_crew q j mf dt w = (inr (failed "full_crew" j e), w).
Proof.
  intros He. split.
  - rewrite run_single_agent_unfold, create_llm_eq, He. reflexivity.
  - rewrite run_full_crew_unfold, create_llm_eq, He. reflexivity.
Qed.

Lemma runs_stop_without_client_witness :
  let w := {| environ := ∅; yaml_openai := None; today := "2026-01-15";
              llm_rejects := λ _, Some (Error "ValueError" "no provider");
              complete := echo_engine; calls := [] |} in
  result_field (run_single_agent "find risk" "kansas" "" "" "" w) "agent_type"
  = Some (VStr "unknown")
  ∧ result_field (run_full_crew "find risk" "kansas" "" "" w) "error"
    = Some (VStr "no provider").
Proof.
  cbn zeta.
  destruct (runs_stop_without_client "find risk" "kansas" "" "" ""
              {| environ := ∅; yaml_openai := None; today := "2026-01-15";
                 llm_rejects := λ _, Some (Error "ValueError" "no provider");
                 complete := echo_engine; calls := [] |}
              (Error "ValueError" "no provider") eq_refl) as [Hs Hf].
  rewrite Hs, Hf. split; reflexivity.
Defined.

(** X18: a run only appends to the log of completion calls, at most one
    call for a single-agent run and at most four for a full run, and it
    changes nothing else in the world: environment, YAML file and backend are
    as before. *)
Theorem runs_only_append_calls q j at_ mf dt w :
  (let w' := snd (run_single_agent q j at_ mf dt w) in
   same_setting w w' ∧ calls w' = calls w ++ issued w w'
   ∧ (length (issued w w') ≤ 1)%nat)
  ∧ (let w' := snd (run_full_crew q j mf dt w) in
     same_setting w w' ∧ calls w' = calls w ++ issued w w'
     ∧ (length (issued w w') ≤ 4)%nat).
Proof.
  assert (Hrefl : same_setting w w) by (repeat split).
  assert (Hnil : calls w = calls w ++ issued w w ∧ (length (issued w w) ≤ 0)%nat).
  { unfold issued. rewrite drop_all, app_nil_r. split; [reflexivity|cbn; lia]. }
  split; cbn zeta.
  - rewrite run_single_agent_unfold, create_llm_eq.
    destruct (llm_rejects w (llm_kwargs w)); [cbn [snd]; intuition lia|].
    destruct (create_agents_shape (llm_kwargs w) w) as (a1 & a2 & a3 & a4 & -> & _).
    cbn zeta. destruct (lookup_od _ (resolved_role at_ q)) as [a|]; [|cbn [snd]; intuition lia].
    destruct (run_tasks _ "" 0 w) as [r w'] eqn:Htasks.
    apply run_tasks_log in Htasks as (Hset & l & Hcalls & Hpre & _).
    assert (Hw' : ∀ (x y : gmap string value),
              snd (match r with inl e => (inr x, w') | inr _ => (@inr exn _ y, w') end) = w')
      by (intros; destruct r; reflexivity).
    destruct r; cbn [snd]; rewrite (issued_app _ _ _ Hcalls);
      (split; [exact Hset|]); (split; [exact Hcalls|]);
      apply prefix_length in Hpre; exact Hpre.
  - destruct (run_full_crew_stages q j mf dt w)
      as [(e & _ & ->) | (a1 & a2 & a3 & a4 & _ & _ & _ & ->)];
      [cbn [snd]; intuition lia|].
    cbn zeta.
    destruct (run_tasks (pipeline a1 a2 a3 a4 q (jx_display j) mf dt) "" 0 w)
      as [r w'] eqn:Htasks.
    apply run_tasks_log in Htasks as (Hset & l & Hcalls & Hpre & _).
    apply prefix_length in Hpre. rewrite length_pipeline in Hpre.
    assert (Hlen : (length (pipeline_roles q dt) ≤ 4)%nat).
    { unfold pipeline_roles. destruct (wants_drafter q dt); cbn; lia. }
    destruct r; cbn [snd]; rewrite (issued_app _ _ _ Hcalls);
      (split; [exact Hset|]); (split; [exact Hcalls|]); lia.
Qed.

(** ** The chat endpoint *)

Lemma chat_body_ok req cfg at_ elapsed w d w' a content model tokens :
  (if req_full_crew req then
     run_full_crew (req_message req) (req_jurisdiction req)
                   (opt_or (req_matter_facts req) "") (opt_or (req_document_type req) "")
   else
     run_single_agent (req_message req) (req_jurisdiction req) at_
                      (opt_or (req_matter_facts req) "") (opt_or (req_document_type req) ""))
    w = (inr d, w') →
  d !! "success" = Some (VBool true) → d !! "agent_type" = Some (VStr a) →
  d !! "content" = Some (VStr content) → d !! "model" = Some (VStr model) →
  d !! "token_usage" = Some (VUsage tokens) →
  chat_body req cfg at_ elapsed w = (inr (ok_response req elapsed a content model tokens), w').
Proof.
  intros Hrun Hs Ha Hc Hm Ht. unfold chat_body. unfold bind at 1. rewrite Hrun.
  unfold bind, dict_item. rewrite Hs, Ha, Hc, Hm, Ht. reflexivity.
Qed.

Lemma chat_body_failed req cfg at_ elapsed w d w' a err :
  (if req_full_crew req then
     run_full_crew (req_message req) (req_jurisdiction req)
                   (opt_or (req_matter_facts req) "") (opt_or (req_document_type req) "")
   else
     run_single_agent (req_message req) (req_jurisdiction req) at_
                      (opt_or (req_matter_facts req) "") (opt_or (req_document_type req) ""))
    w = (inr d, w') →
  d !! "success" = Some (VBool false) → d !! "agent_type" = Some (VStr a) →
  d !! "error" = Some (VStr err) →
  chat_body req cfg at_ elapsed w
  = (inr (failed_response req elapsed a (cfg_model cfg) err), w').
Proof.
  intros Hrun Hs Ha He. unfold chat_body. unfold bind at 1. rewrite Hrun.
  unfold bind, dict_item. rewrite Hs, Ha, He. reflexivity.
Qed.

(** With a key, [crew_chat] answers with the response built from the result
    of the run it started. *)
Lemma crew_chat_with_key req elapsed w :
  Py.truthy (cfg_api_key (get_llm_config w)) = true →
  ∃ resp,
    crew_chat req elapsed w = (Http200 resp, snd (chat_run req w))
    ∧ ((∃ a content model tokens,
          resp = ok_response req elapsed a content model tokens
          ∧ result_field (chat_run req w) "success" = Some (VBool true)
          ∧ result_field (chat_run req w) "agent_type" = Some (VStr a)
          ∧ result_field (chat_run req w) "content" = Some (VStr content)
          ∧ result_field (chat_run req w) "model" = Some (VStr model)
          ∧ result_field (chat_run req w) "token_usage" = Some (VUsage tokens))
       ∨ (∃ a err,
            resp = failed_response req elapsed a (cfg_model (get_llm_config w)) err
            ∧ result_field (chat_run req w) "success" = Some (VBool false)
            ∧ result_field (chat_run req w) "agent_type" = Some (VStr a)
            ∧ result_field (chat_run req w) "error" = Some (VStr err))).
Proof.
  intros Hkey. unfold crew_chat. rewrite Hkey. cbn [negb].
  set (at_ := opt_or (req_agent_type req) (classify_intent (req_message req))).
  unfold try_except, chat_run, result_field. fold at_.
  destruct (req_full_crew req) eqn:Hfull.
  - destruct (run_full_crew _ _ _ _ w) as [r w'] eqn:Hrun.
    destruct (run_full_crew_result (req_message req) (req_jurisdiction req)
                (opt_or (req_matter_facts req) "") (opt_or (req_document_type req) "") w)
      as (d & Hd & Hshape).
    rewrite Hrun in Hd. cbn [fst snd] in *. subst r.
    destruct Hshape as [(result & m & agents & tasks & ->) | (e & ->)].
    + erewrite chat_body_ok; [|rewrite Hfull; exact Hrun|reflexivity..].
      eexists. split; [reflexivity|]. left. do 4 eexists. repeat split.
    + erewrite chat_body_failed; [|rewrite Hfull; exact Hrun|reflexivity..].
      eexists. split; [reflexivity|]. right. do 2 eexists. repeat split.
  - destruct (run_single_agent _ _ _ _ _ w) as [r w'] eqn:Hrun.
    destruct (run_single_agent_result (req_message req) (req_jurisdiction req) at_
                (opt_or (req_matter_facts req) "") (opt_or (req_document_type req) "") w)
      as (d & Hd & Hshape).
    rewrite Hrun in Hd. cbn [fst snd] in *. subst r.
    destruct Hshape as [(result & m & ->) | (a & e & -> & _)].
    + erewrite chat_body_ok; [|rewrite Hfull; exact Hrun|reflexivity..].
      eexists. split; [reflexivity|]. left. do 4 eexists. repeat split.
    + erewrite chat_body_failed; [|rewrite Hfull; exact Hrun|reflexivity..].
      eexists. split; [reflexivity|]. right. do 2 eexists. repeat split.
Qed.

(** X19: without a resolved key [crew_chat] refuses with status 503 and the
    flag that tells the caller to fall back, before any role is chosen: no
    run is started and the world is as before. *)
Theorem crew_chat_without_key req elapsed w :
  cfg_api_key (get_llm_config w) = "" →
  ∃ detail,
    crew_chat req elapsed w = (Http503 detail, w)
    ∧ detail !! "error" = Some (VStr "LLM not configured")
    ∧ detail !! "fallback" = Some (VBool true).
Proof.
  intros H. unfold crew_chat. rewrite H. cbn [Py.truthy negb].
  eexists. split; [reflexivity|]. split; reflexivity.
Qed.

Lemma crew_chat_without_key_witness :
  ∃ detail, crew_chat (sample_request None false) 12 (bare_world [])
            = (Http503 detail, bare_world []).
Proof.
  destruct (crew_chat_without_key (sample_request None false) 12 (bare_world []) eq_refl)
    as (detail & H & _).
  exists detail. exact H.
Defined.

(** X20: [crew_chat] never lets an exception out and refuses only for want
    of a key.  With a key it answers with a response that echoes the
    jurisdiction of the request; a successful response has no error and
    confidence 0.90; a failed one has an error text, empty content, no
    tokens, confidence 0 and the configured model. *)
Theorem crew_chat_response req elapsed w :
  match fst (crew_chat req elapsed w) with
  | Http500 _ => False
  | Http503 _ => cfg_api_key (get_llm_config w) = ""
  | Http200 r =>
      cfg_api_key (get_llm_config w) ≠ ""
      ∧ resp_jurisdiction r = req_jurisdiction req
      ∧ resp_duration_ms r = elapsed
      ∧ resp_crewai_powered r = true
      ∧ (resp_success r = true → resp_error r = None ∧ resp_confidence r = (90, 100))
      ∧ (resp_success r = false →
         resp_error r ≠ None ∧ resp_content r = "" ∧ resp_tokens_used r = 0
         ∧ resp_confidence r = (0, 1)
         ∧ resp_model r = cfg_model (get_llm_config w))
  end.
Proof.
  destruct (Py.truthy (cfg_api_key (get_llm_config w))) eqn:Hkey.
  - destruct (crew_chat_with_key req elapsed w Hkey) as (resp & -> & Hresp).
    cbn [fst]. split; [apply truthy_iff, Hkey|].
    destruct Hresp as [(a & content & model & tokens & -> & _) | (a & err & -> & _)];
      cbn; repeat split; intros; try congruence.
  - unfold crew_chat. rewrite Hkey. cbn [negb fst].
    destruct (cfg_api_key (get_llm_config w)); [reflexivity | discriminate].
Qed.

Lemma crew_chat_response_witness :
  ∃ r, fst (crew_chat (sample_request None false) 12 (quiet_world echo_engine)) = Http200 r
       ∧ resp_error r = None ∧ resp_confidence r = (90, 100).
Proof.
  pose proof (crew_chat_response (sample_request None false) 12 (quiet_world echo_engine)) as H.
  destruct (fst (crew_chat (sample_request None false) 12 (quiet_world echo_engine)))
    as [r| |] eqn:E; [|vm_compute in E; discriminate E..].
  exists r. split; [reflexivity|].
  destruct H as (_ & _ & _ & _ & Hok & _). apply Hok.
  vm_compute in E. injection E as <-. reflexivity.
Defined.

(** X21: in full-crew mode the forced role of the request is not read: the
    answer and the calls are the same whatever it is, and the response names
    "full_crew" as its agent type, on success and on failure. *)
Theorem crew_chat_full_ignores_role req elapsed w at1 at2 :
  req_full_crew req = true →
  crew_chat (with_agent_type req at1) elapsed w
  = crew_chat (with_agent_type req at2) elapsed w
  ∧ ∀ r, fst (crew_chat req elapsed w) = Http200 r → resp_agent_type r = "full_crew".
Proof.
  intros Hfull.
  assert (Hrole : ∀ rq r, req_full_crew rq = true →
            fst (crew_chat rq elapsed w) = Http200 r → resp_agent_type r = "full_crew").
  { intros rq r Hf Hr.
    destruct (Py.truthy (cfg_api_key (get_llm_config w))) eqn:Hkey.
    - destruct (crew_chat_with_key rq elapsed w Hkey) as (resp & Hc & Hresp).
      rewrite Hc in Hr. cbn [fst] in Hr. injection Hr as <-.
      unfold chat_run, result_field in Hresp. rewrite Hf in Hresp.
      destruct (run_full_crew_result (req_message rq) (req_jurisdiction rq)
                  (opt_or (req_matter_facts rq) "") (opt_or (req_document_type rq) "") w)
        as (d & Hd & Hshape).
      rewrite Hd in Hresp.
      assert (Hat : d !! "agent_type" = Some (VStr "full_crew")).
      { destruct Hshape as [(? & ? & ? & ? & ->) | (? & ->)]; reflexivity. }
      destruct Hresp as [(a & c & m & t & -> & _ & Ha & _) | (a & err & -> & _ & Ha & _)];
        rewrite Hat in Ha; injection Ha as <-; reflexivity.
    - unfold crew_chat in Hr. rewrite Hkey in Hr. discriminate Hr. }
  split; [|intros r; apply Hrole, Hfull].
  destruct (Py.truthy (cfg_api_key (get_llm_config w))) eqn:Hkey.
  - destruct (crew_chat_with_key (with_agent_type req at1) elapsed w Hkey)
      as (r1 & H1 & Hr1).
    destruct (crew_chat_with_key (with_agent_type req at2) elapsed w Hkey)
      as (r2 & H2 & Hr2).
    rewrite H1, H2.
    unfold chat_run, result_field in *. cbn [with_agent_type req_full_crew req_message
      req_jurisdiction req_matter_facts req_document_type] in *.
    rewrite Hfull in *. f_equal. f_equal.
    destruct (fst (run_full_crew _ _ _ _ w)) as [e|d]; [destruct Hr1 as [H|H]; decompose [ex and] H; discriminate|].
    destruct Hr1 as [(a & c & m & t & -> & Hs & Ha & Hc & Hm & Ht)
                    | (a & err & -> & Hs & Ha & He)];
      destruct Hr2 as [(a' & c' & m' & t' & -> & Hs' & Ha' & Hc' & Hm' & Ht')
                      | (a' & err' & -> & Hs' & Ha' & He')];
      try congruence.
    + unfold ok_response. cbn. congruence.
    + unfold failed_response. cbn. congruence.
  - unfold crew_chat. rewrite Hkey. reflexivity.
Qed.

Lemma crew_chat_full_ignores_role_witness :
  let w := quiet_world echo_engine in
  crew_chat (with_agent_type (sample_request None true) (Some "lawyer")) 12 w
  = crew_chat (with_agent_type (sample_request None true) None) 12 w.
Proof.
  cbn zeta.
  apply (crew_chat_full_ignores_role (sample_request None true) 12 (quiet_world echo_engine)).
  reflexivity.
Defined.

Lemma opt_or_truthy x d : Py.truthy d = true → Py.truthy (opt_or x d) = true.
Proof.
  intros Hd. destruct x as [s|]; [|exact Hd]. unfold opt_or, Py.or_else.
  destruct (Py.truthy s) eqn:E; assumption.
Qed.

Lemma classify_intent_truthy q : Py.truthy (classify_intent q) = true.
Proof. exact (resolved_role_truthy "" q). Qed.

Lemma resolved_role_forced at_ q : Py.truthy at_ = true → resolved_role at_ q = at_.
Proof. intros H. unfold resolved_role. rewrite H. reflexivity. Qed.

(** X22: in single-agent mode the response names the role the endpoint
    chose, the forced one when it is non-empty and the classified one
    otherwise, on success and on failure alike. *)
Theorem crew_chat_single_reports_role req elapsed w r :
  req_full_crew req = false →
  fst (crew_chat req elapsed w) = Http200 r →
  resp_agent_type r = opt_or (req_agent_type req) (classify_intent (req_message req))
  ∧ resp_agent_type r ≠ "".
Proof.
  intros Hsingle Hr.
  set (at_ := opt_or (req_agent_type req) (classify_intent (req_message req))).
  assert (Ht : Py.truthy at_ = true) by apply opt_or_truthy, classify_intent_truthy.
  assert (Heq : resp_agent_type r = at_).
  { destruct (Py.truthy (cfg_api_key (get_llm_config w))) eqn:Hkey;
      [|unfold crew_chat in Hr; rewrite Hkey in Hr; discriminate Hr].
    destruct (crew_chat_with_key req elapsed w Hkey) as (resp & Hc & Hresp).
    rewrite Hc in Hr. cbn [fst] in Hr. injection Hr as <-.
    unfold chat_run, result_field in Hresp. rewrite Hsingle in Hresp. fold at_ in Hresp.
    destruct (run_single_agent_result (req_message req) (req_jurisdiction req) at_
                (opt_or (req_matter_facts req) "") (opt_or (req_document_type req) "") w)
      as (d & Hd & Hshape).
    rewrite Hd in Hresp.
    assert (Hat : d !! "agent_type" = Some (VStr at_)).
    { pose proof (resolved_role_forced at_ (req_message req) Ht) as Hres.
      destruct Hshape as [(? & ? & ->) | (a & e & -> & [->|[-> E]])].
      - rewrite Hres. reflexivity.
      - rewrite Hres. reflexivity.
      - rewrite E in Ht. discriminate Ht. }
    destruct Hresp as [(a & c & m & t & -> & _ & Ha & _) | (a & err & -> & _ & Ha & _)];
      rewrite Hat in Ha; injection Ha as <-; reflexivity. }
  split; [exact Heq|]. rewrite Heq. apply truthy_iff, Ht.
Qed.

Lemma crew_chat_single_reports_role_witness :
  ∃ r, fst (crew_chat (sample_request None false) 12 (quiet_world (failing_at 0))) = Http200 r
       ∧ resp_agent_type r = "researcher".
Proof.
  destruct (fst (crew_chat (sample_request None false) 12 (quiet_world (failing_at 0))))
    as [r| |] eqn:E; [|vm_compute in E; discriminate E..].
  exists r. split; [reflexivity|].
  destruct (crew_chat_single_reports_role (sample_request None false) 12
              (quiet_world (failing_at 0)) r eq_refl E) as [H _].
  rewrite H. reflexivity.
Defined.

(** A single-agent run with an unknown forced role. *)
Lemma run_single_agent_rejects q j at_ mf dt w :
  at_ ≠ "" → ¬ In at_ role_order →
  run_single_agent q j at_ mf dt w
  = (inr (failed at_ j (match llm_rejects w (llm_kwargs w) with
                        | Some e => e
                        | None => KeyError at_
                        end)), w).
Proof.
  intros Hne Hunk. apply truthy_iff in Hne.
  rewrite run_single_agent_unfold, create_llm_eq. unfold Py.or_else. rewrite Hne.
  destruct (llm_rejects w (llm_kwargs w)) as [e|]; [reflexivity|].
  destruct (create_agents_shape (llm_kwargs w) w) as (a1 & a2 & a3 & a4 & -> & _).
  cbn zeta. rewrite (resolved_role_forced _ _ Hne), (lookup_registry_None _ _ _ _ _ Hunk), Hne.
  reflexivity.
Qed.

(** X23: a forced role that is none of the four is not refused by the
    endpoint: with a key it answers 200 with a failed response that names the
    role and carries the error text, and no completion call is made. *)
Theorem crew_chat_unknown_role req elapsed w r0 :
  cfg_api_key (get_llm_config w) ≠ "" →
  req_full_crew req = false → req_agent_type req = Some r0 →
  r0 ≠ "" → ¬ In r0 role_order →
  ∃ err,
    crew_chat req elapsed w
    = (Http200 (failed_response req elapsed r0 (cfg_model (get_llm_config w)) err), w)
    ∧ (llm_rejects w (llm_kwargs w) = None → err = Repr.repr r0).
Proof.
  intros Hkey Hsingle Hforced Hne Hunk. apply truthy_iff in Hkey.
  unfold crew_chat. rewrite Hkey, Hforced. cbn [negb opt_or].
  assert (Hor : Py.or_else r0 (classify_intent (req_message req)) = r0).
  { unfold Py.or_else. apply truthy_iff in Hne. rewrite Hne. reflexivity. }
  rewrite Hor. unfold try_except.
  erewrite chat_body_failed;
    [|rewrite Hsingle; apply run_single_agent_rejects; assumption|reflexivity..].
  eexists. split; [reflexivity|]. intros ->. reflexivity.
Qed.

Lemma crew_chat_unknown_role_witness :
  let w := quiet_world echo_engine in
  crew_chat (sample_request (Some "lawyer") false) 12 w
  = (Http200 (failed_response (sample_request (Some "lawyer") false) 12 "lawyer"
                              "gpt-5-mini" "'lawyer'"), w).
Proof.
  cbn zeta.
  destruct (crew_chat_unknown_role (sample_request (Some "lawyer") false) 12
              (quiet_world echo_engine) "lawyer") as (err & H & Herr).
  - vm_compute. discriminate.
  - reflexivity.
  - reflexivity.
  - discriminate.
  - cbn. intros [H|[H|[H|[H|[]]]]]; discriminate H.
  - rewrite H, (Herr eq_refl). reflexivity.
Defined.

(** A single-agent run with a valid role and a client. *)
Lemma run_single_agent_valid q j r mf dt w :
  In r role_order → llm_rejects w (llm_kwargs w) = None →
  ∃ agents a,
    create_agents (llm_kwargs w) w = (inr agents, w)
    ∧ lookup_od agents r = Some a
    ∧ let t := render (kind_of r) a q (jx_display j) mf dt in
      run_single_agent q j r mf dt w
      = (inr (match complete w (calls w) t with
              | inr c => single_ok r j {| raw := text c; token_usage := used_tokens c |}
                                   (cfg_model (get_llm_config w))
              | inl e => failed r j e
              end), log_call t w).
Proof.
  intros Hr Hllm.
  assert (Ht : Py.truthy r = true).
  { cbn in Hr. destruct Hr as [<-|[<-|[<-|[<-|[]]]]]; reflexivity. }
  destruct (create_agents_shape (llm_kwargs w) w) as (a1 & a2 & a3 & a4 & Hag & _).
  set (agents := [("researcher", a1); ("analyst", a2); ("drafter", a3); ("strategist", a4)]) in *.
  assert (Ha : ∃ a, lookup_od agents r = Some a).
  { cbn in Hr. destruct Hr as [<-|[<-|[<-|[<-|[]]]]]; eexists; reflexivity. }
  destruct Ha as [a Ha]. exists agents, a.
  split; [exact Hag|]. split; [exact Ha|]. cbn zeta.
  rewrite run_single_agent_unfold, create_llm_eq, Hllm, Hag. cbn zeta.
  rewrite (resolved_role_forced _ _ Ht), Ha, single_task_render.
  cbn [run_tasks]. unfold bind, call_engine, Py.or_else. rewrite Ht.
  destruct (complete w (calls w) _); reflexivity.
Qed.

(** X24: end to end, when no role is forced: with a key and a client, the
    endpoint submits one task, the template of the classified role, and when
    the backend answers it the response is successful and carries the
    classified role, the text and the tokens of the answer, and the resolved
    model. *)
Theorem crew_chat_answers req elapsed w :
  cfg_api_key (get_llm_config w) ≠ "" →
  llm_rejects w (llm_kwargs w) = None →
  req_full_crew req = false → req_agent_type req = None →
  ∃ a,
    let role := classify_intent (req_message req) in
    let t := render (kind_of role) a (req_message req) (jx_display (req_jurisdiction req))
                    (opt_or (req_matter_facts req) "") (opt_or (req_document_type req) "") in
    snd (crew_chat req elapsed w) = log_call t w
    ∧ ∀ c, complete w (calls w) t = inr c →
           fst (crew_chat req elapsed w)
           = Http200 (ok_response req elapsed role (text c)
                                  (cfg_model (get_llm_config w)) (used_tokens c)).
Proof.
  intros Hkey Hllm Hsingle Hnone. apply truthy_iff in Hkey.
  destruct (run_single_agent_valid (req_message req) (req_jurisdiction req)
              (classify_intent (req_message req))
              (opt_or (req_matter_facts req) "") (opt_or (req_document_type req) "") w
              (classify_intent_in_roles _) Hllm) as (agents & a & _ & _ & Hrun).
  exists a. cbn zeta in *.
  unfold crew_chat. rewrite Hkey, Hnone. cbn [negb opt_or]. unfold try_except.
  destruct (complete w (calls w) _) as [e|c] eqn:Hc.
  - erewrite chat_body_failed; [|rewrite Hsingle; exact Hrun|reflexivity..].
    split; [reflexivity|]. intros c [=].
  - erewrite chat_body_ok; [|rewrite Hsingle; exact Hrun|reflexivity..].
    split; [reflexivity|]. intros c' [= <-]. reflexivity.
Qed.

Lemma crew_chat_answers_witness :
  ∃ content,
    fst (crew_chat (sample_request None false) 12 (quiet_world echo_engine))
    = Http200 (ok_response (sample_request None false) 12 "researcher"
                           content "gpt-5-mini" 100).
Proof.
  destruct (crew_chat_answers (sample_request None false) 12 (quiet_world echo_engine))
    as (a & _ & H).
  - vm_compute. discriminate.
  - reflexivity.
  - reflexivity.
  - reflexivity.
  - cbn zeta in H. eexists. exact (H _ eq_refl).
Defined.

(** ** The configuration endpoints *)

Lemma length_app_string a b :
  String.length (a +:+ b) = (String.length a + String.length b)%nat.
Proof. induction a as [|c a IH]; [reflexivity|]. simpl. rewrite IH. reflexivity. Qed.

Lemma length_substring n : ∀ s,
  (n ≤ String.length s)%nat → String.length (String.substring 0 n s) = n.
Proof.
  induction n as [|n IH]; intros s H.
  - destruct s; reflexivity.
  - destruct s as [|c s]; [cbn in H; lia|]. cbn in *. rewrite IH; [reflexivity|lia].
Qed.

Lemma startswith_substring n : ∀ s, Py.startswith s (String.substring 0 n s) = true.
Proof.
  induction n as [|n IH]; intros s.
  - destruct s; reflexivity.
  - destruct s as [|c s]; [reflexivity|]. cbn. rewrite Ascii.eqb_refl. apply IH.
Qed.

(** X25: the configuration endpoint does not show the key: its answer
    depends on the key only through whether one is resolved, so two
    configurations that differ in the key alone get the same answer.  It shows
    the model, the version, and at most the first 60 characters of the base
    URL: a longer URL is cut there and marked with three dots, a shorter one
    is shown whole. *)
Theorem config_shows version w :
  let base := cfg_base_url (get_llm_config w) in
  let c := config version w in
  (conf_api_key_set c = true ↔ cfg_api_key (get_llm_config w) ≠ "")
  ∧ conf_model c = cfg_model (get_llm_config w)
  ∧ (String.length (conf_base_url c) ≤ 63)%nat
  ∧ ((String.length base ≤ 60)%nat → conf_base_url c = base)
  ∧ ((60 < String.length base)%nat →
     String.length (conf_base_url c) = 63%nat
     ∧ ∃ head, conf_base_url c = head +:+ "..."
               ∧ String.length head = 60%nat ∧ Py.startswith base head = true)
  ∧ conf_crewai_version c = version
  ∧ (∀ w2,
       cfg_model (get_llm_config w2) = cfg_model (get_llm_config w) →
       cfg_base_url (get_llm_config w2) = cfg_base_url (get_llm_config w) →
       (cfg_api_key (get_llm_config w2) = "" ↔ cfg_api_key (get_llm_config w) = "") →
       config version w2 = config version w).
Proof.
  cbn zeta. unfold config. cbn [conf_api_key_set conf_model conf_base_url conf_crewai_version].
  set (base := cfg_base_url (get_llm_config w)).
  split; [apply truthy_iff|]. split; [reflexivity|].
  assert (Hurl : (String.length (shown_base_url base) ≤ 63)%nat
                 ∧ ((String.length base ≤ 60)%nat → shown_base_url base = base)
                 ∧ ((60 < String.length base)%nat →
                    String.length (shown_base_url base) = 63%nat
                    ∧ ∃ head, shown_base_url base = head +:+ "..."
                              ∧ String.length head = 60%nat
                              ∧ Py.startswith base head = true)).
  { unfold shown_base_url.
    destruct (Nat.ltb_spec 60 (String.length base)) as [Hlong|Hshort].
    - assert (Hlen : String.length (String.substring 0 60 base) = 60%nat)
        by (apply length_substring; lia).
      rewrite length_app_string, Hlen.
      split; [cbn; lia|]. split; [lia|]. intros _. split; [reflexivity|].
      exists (String.substring 0 60 base).
      split; [reflexivity|]. split; [exact Hlen | apply startswith_substring].
    - split; [lia|]. split; [reflexivity | lia]. }
  destruct Hurl as (Hmax & Hshort & Hlong).
  split; [exact Hmax|]. split; [exact Hshort|]. split; [exact Hlong|].
  split; [reflexivity|].
  intros w2 Hm Hu Hk. rewrite Hm, Hu. f_equal.
  destruct (cfg_api_key (get_llm_config w2)), (cfg_api_key (get_llm_config w));
    try reflexivity; destruct Hk as [H1 H2].
  - discriminate (H1 eq_refl).
  - discriminate (H2 eq_refl).
Qed.

Lemma config_shows_witness :
  let w := bare_world
             [("OPENAI_API_KEY", "sk-1");
              ("OPENAI_BASE_URL",
               "https://gateway.example.org/v1/projects/clerky/regions/us-central/openai")] in
  let w2 := bare_world
              [("OPENAI_API_KEY", "sk-another-key");
               ("OPENAI_BASE_URL",
                "https://gateway.example.org/v1/projects/clerky/regions/us-central/openai")] in
  String.length (conf_base_url (config "0.1" w)) = 63%nat
  ∧ conf_api_key_set (config "0.1" w) = true
  ∧ config "0.1" w2 = config "0.1" w.
Proof.
  cbn zeta.
  destruct (config_shows "0.1"
              (bare_world
                 [("OPENAI_API_KEY", "sk-1");
                  ("OPENAI_BASE_URL",
                   "https://gateway.example.org/v1/projects/clerky/regions/us-central/openai")]))
    as (Hkey & _ & _ & _ & Hlong & _ & Hsame).
  split; [|split].
  - apply Hlong. vm_compute. lia.
  - apply Hkey. vm_compute. discriminate.
  - apply Hsame; [reflexivity | reflexivity |].
    split; intros H; vm_compute in H; discriminate H.
Defined.

(** An assignment to one of the three variables of [configure_llm]. *)
Lemma setenv_accepted k v w :
  has_nul k = false → Py.truthy k = true → Py.contains "=" k = false →
  setenv k v w = if has_nul v then (inl (Error "ValueError" "embedded null byte"), w)
                 else (inr tt, putenv k v w).
Proof.
  intros Hk Ht He. unfold setenv. rewrite Hk, Ht, He. cbn [orb negb].
  destruct (has_nul v); reflexivity.
Qed.

Ltac by_assignments req :=
  unfold configure_env, configured, assigned, bind, ret;
  rewrite ?(setenv_accepted "OPENAI_API_KEY"), ?(setenv_accepted "OPENAI_BASE_URL"),
    ?(setenv_accepted "CREWAI_MODEL") by reflexivity;
  destruct (has_nul (new_api_key req)) eqn:Hnk;
  destruct (new_base_url req) as [u|]; try destruct (Py.truthy u);
  rewrite ?(setenv_accepted "OPENAI_BASE_URL") by reflexivity;
  try destruct (has_nul u) eqn:Hnu;
  destruct (new_model req) as [m|]; try destruct (Py.truthy m);
  rewrite ?(setenv_accepted "CREWAI_MODEL") by reflexivity;
  try destruct (has_nul m) eqn:Hnm;
  cbn [existsb app orb].

Lemma configure_env_accepts req w :
  existsb has_nul (assigned req) = false →
  configure_env req w = (inr tt, configured req w).
Proof.
  by_assignments req; rewrite ?Hnk, ?Hnu, ?Hnm; cbn [orb];
    intros H; try discriminate H; reflexivity.
Qed.

Lemma configure_env_refuses req w :
  existsb has_nul (assigned req) = true →
  ∃ w1,
    configure_env req w = (inl (Error "ValueError" "embedded null byte"), w1)
    ∧ calls w1 = calls w ∧ llm_rejects w1 = llm_rejects w
    ∧ (has_nul (new_api_key req) = true → w1 = w)
    ∧ (has_nul (new_api_key req) = false →
       environ w1 !! "OPENAI_API_KEY" = Some (new_api_key req)).
Proof.
  by_assignments req; rewrite ?Hnk, ?Hnu, ?Hnm; cbn [orb];
    intros H; try discriminate H;
    (eexists; split; [reflexivity|]; split; [reflexivity|]; split; [reflexivity|];
     split; intros E; try discriminate E; try reflexivity;
     cbn [putenv environ];
     repeat first [ rewrite lookup_insert_eq | rewrite lookup_insert_ne by discriminate ];
     reflexivity).
Qed.

Lemma configured_keeps req w :
  yaml_openai (configured req w) = yaml_openai w
  ∧ calls (configured req w) = calls w
  ∧ llm_rejects (configured req w) = llm_rejects w
  ∧ complete (configured req w) = complete w.
Proof.
  unfold configured.
  destruct (new_base_url req) as [u|]; [destruct (Py.truthy u)|];
    (destruct (new_model req) as [m|]; [destruct (Py.truthy m)|]); repeat split.
Qed.

Lemma configured_getenv req w :
  (∀ d, getenv (configured req w) "OPENAI_API_KEY" d = new_api_key req)
  ∧ (∀ d, getenv (configured req w) "CREWAI_MODEL" d
          = match new_model req with
            | Some m => if Py.truthy m then m else getenv w "CREWAI_MODEL" d
            | None => getenv w "CREWAI_MODEL" d
            end)
  ∧ environ (configured req w) !! "OPENAI_API_KEY" = Some (new_api_key req).
Proof.
  unfold configured, getenv.
  destruct (new_base_url req) as [u|]; [destruct (Py.truthy u)|];
    (destruct (new_model req) as [m|]; [destruct (Py.truthy m)|]);
    cbn [putenv environ]; repeat split; try intros d;
    repeat first [ rewrite lookup_insert_eq | rewrite lookup_insert_ne by discriminate ];
    reflexivity.
Qed.

(** The connectivity test: no request without a client, one request with
    one, and the answer tells whether a non-empty text came back. *)
Lemma llm_probe_eq p w :
  llm_probe (p, w)
  = match llm_rejects w (llm_kwargs w) with
    | Some _ => (inr false, (p, w))
    | None =>
        (inr match probe_answer p (probes_sent p) (llm_kwargs w) with
             | inr resp => Py.truthy resp
             | inl _ => false
             end,
         ({| probe_answer := probe_answer p;
             probes_sent := probes_sent p ++ [llm_kwargs w] |}, w))
    end.
Proof.
  unfold llm_probe, try_except. unfold bind at 1. unfold in_world. cbn [fst snd].
  rewrite create_llm_eq.
  destruct (llm_rejects w (llm_kwargs w)); [reflexivity|].
  unfold bind, llm_call, ret. cbn [fst snd].
  destruct (probe_answer p (probes_sent p) (llm_kwargs w)) as [e|resp]; [reflexivity|].
  destruct resp; reflexivity.
Qed.

(** What [configure_llm] does when the three assignments are accepted. *)
Lemma configure_llm_accepted version req p w :
  existsb has_nul (assigned req) = false →
  let w' := configured req w in
  ∃ d reachable p',
    configure_llm version req (p, w) = (inr d, (p', w'))
    ∧ llm_probe (p, w') = (inr reachable, (p', w'))
    ∧ d !! "success" = Some (VBool reachable)
    ∧ d !! "llm_reachable" = Some (VBool reachable)
    ∧ d !! "model" = Some (VStr (cfg_model (get_llm_config w'))).
Proof.
  intros Hok. cbn zeta. unfold configure_llm.
  unfold bind at 1. unfold in_world at 1. cbn [fst snd].
  rewrite (configure_env_accepts req w Hok).
  unfold bind at 1. unfold in_world, gets. cbn [fst snd].
  unfold bind, ret. rewrite llm_probe_eq.
  destruct (llm_rejects (configured req w) (llm_kwargs (configured req w)));
    do 3 eexists; (split; [reflexivity|]); (split; [reflexivity|]); repeat split.
Qed.

(** X26: [configure_llm] raises exactly when a value it assigns to the
    environment holds a null character, with a [ValueError] and before
    anything is sent to the backend; otherwise it answers, whatever the
    constructor of the client and the test request do, after sending one test
    request when the client could be built and none when it could not, and it
    reports success exactly when a non-empty text came back.  It submits no
    task.  The new key is in the environment afterwards whenever the key
    itself was accepted, even if a later assignment raises or the
    verification fails. *)
Theorem configure_llm_persists version req p w :
  let run := configure_llm version req (p, w) in
  let p' := fst (snd run) in
  let w' := snd (snd run) in
  calls w' = calls w
  ∧ (has_nul (new_api_key req) = false →
     environ w' !! "OPENAI_API_KEY" = Some (new_api_key req))
  ∧ (has_nul (new_api_key req) = true → w' = w)
  ∧ (existsb has_nul (assigned req) = true →
     fst run = inl (Error "ValueError" "embedded null byte") ∧ p' = p)
  ∧ (existsb has_nul (assigned req) = false →
     w' = configured req w
     ∧ probes_sent p'
       = probes_sent p ++ match llm_rejects w' (llm_kwargs w') with
                          | Some _ => []
                          | None => [llm_kwargs w']
                          end
     ∧ ∃ d reachable,
         fst run = inr d
         ∧ d !! "success" = Some (VBool reachable)
         ∧ d !! "llm_reachable" = Some (VBool reachable)
         ∧ (reachable = true
            ↔ llm_rejects w' (llm_kwargs w') = None
              ∧ ∃ resp, probe_answer p (probes_sent p) (llm_kwargs w') = inr resp
                        ∧ resp ≠ "")).
Proof.
  cbn zeta.
  destruct (existsb has_nul (assigned req)) eqn:Hnul.
  - destruct (configure_env_refuses req w Hnul) as (w1 & Henv & Hcalls & _ & Hsame & Hkey).
    assert (Hrun : configure_llm version req (p, w)
                   = (inl (Error "ValueError" "embedded null byte"), (p, w1))).
    { unfold configure_llm. unfold bind at 1. unfold in_world at 1. cbn [fst snd].
      rewrite Henv. reflexivity. }
    rewrite Hrun. cbn [fst snd].
    split; [exact Hcalls|]. split; [exact Hkey|]. split; [exact Hsame|].
    split; [intros _; split; reflexivity | discriminate].
  - destruct (configure_llm_accepted version req p w Hnul)
      as (d & reachable & p' & Hrun & Hprobe & Hs & Hr & _).
    cbn zeta in *. rewrite Hrun. cbn [fst snd].
    destruct (configured_keeps req w) as (_ & Hcalls & _).
    destruct (configured_getenv req w) as (_ & _ & Hkey).
    split; [exact Hcalls|]. split; [intros _; exact Hkey|].
    split.
    { intros Hk. exfalso. unfold assigned in Hnul. cbn [existsb] in Hnul.
      rewrite Hk in Hnul. discriminate Hnul. }
    split; [discriminate|]. intros _. split; [reflexivity|].
    rewrite llm_probe_eq in Hprobe.
    destruct (llm_rejects (configured req w) (llm_kwargs (configured req w))).
    + injection Hprobe as <- <-. split; [rewrite app_nil_r; reflexivity|].
      exists d, false. split; [reflexivity|]. split; [exact Hs|]. split; [exact Hr|].
      split; [discriminate | intros [H _]; discriminate H].
    + injection Hprobe as <- <-. split; [reflexivity|].
      eexists d, _. split; [reflexivity|]. split; [exact Hs|]. split; [exact Hr|].
      destruct (probe_answer p (probes_sent p) (llm_kwargs (configured req w)))
        as [e|resp].
      * split; [discriminate | intros [_ (r & H & _)]; discriminate H].
      * rewrite truthy_iff. split.
        -- intros H. split; [reflexivity|]. eauto.
        -- intros [_ (r & [= <-] & H)]. exact H.
Qed.

Lemma configure_llm_persists_witness :
  let ok := {| new_api_key := "sk-new"; new_base_url := None; new_model := Some "gpt-4o" |} in
  let bad := {| new_api_key := "sk-new"; new_base_url := None;
                new_model := Some ("gpt" +:+ nul) |} in
  environ (snd (snd (configure_llm "0.1" ok (refusing, bare_world [])))) !! "OPENAI_API_KEY"
  = Some "sk-new"
  ∧ length (probes_sent (fst (snd (configure_llm "0.1" ok (refusing, bare_world []))))) = 1%nat
  ∧ fst (configure_llm "0.1" bad (refusing, bare_world []))
    = inl (Error "ValueError" "embedded null byte")
  ∧ environ (snd (snd (configure_llm "0.1" bad (refusing, bare_world [])))) !! "OPENAI_API_KEY"
    = Some "sk-new".
Proof.
  cbn zeta.
  destruct (configure_llm_persists "0.1"
              {| new_api_key := "sk-new"; new_base_url := None; new_model := Some "gpt-4o" |}
              refusing (bare_world [])) as (_ & Hkey & _ & _ & Hok).
  destruct (configure_llm_persists "0.1"
              {| new_api_key := "sk-new"; new_base_url := None;
                 new_model := Some ("gpt" +:+ nul) |}
              refusing (bare_world [])) as (_ & Hkey' & _ & Hbad & _).
  split; [apply Hkey; reflexivity|].
  split.
  - destruct Hok as (Hw & Hsent & _); [reflexivity|].
    rewrite Hsent, Hw. reflexivity.
  - split; [apply Hbad; reflexivity | apply Hkey'; reflexivity].
Defined.

(** The model resolved once a key of the environment is set and no usable
    YAML key is there, or a usable YAML key is there. *)
Lemma cfg_model_with_key w :
  (getenv w "OPENAI_API_KEY" "" ≠ ""
   ∨ ∃ k u, yaml_openai w = Some (k, u) ∧ usable k = true) →
  cfg_model (get_llm_config w) = getenv w "CREWAI_MODEL" "gpt-5-mini".
Proof.
  intros Hsrc. unfold get_llm_config, usable in *.
  destruct (yaml_openai w) as [[k u]|].
  - destruct (Py.truthy k && negb (Py.startswith k "${")) eqn:Hk.
    + apply andb_true_iff in Hk as [Hk _]. rewrite Hk, andb_false_r. reflexivity.
    + destruct Hsrc as [Hsrc|(k' & u' & [= <- <-] & Hsrc)]; [|congruence].
      apply truthy_iff in Hsrc. rewrite Hsrc, andb_false_r. reflexivity.
  - destruct Hsrc as [Hsrc|(k' & u' & [=] & _)].
    apply truthy_iff in Hsrc. rewrite Hsrc, andb_false_r. reflexivity.
Qed.

(** X27: when [configure_llm] is given a non-empty key and its assignments
    are accepted, it answers, and in the world it leaves the resolved key is
    the new one, and the next client is built with it, unless the YAML file
    holds a usable key, which still wins; a model given with the request
    becomes the resolved model, and without one the model is [CREWAI_MODEL]
    or "gpt-5-mini"; the answer names the resolved model. *)
Theorem configure_llm_takes_effect version req p w :
  new_api_key req ≠ "" → existsb has_nul (assigned req) = false →
  let run := configure_llm version req (p, w) in
  let w' := snd (snd run) in
  (∃ d, fst run = inr d ∧ d !! "model" = Some (VStr (cfg_model (get_llm_config w'))))
  ∧ ((∀ k u, yaml_openai w = Some (k, u) → usable k = false) →
     cfg_api_key (get_llm_config w') = new_api_key req
     ∧ api_key (llm_kwargs w') = Some (new_api_key req))
  ∧ (∀ k u, yaml_openai w = Some (k, u) → usable k = true →
            cfg_api_key (get_llm_config w') = k)
  ∧ (∀ m, new_model req = Some m → m ≠ "" → cfg_model (get_llm_config w') = m)
  ∧ (new_model req = None →
     cfg_model (get_llm_config w') = getenv w "CREWAI_MODEL" "gpt-5-mini").
Proof.
  intros Hkey Hnul. cbn zeta.
  destruct (configure_llm_accepted version req p w Hnul)
    as (d & reachable & p' & Hrun & _ & _ & _ & Hmod).
  cbn zeta in *. rewrite Hrun. cbn [fst snd].
  split; [exists d; split; [reflexivity | exact Hmod]|].
  destruct (configured_keeps req w) as (Hyaml & _).
  destruct (configured_getenv req w) as (Henv & Hmodel & _).
  assert (Hkey' := Hkey). apply truthy_iff in Hkey'.
  assert (Hres : cfg_api_key (get_llm_config (configured req w))
                 = match yaml_openai w with
                   | Some (k, _) => if usable k then k else new_api_key req
                   | None => new_api_key req
                   end).
  { rewrite usable_key_of_config, Hyaml, Henv. cbn zeta.
    destruct (yaml_openai w) as [[k u]|].
    - destruct (usable k) eqn:Hk; [|rewrite Hkey'; reflexivity].
      unfold usable in Hk. apply andb_true_iff in Hk as [-> _]. reflexivity.
    - rewrite Hkey'. reflexivity. }
  assert (Hm : cfg_model (get_llm_config (configured req w))
               = getenv (configured req w) "CREWAI_MODEL" "gpt-5-mini").
  { apply cfg_model_with_key. left. rewrite Henv. exact Hkey. }
  split; [|split; [|split]].
  - intros Hno.
    assert (E : cfg_api_key (get_llm_config (configured req w)) = new_api_key req).
    { rewrite Hres. destruct (yaml_openai w) as [[k u]|]; [|reflexivity].
      rewrite (Hno k u eq_refl). reflexivity. }
    split; [exact E|]. unfold llm_kwargs. cbn [api_key]. rewrite E, Hkey'. reflexivity.
  - intros k u Hy Hk. rewrite Hres, Hy, Hk. reflexivity.
  - intros m Hreq Hne. rewrite Hm, Hmodel, Hreq. apply truthy_iff in Hne. rewrite Hne.
    reflexivity.
  - intros Hreq. rewrite Hm, Hmodel, Hreq. reflexivity.
Qed.

Lemma configure_llm_takes_effect_witness :
  let req := {| new_api_key := "sk-new"; new_base_url := None; new_model := Some "gpt-4o" |} in
  cfg_api_key (get_llm_config
                 (snd (snd (configure_llm "0.1" req
                              (refusing, bare_world [("NOVITA_API_KEY", "nv")])))))
  = "sk-new"
  ∧ cfg_api_key (get_llm_config
                   (snd (snd (configure_llm "0.1" req
                                (refusing, file_world (Some ("sk-yaml", "")) [])))))
    = "sk-yaml"
  ∧ cfg_model (get_llm_config
                 (snd (snd (configure_llm "0.1" req (answering "OK", bare_world [])))))
    = "gpt-4o".
Proof.
  cbn zeta.
  split; [|split].
  - apply (configure_llm_takes_effect "0.1"
             {| new_api_key := "sk-new"; new_base_url := None; new_model := Some "gpt-4o" |}
             refusing (bare_world [("NOVITA_API_KEY", "nv")]));
      [discriminate | reflexivity |].
    intros k u H. discriminate H.
  - apply (configure_llm_takes_effect "0.1"
             {| new_api_key := "sk-new"; new_base_url := None; new_model := Some "gpt-4o" |}
             refusing (file_world (Some ("sk-yaml", "")) [])
             ltac:(discriminate) eq_refl) with (u := ""); reflexivity.
  - apply (configure_llm_takes_effect "0.1"
             {| new_api_key := "sk-new"; new_base_url := None; new_model := Some "gpt-4o" |}
             (answering "OK") (bare_world []) ltac:(discriminate) eq_refl);
      [reflexivity | discriminate].
Defined.

(** X28: the health endpoint never raises and submits no task.  It sends
    one test request to the backend when a key is resolved and the client
    could be built, and none otherwise; it reports "ok" when the model is
    reachable and "degraded" when it is not, and the model counts as
    reachable exactly when that request was sent and a non-empty text came
    back. *)
Theorem health_reports version uptime p w :
  ∃ h p',
    health version uptime (p, w) = (inr h, (p', w))
    ∧ probe_answer p' = probe_answer p
    ∧ probes_sent p'
      = probes_sent p ++ (if Py.truthy (cfg_api_key (get_llm_config w))
                          then match llm_rejects w (llm_kwargs w) with
                               | Some _ => []
                               | None => [llm_kwargs w]
                               end
                          else [])
    ∧ health_status h = (if health_llm_reachable h then "ok" else "degraded")
    ∧ health_uptime_ms h = uptime
    ∧ health_model h = cfg_model (get_llm_config w)
    ∧ (health_llm_configured h = true ↔ cfg_api_key (get_llm_config w) ≠ "")
    ∧ (health_llm_reachable h = true
       ↔ cfg_api_key (get_llm_config w) ≠ ""
         ∧ llm_rejects w (llm_kwargs w) = None
         ∧ ∃ resp, probe_answer p (probes_sent p) (llm_kwargs w) = inr resp ∧ resp ≠ "").
Proof.
  unfold health. unfold bind at 1. unfold in_world, gets. cbn [fst snd].
  unfold bind, ret.
  destruct (Py.truthy (cfg_api_key (get_llm_config w))) eqn:Hkey.
  - rewrite llm_probe_eq. apply truthy_iff in Hkey.
    destruct (llm_rejects w (llm_kwargs w)).
    + do 2 eexists. split; [reflexivity|]. cbn.
      split; [reflexivity|]. split; [rewrite app_nil_r; reflexivity|].
      do 3 (split; [reflexivity|]).
      split; [split; [intros _; exact Hkey | reflexivity]|].
      split; [discriminate | intros (_ & H & _); discriminate H].
    + do 2 eexists. split; [reflexivity|]. cbn.
      split; [reflexivity|]. split; [reflexivity|].
      do 3 (split; [reflexivity|]).
      split; [split; [intros _; exact Hkey | reflexivity]|].
      destruct (probe_answer p (probes_sent p) (llm_kwargs w)) as [e|resp].
      * split; [discriminate | intros (_ & _ & r & H & _); discriminate H].
      * rewrite truthy_iff. split.
        -- intros H. split; [exact Hkey|]. split; [reflexivity|]. eauto.
        -- intros (_ & _ & r & [= <-] & H). exact H.
  - do 2 eexists. split; [reflexivity|]. cbn.
    split; [reflexivity|]. split; [rewrite app_nil_r; reflexivity|].
    do 3 (split; [reflexivity|]).
    assert (Hno : cfg_api_key (get_llm_config w) = "").
    { destruct (cfg_api_key (get_llm_config w)); [reflexivity | discriminate]. }
    split; [split; [discriminate | congruence]|].
    split; [discriminate | intros (H & _); congruence].
Qed.

Lemma health_reports_witness :
  ∃ h p', health "0.1" 5 (answering "OK", quiet_world echo_engine)
          = (inr h, (p', quiet_world echo_engine))
          ∧ health_llm_reachable h = true
          ∧ length (probes_sent p') = 1%nat.
Proof.
  destruct (health_reports "0.1" 5 (answering "OK") (quiet_world echo_engine))
    as (h & p' & Hrun & _ & Hsent & _ & _ & _ & _ & Hreach).
  exists h, p'. split; [exact Hrun|]. split.
  - apply Hreach. split; [vm_compute; discriminate|]. split; [reflexivity|].
    exists "OK". split; [reflexivity | discriminate].
  - rewrite Hsent. reflexivity.
Defined.
